(** * PTP slave and health monitor of seq_update: model and properties

    A shallow embedding of the parts of the repository that the
    specification talks about:

    - [include/ptp_types.h]: states, timestamps, the session record and the
      timestamp helpers;
    - [src/ptp/ptp_state.c]: the Sync and Delay_Resp handlers, the
      offset/delay calculation and the state machine tick;
    - [src/ptp/ptp_packet.c]: packet classification, dispatch and the
      Delay_Req builder;
    - [include/health_types.h] and [src/health_monitor/health_monitor.c]:
      the size-directed classifier of the health responses.

    Machine integers are values of [Z] with the wrap-around of their C type
    written where the C code can wrap.  Packet buffers are lists of bytes
    (values of [Z] in 0..255).  The host is little-endian (x86-64, the only
    target of DPDK builds of this code base), so a [uint16_t] or [uint32_t]
    struct field overlaid on a packet is a little-endian load and the
    [rte_be_to_cpu_*] conversions are byte swaps.  Clock readings
    ([rte_rdtsc], [clock_gettime]) and the outcome of the transmit path are
    inputs of the functions that consult them.  Debug printing is left out. *)

From stdpp Require Import base list.
From Stdlib Require Import ZArith Lia Bool List.
Import ListNotations.

Local Open Scope Z_scope.

(** ** Machine integers *)

Module Int.

Definition wrap8 (x : Z) : Z := x mod 2 ^ 8.
Definition wrap16 (x : Z) : Z := x mod 2 ^ 16.
Definition wrap32 (x : Z) : Z := x mod 2 ^ 32.
Definition wrap64 (x : Z) : Z := x mod 2 ^ 64.

(** The value of a 64-bit pattern read as [int64_t]; also the result of a
    signed 64-bit operation on two's complement hardware. *)
Definition to_int64 (x : Z) : Z := (x + 2 ^ 63) mod 2 ^ 64 - 2 ^ 63.

(** [int8_t] from a byte. *)
Definition to_int8 (x : Z) : Z := (x + 2 ^ 7) mod 2 ^ 8 - 2 ^ 7.

(** C division truncates toward zero. *)
Definition c_div (a b : Z) : Z := Z.quot a b.

Definition is_byte (b : Z) : Prop := 0 <= b < 256.
Definition is_u16 (x : Z) : Prop := 0 <= x < 2 ^ 16.
Definition is_u64 (x : Z) : Prop := 0 <= x < 2 ^ 64.

Definition bswap16 (x : Z) : Z :=
  Z.lor (Z.shiftl (Z.land x 0xFF) 8) (Z.land (Z.shiftr x 8) 0xFF).

Definition bswap32 (x : Z) : Z :=
  Z.lor (Z.lor (Z.shiftl (Z.land x 0xFF) 24)
               (Z.shiftl (Z.land (Z.shiftr x 8) 0xFF) 16))
        (Z.lor (Z.shiftl (Z.land (Z.shiftr x 16) 0xFF) 8)
               (Z.land (Z.shiftr x 24) 0xFF)).

(** DPDK byte order conversions on a little-endian host. *)
Definition rte_be_to_cpu_16 (x : Z) : Z := bswap16 x.
Definition rte_cpu_to_be_16 (x : Z) : Z := bswap16 x.
Definition rte_be_to_cpu_32 (x : Z) : Z := bswap32 x.
Definition rte_cpu_to_be_32 (x : Z) : Z := bswap32 x.

End Int.
Export Int.

(** ** Bytes of a buffer *)

Module Mem.

(** [buf[i]]; a read past the modelled bytes yields 0. *)
Definition byte_at (buf : list Z) (i : Z) : Z := nth (Z.to_nat i) buf 0.

(** A [uint16_t] field at byte offset [i], as the host loads it. *)
Definition load16 (buf : list Z) (i : Z) : Z :=
  byte_at buf i + 2 ^ 8 * byte_at buf (i + 1).

(** A [uint32_t] field at byte offset [i], as the host loads it. *)
Definition load32 (buf : list Z) (i : Z) : Z :=
  byte_at buf i + 2 ^ 8 * byte_at buf (i + 1)
  + 2 ^ 16 * byte_at buf (i + 2) + 2 ^ 24 * byte_at buf (i + 3).

Definition load64 (buf : list Z) (i : Z) : Z :=
  load32 buf i + 2 ^ 32 * load32 buf (i + 4).

(** The bytes the host stores for a [uint16_t] / [uint32_t] field. *)
Definition store16 (x : Z) : list Z := [Z.land x 0xFF; Z.land (Z.shiftr x 8) 0xFF].

Definition store32 (x : Z) : list Z :=
  [Z.land x 0xFF; Z.land (Z.shiftr x 8) 0xFF;
   Z.land (Z.shiftr x 16) 0xFF; Z.land (Z.shiftr x 24) 0xFF].

Definition store64 (x : Z) : list Z :=
  store32 (Z.land x 0xFFFFFFFF) ++ store32 (Z.shiftr x 32).

(** [memcpy(buf + off, bs, length bs)] inside a buffer. *)
Definition write_at (off : nat) (bs : list Z) (buf : list Z) : list Z :=
  firstn off buf ++ bs ++ skipn (off + length bs) buf.

(** [n] bytes of [buf] from offset [off]. *)
Definition slice (off n : nat) (buf : list Z) : list Z :=
  firstn n (skipn off buf).

End Mem.
Export Mem.

(** ** [ptp_types.h] *)

Definition PTP_ETHERTYPE : Z := 0x88F7.
Definition RTE_ETHER_TYPE_VLAN : Z := 0x8100.

Definition PTP_MSG_SYNC : Z := 0x00.
Definition PTP_MSG_DELAY_REQ : Z := 0x01.
Definition PTP_MSG_FOLLOW_UP : Z := 0x08.
Definition PTP_MSG_DELAY_RESP : Z := 0x09.
Definition PTP_MSG_ANNOUNCE : Z := 0x0B.

Definition PTP_CTRL_DELAY_REQ : Z := 0x01.
Definition PTP_HEADER_LEN : Z := 34.
Definition PTP_VERSION : Z := 2.
Definition PTP_DEFAULT_DOMAIN : Z := 10.
Definition PTP_LOG_DELAY_REQ_INT : Z := -1.
Definition PTP_TX_QUEUE_ID : Z := 5.

(** [config.h] *)
Definition PTP_SYNC_TIMEOUT_SEC : Z := 3.
Definition PTP_DELAY_RESP_TIMEOUT_SEC : Z := 2.
Definition PTP_DELAY_REQ_INTERVAL_MS : Z := 100.

Inductive ptp_state_t : Type :=
  | PTP_STATE_INIT
  | PTP_STATE_LISTENING
  | PTP_STATE_SYNC_RECEIVED
  | PTP_STATE_DELAY_REQ_SENT
  | PTP_STATE_SYNCED
  | PTP_STATE_ERROR.

Definition ptp_state_eqb (a b : ptp_state_t) : bool :=
  match a, b with
  | PTP_STATE_INIT, PTP_STATE_INIT
  | PTP_STATE_LISTENING, PTP_STATE_LISTENING
  | PTP_STATE_SYNC_RECEIVED, PTP_STATE_SYNC_RECEIVED
  | PTP_STATE_DELAY_REQ_SENT, PTP_STATE_DELAY_REQ_SENT
  | PTP_STATE_SYNCED, PTP_STATE_SYNCED
  | PTP_STATE_ERROR, PTP_STATE_ERROR => true
  | _, _ => false
  end.

(** The packed 10-byte timestamp.  The fields hold what the host reads
    from the wire bytes, that is, the network-order value byte-swapped. *)
Record ptp_timestamp_t : Type := Build_ptp_timestamp_t {
  seconds_msb : Z;
  seconds_lsb : Z;
  nanoseconds : Z
}.

Record ptp_port_identity_t : Type := Build_ptp_port_identity_t {
  clock_identity : list Z;
  port_number : Z
}.

Record ptp_header_t : Type := Build_ptp_header_t {
  msg_type : Z;
  transport : Z;
  version : Z;
  msg_length : Z;
  domain_number : Z;
  reserved1 : Z;
  flags : Z;
  correction : Z;
  reserved2 : Z;
  source_port_id : ptp_port_identity_t;
  sequence_id : Z;
  control : Z;
  log_msg_interval : Z
}.

(** The structs overlaid on a buffer at byte offset [o]. *)
Definition ptp_timestamp_at (buf : list Z) (o : Z) : ptp_timestamp_t :=
  {| seconds_msb := load16 buf o;
     seconds_lsb := load32 buf (o + 2);
     nanoseconds := load32 buf (o + 6) |}.

Definition ptp_port_identity_at (buf : list Z) (o : Z) : ptp_port_identity_t :=
  {| clock_identity := map (fun k => byte_at buf (o + Z.of_nat k)) (seq 0 8);
     port_number := load16 buf (o + 8) |}.

Definition ptp_header_at (buf : list Z) (o : Z) : ptp_header_t :=
  {| msg_type := Z.land (byte_at buf o) 0x0F;
     transport := Z.shiftr (byte_at buf o) 4;
     version := byte_at buf (o + 1);
     msg_length := load16 buf (o + 2);
     domain_number := byte_at buf (o + 4);
     reserved1 := byte_at buf (o + 5);
     flags := load16 buf (o + 6);
     correction := to_int64 (load64 buf (o + 8));
     reserved2 := load32 buf (o + 16);
     source_port_id := ptp_port_identity_at buf (o + 20);
     sequence_id := load16 buf (o + 30);
     control := byte_at buf (o + 32);
     log_msg_interval := to_int8 (byte_at buf (o + 33)) |}.

(** The bytes of the structs in memory. *)
Definition ptp_timestamp_bytes (ts : ptp_timestamp_t) : list Z :=
  store16 (seconds_msb ts) ++ store32 (seconds_lsb ts)
  ++ store32 (nanoseconds ts).

Definition ptp_port_identity_bytes (p : ptp_port_identity_t) : list Z :=
  clock_identity p ++ store16 (port_number p).

Record ptp_session_t : Type := Build_ptp_session_t {
  port_id : Z;
  tx_port_id : Z;
  vlan_id : Z;
  rx_vlan_id : Z;
  tx_vlan_id : Z;
  tx_vl_idx : Z;
  rx_vl_idx : Z;
  session_idx : Z;
  state : ptp_state_t;
  last_state_change : Z;
  master_port_id : ptp_port_identity_t;
  master_domain : Z;
  our_port_id : ptp_port_identity_t;
  sync_seq_id : Z;
  delay_req_seq_id : Z;
  last_delay_req_seq_id : Z;
  t1_ns : Z;
  t2_tsc : Z;
  t2_realtime_ns : Z;
  t3_tsc : Z;
  t3_realtime_ns : Z;
  t4_ns : Z;
  offset_ns : Z;
  delay_ns : Z;
  tsc_hz : Z;
  sync_rx_count : Z;
  delay_req_tx_count : Z;
  delay_resp_rx_count : Z;
  sync_timeout_count : Z;
  sync_errors : Z;
  last_sync_tsc : Z;
  last_delay_req_tsc : Z;
  is_synced : bool;
  sync_count : Z
}.

Definition set_state (v : ptp_state_t) (s : ptp_session_t) :
  ptp_session_t :=
  Build_ptp_session_t (port_id s) (tx_port_id s) (vlan_id s) (rx_vlan_id s)
    (tx_vlan_id s) (tx_vl_idx s) (rx_vl_idx s) (session_idx s) v
    (last_state_change s) (master_port_id s) (master_domain s) (our_port_id s)
    (sync_seq_id s) (delay_req_seq_id s) (last_delay_req_seq_id s) (t1_ns s)
    (t2_tsc s) (t2_realtime_ns s) (t3_tsc s) (t3_realtime_ns s) (t4_ns s)
    (offset_ns s) (delay_ns s) (tsc_hz s) (sync_rx_count s)
    (delay_req_tx_count s) (delay_resp_rx_count s) (sync_timeout_count s)
    (sync_errors s) (last_sync_tsc s) (last_delay_req_tsc s) (is_synced s)
    (sync_count s).

Definition set_last_state_change (v : Z) (s : ptp_session_t) :
  ptp_session_t :=
  Build_ptp_session_t (port_id s) (tx_port_id s) (vlan_id s) (rx_vlan_id s)
    (tx_vlan_id s) (tx_vl_idx s) (rx_vl_idx s) (session_idx s) (state s) v
    (master_port_id s) (master_domain s) (our_port_id s) (sync_seq_id s)
    (delay_req_seq_id s) (last_delay_req_seq_id s) (t1_ns s) (t2_tsc s)
    (t2_realtime_ns s) (t3_tsc s) (t3_realtime_ns s) (t4_ns s) (offset_ns s)
    (delay_ns s) (tsc_hz s) (sync_rx_count s) (delay_req_tx_count s)
    (delay_resp_rx_count s) (sync_timeout_count s) (sync_errors s)
    (last_sync_tsc s) (last_delay_req_tsc s) (is_synced s) (sync_count s).

Definition set_master_port_id (v : ptp_port_identity_t) (s : ptp_session_t) :
  ptp_session_t :=
  Build_ptp_session_t (port_id s) (tx_port_id s) (vlan_id s) (rx_vlan_id s)
    (tx_vlan_id s) (tx_vl_idx s) (rx_vl_idx s) (session_idx s) (state s)
    (last_state_change s) v (master_domain s) (our_port_id s) (sync_seq_id s)
    (delay_req_seq_id s) (last_delay_req_seq_id s) (t1_ns s) (t2_tsc s)
    (t2_realtime_ns s) (t3_tsc s) (t3_realtime_ns s) (t4_ns s) (offset_ns s)
    (delay_ns s) (tsc_hz s) (sync_rx_count s) (delay_req_tx_count s)
    (delay_resp_rx_count s) (sync_timeout_count s) (sync_errors s)
    (last_sync_tsc s) (last_delay_req_tsc s) (is_synced s) (sync_count s).

Definition set_master_domain (v : Z) (s : ptp_session_t) :
  ptp_session_t :=
  Build_ptp_session_t (port_id s) (tx_port_id s) (vlan_id s) (rx_vlan_id s)
    (tx_vlan_id s) (tx_vl_idx s) (rx_vl_idx s) (session_idx s) (state s)
    (last_state_change s) (master_port_id s) v (our_port_id s) (sync_seq_id s)
    (delay_req_seq_id s) (last_delay_req_seq_id s) (t1_ns s) (t2_tsc s)
    (t2_realtime_ns s) (t3_tsc s) (t3_realtime_ns s) (t4_ns s) (offset_ns s)
    (delay_ns s) (tsc_hz s) (sync_rx_count s) (delay_req_tx_count s)
    (delay_resp_rx_count s) (sync_timeout_count s) (sync_errors s)
    (last_sync_tsc s) (last_delay_req_tsc s) (is_synced s) (sync_count s).

Definition set_our_port_id (v : ptp_port_identity_t) (s : ptp_session_t) :
  ptp_session_t :=
  Build_ptp_session_t (port_id s) (tx_port_id s) (vlan_id s) (rx_vlan_id s)
    (tx_vlan_id s) (tx_vl_idx s) (rx_vl_idx s) (session_idx s) (state s)
    (last_state_change s) (master_port_id s) (master_domain s) v
    (sync_seq_id s) (delay_req_seq_id s) (last_delay_req_seq_id s) (t1_ns s)
    (t2_tsc s) (t2_realtime_ns s) (t3_tsc s) (t3_realtime_ns s) (t4_ns s)
    (offset_ns s) (delay_ns s) (tsc_hz s) (sync_rx_count s)
    (delay_req_tx_count s) (delay_resp_rx_count s) (sync_timeout_count s)
    (sync_errors s) (last_sync_tsc s) (last_delay_req_tsc s) (is_synced s)
    (sync_count s).

Definition set_sync_seq_id (v : Z) (s : ptp_session_t) :
  ptp_session_t :=
  Build_ptp_session_t (port_id s) (tx_port_id s) (vlan_id s) (rx_vlan_id s)
    (tx_vlan_id s) (tx_vl_idx s) (rx_vl_idx s) (session_idx s) (state s)
    (last_state_change s) (master_port_id s) (master_domain s) (our_port_id s)
    v (delay_req_seq_id s) (last_delay_req_seq_id s) (t1_ns s) (t2_tsc s)
    (t2_realtime_ns s) (t3_tsc s) (t3_realtime_ns s) (t4_ns s) (offset_ns s)
    (delay_ns s) (tsc_hz s) (sync_rx_count s) (delay_req_tx_count s)
    (delay_resp_rx_count s) (sync_timeout_count s) (sync_errors s)
    (last_sync_tsc s) (last_delay_req_tsc s) (is_synced s) (sync_count s).

Definition set_delay_req_seq_id (v : Z) (s : ptp_session_t) :
  ptp_session_t :=
  Build_ptp_session_t (port_id s) (tx_port_id s) (vlan_id s) (rx_vlan_id s)
    (tx_vlan_id s) (tx_vl_idx s) (rx_vl_idx s) (session_idx s) (state s)
    (last_state_change s) (master_port_id s) (master_domain s) (our_port_id s)
    (sync_seq_id s) v (last_delay_req_seq_id s) (t1_ns s) (t2_tsc s)
    (t2_realtime_ns s) (t3_tsc s) (t3_realtime_ns s) (t4_ns s) (offset_ns s)
    (delay_ns s) (tsc_hz s) (sync_rx_count s) (delay_req_tx_count s)
    (delay_resp_rx_count s) (sync_timeout_count s) (sync_errors s)
    (last_sync_tsc s) (last_delay_req_tsc s) (is_synced s) (sync_count s).

Definition set_last_delay_req_seq_id (v : Z) (s : ptp_session_t) :
  ptp_session_t :=
  Build_ptp_session_t (port_id s) (tx_port_id s) (vlan_id s) (rx_vlan_id s)
    (tx_vlan_id s) (tx_vl_idx s) (rx_vl_idx s) (session_idx s) (state s)
    (last_state_change s) (master_port_id s) (master_domain s) (our_port_id s)
    (sync_seq_id s) (delay_req_seq_id s) v (t1_ns s) (t2_tsc s)
    (t2_realtime_ns s) (t3_tsc s) (t3_realtime_ns s) (t4_ns s) (offset_ns s)
    (delay_ns s) (tsc_hz s) (sync_rx_count s) (delay_req_tx_count s)
    (delay_resp_rx_count s) (sync_timeout_count s) (sync_errors s)
    (last_sync_tsc s) (last_delay_req_tsc s) (is_synced s) (sync_count s).

Definition set_t1_ns (v : Z) (s : ptp_session_t) :
  ptp_session_t :=
  Build_ptp_session_t (port_id s) (tx_port_id s) (vlan_id s) (rx_vlan_id s)
    (tx_vlan_id s) (tx_vl_idx s) (rx_vl_idx s) (session_idx s) (state s)
    (last_state_change s) (master_port_id s) (master_domain s) (our_port_id s)
    (sync_seq_id s) (delay_req_seq_id s) (last_delay_req_seq_id s) v
    (t2_tsc s) (t2_realtime_ns s) (t3_tsc s) (t3_realtime_ns s) (t4_ns s)
    (offset_ns s) (delay_ns s) (tsc_hz s) (sync_rx_count s)
    (delay_req_tx_count s) (delay_resp_rx_count s) (sync_timeout_count s)
    (sync_errors s) (last_sync_tsc s) (last_delay_req_tsc s) (is_synced s)
    (sync_count s).

Definition set_t2_tsc (v : Z) (s : ptp_session_t) :
  ptp_session_t :=
  Build_ptp_session_t (port_id s) (tx_port_id s) (vlan_id s) (rx_vlan_id s)
    (tx_vlan_id s) (tx_vl_idx s) (rx_vl_idx s) (session_idx s) (state s)
    (last_state_change s) (master_port_id s) (master_domain s) (our_port_id s)
    (sync_seq_id s) (delay_req_seq_id s) (last_delay_req_seq_id s) (t1_ns s) v
    (t2_realtime_ns s) (t3_tsc s) (t3_realtime_ns s) (t4_ns s) (offset_ns s)
    (delay_ns s) (tsc_hz s) (sync_rx_count s) (delay_req_tx_count s)
    (delay_resp_rx_count s) (sync_timeout_count s) (sync_errors s)
    (last_sync_tsc s) (last_delay_req_tsc s) (is_synced s) (sync_count s).

Definition set_t2_realtime_ns (v : Z) (s : ptp_session_t) :
  ptp_session_t :=
  Build_ptp_session_t (port_id s) (tx_port_id s) (vlan_id s) (rx_vlan_id s)
    (tx_vlan_id s) (tx_vl_idx s) (rx_vl_idx s) (session_idx s) (state s)
    (last_state_change s) (master_port_id s) (master_domain s) (our_port_id s)
    (sync_seq_id s) (delay_req_seq_id s) (last_delay_req_seq_id s) (t1_ns s)
    (t2_tsc s) v (t3_tsc s) (t3_realtime_ns s) (t4_ns s) (offset_ns s)
    (delay_ns s) (tsc_hz s) (sync_rx_count s) (delay_req_tx_count s)
    (delay_resp_rx_count s) (sync_timeout_count s) (sync_errors s)
    (last_sync_tsc s) (last_delay_req_tsc s) (is_synced s) (sync_count s).

Definition set_t3_tsc (v : Z) (s : ptp_session_t) :
  ptp_session_t :=
  Build_ptp_session_t (port_id s) (tx_port_id s) (vlan_id s) (rx_vlan_id s)
    (tx_vlan_id s) (tx_vl_idx s) (rx_vl_idx s) (session_idx s) (state s)
    (last_state_change s) (master_port_id s) (master_domain s) (our_port_id s)
    (sync_seq_id s) (delay_req_seq_id s) (last_delay_req_seq_id s) (t1_ns s)
    (t2_tsc s) (t2_realtime_ns s) v (t3_realtime_ns s) (t4_ns s) (offset_ns s)
    (delay_ns s) (tsc_hz s) (sync_rx_count s) (delay_req_tx_count s)
    (delay_resp_rx_count s) (sync_timeout_count s) (sync_errors s)
    (last_sync_tsc s) (last_delay_req_tsc s) (is_synced s) (sync_count s).

Definition set_t3_realtime_ns (v : Z) (s : ptp_session_t) :
  ptp_session_t :=
  Build_ptp_session_t (port_id s) (tx_port_id s) (vlan_id s) (rx_vlan_id s)
    (tx_vlan_id s) (tx_vl_idx s) (rx_vl_idx s) (session_idx s) (state s)
    (last_state_change s) (master_port_id s) (master_domain s) (our_port_id s)
    (sync_seq_id s) (delay_req_seq_id s) (last_delay_req_seq_id s) (t1_ns s)
    (t2_tsc s) (t2_realtime_ns s) (t3_tsc s) v (t4_ns s) (offset_ns s)
    (delay_ns s) (tsc_hz s) (sync_rx_count s) (delay_req_tx_count s)
    (delay_resp_rx_count s) (sync_timeout_count s) (sync_errors s)
    (last_sync_tsc s) (last_delay_req_tsc s) (is_synced s) (sync_count s).

Definition set_t4_ns (v : Z) (s : ptp_session_t) :
  ptp_session_t :=
  Build_ptp_session_t (port_id s) (tx_port_id s) (vlan_id s) (rx_vlan_id s)
    (tx_vlan_id s) (tx_vl_idx s) (rx_vl_idx s) (session_idx s) (state s)
    (last_state_change s) (master_port_id s) (master_domain s) (our_port_id s)
    (sync_seq_id s) (delay_req_seq_id s) (last_delay_req_seq_id s) (t1_ns s)
    (t2_tsc s) (t2_realtime_ns s) (t3_tsc s) (t3_realtime_ns s) v
    (offset_ns s) (delay_ns s) (tsc_hz s) (sync_rx_count s)
    (delay_req_tx_count s) (delay_resp_rx_count s) (sync_timeout_count s)
    (sync_errors s) (last_sync_tsc s) (last_delay_req_tsc s) (is_synced s)
    (sync_count s).

Definition set_offset_ns (v : Z) (s : ptp_session_t) :
  ptp_session_t :=
  Build_ptp_session_t (port_id s) (tx_port_id s) (vlan_id s) (rx_vlan_id s)
    (tx_vlan_id s) (tx_vl_idx s) (rx_vl_idx s) (session_idx s) (state s)
    (last_state_change s) (master_port_id s) (master_domain s) (our_port_id s)
    (sync_seq_id s) (delay_req_seq_id s) (last_delay_req_seq_id s) (t1_ns s)
    (t2_tsc s) (t2_realtime_ns s) (t3_tsc s) (t3_realtime_ns s) (t4_ns s) v
    (delay_ns s) (tsc_hz s) (sync_rx_count s) (delay_req_tx_count s)
    (delay_resp_rx_count s) (sync_timeout_count s) (sync_errors s)
    (last_sync_tsc s) (last_delay_req_tsc s) (is_synced s) (sync_count s).

Definition set_delay_ns (v : Z) (s : ptp_session_t) :
  ptp_session_t :=
  Build_ptp_session_t (port_id s) (tx_port_id s) (vlan_id s) (rx_vlan_id s)
    (tx_vlan_id s) (tx_vl_idx s) (rx_vl_idx s) (session_idx s) (state s)
    (last_state_change s) (master_port_id s) (master_domain s) (our_port_id s)
    (sync_seq_id s) (delay_req_seq_id s) (last_delay_req_seq_id s) (t1_ns s)
    (t2_tsc s) (t2_realtime_ns s) (t3_tsc s) (t3_realtime_ns s) (t4_ns s)
    (offset_ns s) v (tsc_hz s) (sync_rx_count s) (delay_req_tx_count s)
    (delay_resp_rx_count s) (sync_timeout_count s) (sync_errors s)
    (last_sync_tsc s) (last_delay_req_tsc s) (is_synced s) (sync_count s).

Definition set_tsc_hz (v : Z) (s : ptp_session_t) :
  ptp_session_t :=
  Build_ptp_session_t (port_id s) (tx_port_id s) (vlan_id s) (rx_vlan_id s)
    (tx_vlan_id s) (tx_vl_idx s) (rx_vl_idx s) (session_idx s) (state s)
    (last_state_change s) (master_port_id s) (master_domain s) (our_port_id s)
    (sync_seq_id s) (delay_req_seq_id s) (last_delay_req_seq_id s) (t1_ns s)
    (t2_tsc s) (t2_realtime_ns s) (t3_tsc s) (t3_realtime_ns s) (t4_ns s)
    (offset_ns s) (delay_ns s) v (sync_rx_count s) (delay_req_tx_count s)
    (delay_resp_rx_count s) (sync_timeout_count s) (sync_errors s)
    (last_sync_tsc s) (last_delay_req_tsc s) (is_synced s) (sync_count s).

Definition set_sync_rx_count (v : Z) (s : ptp_session_t) :
  ptp_session_t :=
  Build_ptp_session_t (port_id s) (tx_port_id s) (vlan_id s) (rx_vlan_id s)
    (tx_vlan_id s) (tx_vl_idx s) (rx_vl_idx s) (session_idx s) (state s)
    (last_state_change s) (master_port_id s) (master_domain s) (our_port_id s)
    (sync_seq_id s) (delay_req_seq_id s) (last_delay_req_seq_id s) (t1_ns s)
    (t2_tsc s) (t2_realtime_ns s) (t3_tsc s) (t3_realtime_ns s) (t4_ns s)
    (offset_ns s) (delay_ns s) (tsc_hz s) v (delay_req_tx_count s)
    (delay_resp_rx_count s) (sync_timeout_count s) (sync_errors s)
    (last_sync_tsc s) (last_delay_req_tsc s) (is_synced s) (sync_count s).

Definition set_delay_req_tx_count (v : Z) (s : ptp_session_t) :
  ptp_session_t :=
  Build_ptp_session_t (port_id s) (tx_port_id s) (vlan_id s) (rx_vlan_id s)
    (tx_vlan_id s) (tx_vl_idx s) (rx_vl_idx s) (session_idx s) (state s)
    (last_state_change s) (master_port_id s) (master_domain s) (our_port_id s)
    (sync_seq_id s) (delay_req_seq_id s) (last_delay_req_seq_id s) (t1_ns s)
    (t2_tsc s) (t2_realtime_ns s) (t3_tsc s) (t3_realtime_ns s) (t4_ns s)
    (offset_ns s) (delay_ns s) (tsc_hz s) (sync_rx_count s) v
    (delay_resp_rx_count s) (sync_timeout_count s) (sync_errors s)
    (last_sync_tsc s) (last_delay_req_tsc s) (is_synced s) (sync_count s).

Definition set_delay_resp_rx_count (v : Z) (s : ptp_session_t) :
  ptp_session_t :=
  Build_ptp_session_t (port_id s) (tx_port_id s) (vlan_id s) (rx_vlan_id s)
    (tx_vlan_id s) (tx_vl_idx s) (rx_vl_idx s) (session_idx s) (state s)
    (last_state_change s) (master_port_id s) (master_domain s) (our_port_id s)
    (sync_seq_id s) (delay_req_seq_id s) (last_delay_req_seq_id s) (t1_ns s)
    (t2_tsc s) (t2_realtime_ns s) (t3_tsc s) (t3_realtime_ns s) (t4_ns s)
    (offset_ns s) (delay_ns s) (tsc_hz s) (sync_rx_count s)
    (delay_req_tx_count s) v (sync_timeout_count s) (sync_errors s)
    (last_sync_tsc s) (last_delay_req_tsc s) (is_synced s) (sync_count s).

Definition set_sync_timeout_count (v : Z) (s : ptp_session_t) :
  ptp_session_t :=
  Build_ptp_session_t (port_id s) (tx_port_id s) (vlan_id s) (rx_vlan_id s)
    (tx_vlan_id s) (tx_vl_idx s) (rx_vl_idx s) (session_idx s) (state s)
    (last_state_change s) (master_port_id s) (master_domain s) (our_port_id s)
    (sync_seq_id s) (delay_req_seq_id s) (last_delay_req_seq_id s) (t1_ns s)
    (t2_tsc s) (t2_realtime_ns s) (t3_tsc s) (t3_realtime_ns s) (t4_ns s)
    (offset_ns s) (delay_ns s) (tsc_hz s) (sync_rx_count s)
    (delay_req_tx_count s) (delay_resp_rx_count s) v (sync_errors s)
    (last_sync_tsc s) (last_delay_req_tsc s) (is_synced s) (sync_count s).

Definition set_sync_errors (v : Z) (s : ptp_session_t) :
  ptp_session_t :=
  Build_ptp_session_t (port_id s) (tx_port_id s) (vlan_id s) (rx_vlan_id s)
    (tx_vlan_id s) (tx_vl_idx s) (rx_vl_idx s) (session_idx s) (state s)
    (last_state_change s) (master_port_id s) (master_domain s) (our_port_id s)
    (sync_seq_id s) (delay_req_seq_id s) (last_delay_req_seq_id s) (t1_ns s)
    (t2_tsc s) (t2_realtime_ns s) (t3_tsc s) (t3_realtime_ns s) (t4_ns s)
    (offset_ns s) (delay_ns s) (tsc_hz s) (sync_rx_count s)
    (delay_req_tx_count s) (delay_resp_rx_count s) (sync_timeout_count s) v
    (last_sync_tsc s) (last_delay_req_tsc s) (is_synced s) (sync_count s).

Definition set_last_sync_tsc (v : Z) (s : ptp_session_t) :
  ptp_session_t :=
  Build_ptp_session_t (port_id s) (tx_port_id s) (vlan_id s) (rx_vlan_id s)
    (tx_vlan_id s) (tx_vl_idx s) (rx_vl_idx s) (session_idx s) (state s)
    (last_state_change s) (master_port_id s) (master_domain s) (our_port_id s)
    (sync_seq_id s) (delay_req_seq_id s) (last_delay_req_seq_id s) (t1_ns s)
    (t2_tsc s) (t2_realtime_ns s) (t3_tsc s) (t3_realtime_ns s) (t4_ns s)
    (offset_ns s) (delay_ns s) (tsc_hz s) (sync_rx_count s)
    (delay_req_tx_count s) (delay_resp_rx_count s) (sync_timeout_count s)
    (sync_errors s) v (last_delay_req_tsc s) (is_synced s) (sync_count s).

Definition set_last_delay_req_tsc (v : Z) (s : ptp_session_t) :
  ptp_session_t :=
  Build_ptp_session_t (port_id s) (tx_port_id s) (vlan_id s) (rx_vlan_id s)
    (tx_vlan_id s) (tx_vl_idx s) (rx_vl_idx s) (session_idx s) (state s)
    (last_state_change s) (master_port_id s) (master_domain s) (our_port_id s)
    (sync_seq_id s) (delay_req_seq_id s) (last_delay_req_seq_id s) (t1_ns s)
    (t2_tsc s) (t2_realtime_ns s) (t3_tsc s) (t3_realtime_ns s) (t4_ns s)
    (offset_ns s) (delay_ns s) (tsc_hz s) (sync_rx_count s)
    (delay_req_tx_count s) (delay_resp_rx_count s) (sync_timeout_count s)
    (sync_errors s) (last_sync_tsc s) v (is_synced s) (sync_count s).

Definition set_is_synced (v : bool) (s : ptp_session_t) :
  ptp_session_t :=
  Build_ptp_session_t (port_id s) (tx_port_id s) (vlan_id s) (rx_vlan_id s)
    (tx_vlan_id s) (tx_vl_idx s) (rx_vl_idx s) (session_idx s) (state s)
    (last_state_change s) (master_port_id s) (master_domain s) (our_port_id s)
    (sync_seq_id s) (delay_req_seq_id s) (last_delay_req_seq_id s) (t1_ns s)
    (t2_tsc s) (t2_realtime_ns s) (t3_tsc s) (t3_realtime_ns s) (t4_ns s)
    (offset_ns s) (delay_ns s) (tsc_hz s) (sync_rx_count s)
    (delay_req_tx_count s) (delay_resp_rx_count s) (sync_timeout_count s)
    (sync_errors s) (last_sync_tsc s) (last_delay_req_tsc s) v (sync_count s).

Definition set_sync_count (v : Z) (s : ptp_session_t) :
  ptp_session_t :=
  Build_ptp_session_t (port_id s) (tx_port_id s) (vlan_id s) (rx_vlan_id s)
    (tx_vlan_id s) (tx_vl_idx s) (rx_vl_idx s) (session_idx s) (state s)
    (last_state_change s) (master_port_id s) (master_domain s) (our_port_id s)
    (sync_seq_id s) (delay_req_seq_id s) (last_delay_req_seq_id s) (t1_ns s)
    (t2_tsc s) (t2_realtime_ns s) (t3_tsc s) (t3_realtime_ns s) (t4_ns s)
    (offset_ns s) (delay_ns s) (tsc_hz s) (sync_rx_count s)
    (delay_req_tx_count s) (delay_resp_rx_count s) (sync_timeout_count s)
    (sync_errors s) (last_sync_tsc s) (last_delay_req_tsc s) (is_synced s) v.

(** [memset(session, 0, sizeof *session)] *)
Definition port_identity_zero : ptp_port_identity_t :=
  {| clock_identity := repeat 0 8; port_number := 0 |}.

Definition session_zero : ptp_session_t :=
  Build_ptp_session_t 0 0 0 0 0 0 0 0 PTP_STATE_INIT 0 port_identity_zero 0
    port_identity_zero 0 0 0 0 0 0 0 0 0 0 0 0 0 0 0 0 0 0 0 false 0.

(** *** Helper functions of [ptp_types.h] *)

(** Only [seconds_lsb] is used; [seconds_msb] is never read. *)
Definition ptp_timestamp_to_ns (ts : ptp_timestamp_t) : Z :=
  let seconds := rte_be_to_cpu_32 (seconds_lsb ts) in
  let nanos := rte_be_to_cpu_32 (nanoseconds ts) in
  wrap64 (wrap64 (seconds * 1000000000) + nanos).

Definition ns_to_ptp_timestamp (ns : Z) : ptp_timestamp_t :=
  let seconds := ns / 1000000000 in
  let nanos := wrap32 (ns mod 1000000000) in
  {| seconds_msb := 0;
     seconds_lsb := rte_cpu_to_be_32 (wrap32 seconds);
     nanoseconds := rte_cpu_to_be_32 nanos |}.

Definition tsc_to_ns (tsc hz : Z) : Z := wrap64 (tsc * 1000000000) / hz.

(** ** [ptp_state.c] *)

(** [hz] is the TSC frequency [rte_get_tsc_hz()] that [init_timeouts]
    caches on first use; it is positive on a running system.  The
    timeouts derived from it: *)
Definition sync_timeout_cycles (hz : Z) : Z :=
  wrap64 (hz * PTP_SYNC_TIMEOUT_SEC).
Definition delay_resp_timeout_cycles (hz : Z) : Z :=
  wrap64 (hz * PTP_DELAY_RESP_TIMEOUT_SEC).
Definition delay_req_interval_cycles (hz : Z) : Z :=
  wrap64 (hz * PTP_DELAY_REQ_INTERVAL_MS) / 1000.

(** [realtime_ns] is the reading [get_realtime_ns()] would return. *)
Definition ptp_handle_sync (s : ptp_session_t) (header : ptp_header_t)
    (timestamp : ptp_timestamp_t) (rx_tsc realtime_ns : Z) : ptp_session_t :=
  let s := set_master_port_id (source_port_id header) s in
  let s := set_master_domain (domain_number header) s in
  let s := set_sync_seq_id (rte_be_to_cpu_16 (sequence_id header)) s in
  let s := set_last_sync_tsc rx_tsc s in
  if ptp_state_eqb (state s) PTP_STATE_LISTENING
     || ptp_state_eqb (state s) PTP_STATE_SYNCED
     || ptp_state_eqb (state s) PTP_STATE_ERROR
  then
    let s := set_t1_ns (ptp_timestamp_to_ns timestamp) s in
    let s := set_t2_tsc rx_tsc s in
    let s := set_t2_realtime_ns realtime_ns s in
    let s := set_state PTP_STATE_SYNC_RECEIVED s in
    set_last_state_change rx_tsc s
  else s.

(** The TSC-based values [tsc_to_ns(t2_tsc, hz)] and [tsc_to_ns(t3_tsc, hz)]
    are computed for the debug print only and are left out. *)
Definition ptp_calculate_offset_delay (hz : Z) (s : ptp_session_t) :
  ptp_session_t :=
  let t1 := t1_ns s in
  let t2 := t2_realtime_ns s in
  let t3 := t3_realtime_ns s in
  let t4 := t4_ns s in
  let s :=
    if t4 =? 0 then
      let s := set_delay_ns 0 s in
      set_offset_ns 0 s
    else
      let t2_minus_t1 := to_int64 (to_int64 t2 - to_int64 t1) in
      let t4_minus_t3 := to_int64 (to_int64 t4 - to_int64 t3) in
      let s := set_offset_ns
                 (c_div (to_int64 (t2_minus_t1 - t4_minus_t3)) 2) s in
      set_delay_ns (c_div (to_int64 (t2_minus_t1 + t4_minus_t3)) 2) s
  in
  set_tsc_hz hz s.

(** [now_tsc] is the reading of [rte_rdtsc()] at the state change. *)
Definition ptp_handle_delay_resp (hz : Z) (s : ptp_session_t)
    (header : ptp_header_t) (timestamp : ptp_timestamp_t) (now_tsc : Z) :
  ptp_session_t :=
  let resp_seq_id := rte_be_to_cpu_16 (sequence_id header) in
  if negb (resp_seq_id =? last_delay_req_seq_id s) then s
  else
    let s := set_t4_ns (ptp_timestamp_to_ns timestamp) s in
    if ptp_state_eqb (state s) PTP_STATE_DELAY_REQ_SENT then
      let s := ptp_calculate_offset_delay hz s in
      let s := set_state PTP_STATE_SYNCED s in
      let s := set_is_synced true s in
      let s := set_sync_count (wrap32 (sync_count s + 1)) s in
      set_last_state_change now_tsc s
    else s.

(** ** [ptp_packet.c]: the Delay_Req builder *)

Definition ptp_src_mac : list Z := [0x02; 0x00; 0x00; 0x00; 0x00; 0x20].

Definition PTP_MSG_LENGTH_PADDED : Z := 106.

(** What the transmit path answers during one [ptp_send_delay_req]. *)
Record tx_env : Type := Build_tx_env {
  tx_mbuf_pool : bool;   (* port->tx_mbuf_pool is not NULL *)
  alloc_ok : bool;       (* rte_pktmbuf_alloc returned a buffer *)
  append_ok : bool;      (* rte_pktmbuf_append returned room *)
  tsc_before : Z;        (* rte_rdtsc() before the burst *)
  nb_tx : Z;             (* result of rte_eth_tx_burst *)
  tsc_after : Z;         (* rte_rdtsc() after the burst *)
  tx_realtime_ns : Z     (* get_realtime_ns() after the burst *)
}.

(** The transmit buffer handed to [rte_eth_tx_burst]. *)
Record tx_mbuf : Type := Build_tx_mbuf {
  frame : list Z;
  l2_len : Z;
  tx_vlan_offload : bool;   (* ol_flags = RTE_MBUF_F_TX_VLAN *)
  vlan_tci : Z
}.

Definition apply_writes (ws : list (nat * list Z)) (buf : list Z) : list Z :=
  fold_left (fun b w => write_at (fst w) (snd w) b) ws buf.

(** The 106 bytes written from [ptp_start]: zeroed, then the header
    fields in the order of the assignments. *)
Definition delay_req_ptp (s : ptp_session_t) : list Z :=
  apply_writes
    [ (0%nat, [Z.lor (Z.land PTP_MSG_DELAY_REQ 0x0F) (Z.shiftl 0 4)]);
      (1%nat, [PTP_VERSION]);
      (2%nat, store16 (rte_cpu_to_be_16 PTP_MSG_LENGTH_PADDED));
      (4%nat, [PTP_DEFAULT_DOMAIN]);
      (6%nat, store16 (rte_cpu_to_be_16 0x0102));
      (8%nat, store64 0);
      (30%nat, store16 (rte_cpu_to_be_16 (delay_req_seq_id s)));
      (32%nat, [PTP_CTRL_DELAY_REQ]);
      (33%nat, [wrap8 PTP_LOG_DELAY_REQ_INT]);
      (20%nat, ptp_port_identity_bytes (our_port_id s));
      (34%nat, repeat 0 10) ]
    (repeat 0 (Z.to_nat PTP_MSG_LENGTH_PADDED)).

(** Ethernet header, VLAN header and PTP message: 14 + 4 + 106 bytes. *)
Definition delay_req_frame (s : ptp_session_t) : list Z :=
  [0x03; 0x00; 0x00; 0x00;
   Z.land (Z.shiftr (tx_vl_idx s) 8) 0xFF; Z.land (tx_vl_idx s) 0xFF]
  ++ ptp_src_mac
  ++ store16 (rte_cpu_to_be_16 RTE_ETHER_TYPE_VLAN)
  ++ store16 (rte_cpu_to_be_16 (Z.land (tx_vlan_id s) 0x0FFF))
  ++ store16 (rte_cpu_to_be_16 PTP_ETHERTYPE)
  ++ delay_req_ptp s.

Definition delay_req_mbuf (s : ptp_session_t) : tx_mbuf :=
  {| frame := delay_req_frame s;
     l2_len := 14 + 4;
     tx_vlan_offload := true;
     vlan_tci := tx_vlan_id s |}.

(** Returns the status, the session, and the buffer if it was sent. *)
Definition ptp_send_delay_req (s : ptp_session_t) (env : tx_env) :
  Z * ptp_session_t * option tx_mbuf :=
  if negb (tx_mbuf_pool env) then (-1, s, None)
  else if negb (alloc_ok env) then (-2, s, None)
  else if negb (append_ok env) then (-3, s, None)
  else
    let mbuf := delay_req_mbuf s in
    if negb (nb_tx env =? 1) then (-4, s, None)
    else
      let tx_tsc := wrap64 (tsc_before env + tsc_after env) / 2 in
      let s := set_t3_tsc tx_tsc s in
      let s := set_t3_realtime_ns (tx_realtime_ns env) s in
      let s := set_last_delay_req_seq_id (delay_req_seq_id s) s in
      let s := set_delay_req_seq_id (wrap16 (delay_req_seq_id s + 1)) s in
      let s := set_delay_req_tx_count (wrap64 (delay_req_tx_count s + 1)) s in
      let s := set_last_delay_req_tsc tx_tsc s in
      (0, s, Some mbuf).

Definition ptp_init_port_identity (s : ptp_session_t) : ptp_session_t :=
  set_our_port_id
    {| clock_identity := [0x2C; 0x1A; 0x00; 0x00; 0x00; 0x00; 0x00; 0x00];
       port_number := rte_cpu_to_be_16 0 |} s.

(** ** [ptp_state.c]: tick, init, statistics *)

Definition ptp_state_machine_tick (hz : Z) (s : ptp_session_t) (env : tx_env)
    (current_tsc : Z) : ptp_session_t * option tx_mbuf :=
  match state s with
  | PTP_STATE_INIT =>
      let s := set_state PTP_STATE_LISTENING s in
      (set_last_state_change current_tsc s, None)
  | PTP_STATE_LISTENING =>
      if (0 <? last_sync_tsc s)
         && (sync_timeout_cycles hz <? wrap64 (current_tsc - last_sync_tsc s))
      then (set_sync_timeout_count (wrap64 (sync_timeout_count s + 1)) s, None)
      else (s, None)
  | PTP_STATE_SYNC_RECEIVED =>
      if delay_req_interval_cycles hz
         <=? wrap64 (current_tsc - last_state_change s)
      then
        let '(ret, s, sent) := ptp_send_delay_req s env in
        if ret =? 0 then
          let s := set_state PTP_STATE_DELAY_REQ_SENT s in
          (set_last_state_change current_tsc s, sent)
        else
          let s := set_state PTP_STATE_ERROR s in
          (set_sync_errors (wrap64 (sync_errors s + 1)) s, sent)
      else (s, None)
  | PTP_STATE_DELAY_REQ_SENT =>
      if delay_resp_timeout_cycles hz
         <? wrap64 (current_tsc - last_state_change s)
      then
        let s := set_sync_timeout_count (wrap64 (sync_timeout_count s + 1)) s in
        let s := set_state PTP_STATE_LISTENING s in
        (set_last_state_change current_tsc s, None)
      else (s, None)
  | PTP_STATE_SYNCED =>
      if sync_timeout_cycles hz <? wrap64 (current_tsc - last_sync_tsc s)
      then
        let s := set_sync_timeout_count (wrap64 (sync_timeout_count s + 1)) s in
        let s := set_is_synced false s in
        let s := set_state PTP_STATE_LISTENING s in
        (set_last_state_change current_tsc s, None)
      else (s, None)
  | PTP_STATE_ERROR =>
      if sync_timeout_cycles hz <? wrap64 (current_tsc - last_state_change s)
      then
        let s := set_state PTP_STATE_LISTENING s in
        (set_last_state_change current_tsc s, None)
      else (s, None)
  end.

Definition ptp_session_init (hz rx_port_id tx_port_id session_idx
    rx_vlan_id tx_vlan_id tx_vl_idx : Z) : ptp_session_t :=
  let s :=
    Build_ptp_session_t rx_port_id tx_port_id rx_vlan_id rx_vlan_id tx_vlan_id
      tx_vl_idx 0 session_idx PTP_STATE_INIT 0 port_identity_zero 0
      port_identity_zero 0 0 0 0 0 0 0 0 0 0 0 hz 0 0 0 0 0 0 0 false 0 in
  ptp_init_port_identity s.

Definition ptp_session_reset_stats (s : ptp_session_t) : ptp_session_t :=
  let s := set_sync_rx_count 0 s in
  let s := set_delay_req_tx_count 0 s in
  let s := set_delay_resp_rx_count 0 s in
  let s := set_sync_timeout_count 0 s in
  let s := set_sync_errors 0 s in
  set_sync_count 0 s.

(** ** [ptp_packet.c]: classification and dispatch *)

(** A received buffer: [data_len] bytes of packet inside the data room. *)
Record rte_mbuf : Type := Build_rte_mbuf {
  data_len : Z;
  pkt : list Z
}.

Definition sizeof_rte_ether_hdr : Z := 14.
Definition sizeof_ptp_eth_frame : Z := 18.

Definition ether_type_of (m : rte_mbuf) : Z :=
  rte_be_to_cpu_16 (load16 (pkt m) 12).

Definition ptp_is_ptp_packet (m : rte_mbuf) : bool :=
  if data_len m <? sizeof_rte_ether_hdr then false
  else if ether_type_of m =? PTP_ETHERTYPE then true
  else if ether_type_of m =? RTE_ETHER_TYPE_VLAN then
    if data_len m <? sizeof_ptp_eth_frame then false
    else rte_be_to_cpu_16 (load16 (pkt m) 16) =? PTP_ETHERTYPE
  else false.

Definition ptp_get_msg_type (m : rte_mbuf) : Z :=
  if ether_type_of m =? PTP_ETHERTYPE then
    Z.land (byte_at (pkt m) sizeof_rte_ether_hdr) 0x0F
  else if ether_type_of m =? RTE_ETHER_TYPE_VLAN then
    Z.land (byte_at (pkt m) sizeof_ptp_eth_frame) 0x0F
  else -1.

Definition ptp_get_vlan_id (m : rte_mbuf) : Z :=
  if ether_type_of m =? RTE_ETHER_TYPE_VLAN then
    Z.land (rte_be_to_cpu_16 (load16 (pkt m) 14)) 0x0FFF
  else 0.

(** The offset of the PTP header, [None] for the NULL result. *)
Definition get_ptp_header (m : rte_mbuf) : option Z :=
  if ether_type_of m =? PTP_ETHERTYPE then Some sizeof_rte_ether_hdr
  else if ether_type_of m =? RTE_ETHER_TYPE_VLAN then Some sizeof_ptp_eth_frame
  else None.

Definition ptp_packet_process (hz : Z) (s : ptp_session_t) (m : rte_mbuf)
    (rx_tsc realtime_ns now_tsc : Z) : Z * ptp_session_t :=
  if negb (ptp_is_ptp_packet m) then (-1, s)
  else
    let msg_type := ptp_get_msg_type m in
    if msg_type <? 0 then (-1, s)
    else
      let vlan_id := ptp_get_vlan_id m in
      if negb (vlan_id =? rx_vlan_id s) then (-2, s)
      else
        match get_ptp_header m with
        | None => (-1, s)
        | Some o =>
            let hdr := ptp_header_at (pkt m) o in
            if msg_type =? PTP_MSG_SYNC then
              let origin_timestamp :=
                ptp_timestamp_at (pkt m) (o + PTP_HEADER_LEN) in
              let s := ptp_handle_sync s hdr origin_timestamp rx_tsc
                         realtime_ns in
              (0, set_sync_rx_count (wrap64 (sync_rx_count s + 1)) s)
            else if msg_type =? PTP_MSG_DELAY_RESP then
              let receive_timestamp :=
                ptp_timestamp_at (pkt m) (o + PTP_HEADER_LEN) in
              let s := ptp_handle_delay_resp hz s hdr receive_timestamp
                         now_tsc in
              (0, set_delay_resp_rx_count (wrap64 (delay_resp_rx_count s + 1)) s)
            else if msg_type =? PTP_MSG_FOLLOW_UP then (0, s)
            else if msg_type =? PTP_MSG_ANNOUNCE then (0, s)
            else (-4, s)
        end.

(** ** One session as seen by its worker

    The worker of [ptp_worker.c] hands every received PTP frame of the
    session's VLAN to [ptp_packet_process] and calls
    [ptp_state_machine_tick] once per loop iteration. *)

Inductive ptp_event : Type :=
  | EvRx (m : rte_mbuf) (rx_tsc realtime_ns now_tsc : Z)
  | EvTick (env : tx_env) (current_tsc : Z).

Definition session_step (hz : Z) (s : ptp_session_t) (ev : ptp_event) :
  ptp_session_t * option tx_mbuf :=
  match ev with
  | EvRx m rx_tsc realtime_ns now_tsc =>
      (snd (ptp_packet_process hz s m rx_tsc realtime_ns now_tsc), None)
  | EvTick env current_tsc => ptp_state_machine_tick hz s env current_tsc
  end.

(** The session after the events and the Delay_Req buffers sent, oldest
    first. *)
Fixpoint session_run (hz : Z) (s : ptp_session_t) (evs : list ptp_event) :
  ptp_session_t * list tx_mbuf :=
  match evs with
  | [] => (s, [])
  | ev :: evs' =>
      let '(s1, sent) := session_step hz s ev in
      let '(s2, rest) := session_run hz s1 evs' in
      (s2, match sent with Some b => b :: rest | None => rest end)
  end.

(** The sequence id carried by a Delay_Req frame (PTP bytes 30..31). *)
Definition frame_sequence_id (f : list Z) : Z :=
  rte_be_to_cpu_16 (load16 f (sizeof_ptp_eth_frame + 30)).

(** ** [health_types.h] *)

Definition HEALTH_ETH_HEADER_SIZE : Z := 14.
Definition HEALTH_IP_HEADER_SIZE : Z := 20.
Definition HEALTH_UDP_HEADER_SIZE : Z := 8.
Definition HEALTH_UDP_PAYLOAD_OFFSET : Z :=
  HEALTH_ETH_HEADER_SIZE + HEALTH_IP_HEADER_SIZE + HEALTH_UDP_HEADER_SIZE.
Definition HEALTH_DEVICE_HEADER_SIZE : Z := 111.
Definition HEALTH_MINI_HEADER_SIZE : Z := 7.
Definition HEALTH_PORT_DATA_SIZE : Z := 129.
Definition HEALTH_MAX_PORTS : Z := 35.
Definition HEALTH_PKT_SIZE_WITH_HEADER : Z := 1187.
Definition HEALTH_PKT_SIZE_8_PORTS : Z := 1083.
Definition HEALTH_PKT_SIZE_3_PORTS : Z := 438.
Definition STATUS_ENABLE_MANAGER : Z := 0x01.
Definition STATUS_ENABLE_ASSISTANT : Z := 0x03.
Definition HEALTH_MONITOR_EXPECTED_RESPONSES : Z := 2 + 3 + 1.
Definition HEALTH_MONITOR_RESPONSE_VL_IDX_HIGH : Z := 0x11.
Definition HEALTH_MONITOR_RESPONSE_VL_IDX_LOW : Z := 0x84.

Definition DEV_OFF_STATUS_ENABLE : Z := 6.
Definition MCU_OFF_FO_TRANS_TEMP : Z := 48.

(** Big-endian field readers of [health_monitor.c]; [o] is the offset of
    [data] in the buffer. *)
Definition parse_2byte_be (buf : list Z) (o : Z) : Z :=
  wrap16 (Z.lor (Z.shiftl (byte_at buf o) 8) (byte_at buf (o + 1))).

Definition parse_5byte_be (buf : list Z) (o : Z) : Z :=
  wrap64 (Z.lor (Z.lor (Z.lor (Z.lor
    (Z.shiftl (byte_at buf o) 32)
    (Z.shiftl (byte_at buf (o + 1)) 24))
    (Z.shiftl (byte_at buf (o + 2)) 16))
    (Z.shiftl (byte_at buf (o + 3)) 8))
    (byte_at buf (o + 4))).

Definition parse_6byte_be (buf : list Z) (o : Z) : Z :=
  wrap64 (Z.lor (Z.lor (Z.lor (Z.lor (Z.lor
    (Z.shiftl (byte_at buf o) 40)
    (Z.shiftl (byte_at buf (o + 1)) 32))
    (Z.shiftl (byte_at buf (o + 2)) 24))
    (Z.shiftl (byte_at buf (o + 3)) 16))
    (Z.shiftl (byte_at buf (o + 4)) 8))
    (byte_at buf (o + 5))).

Module Dev.

Record health_device_info : Type := Build_health_device_info {
  device_id : Z;
  operation_type : Z;
  config_type : Z;
  frame_length : Z;
  status_enable : Z;
  status_addr : Z;
  tx_total_count : Z;
  rx_total_count : Z;
  tx_err_total_count : Z;
  rx_err_total_count : Z;
  heartbeat : Z;
  device_id2 : Z;
  port_count : Z;
  token_bucket_status : Z;
  sw_mode : Z;
  vendor_id : Z;
  auto_mac_update : Z;
  upstream_mode : Z;
  sw_ip_major : Z;
  sw_ip_minor : Z;
  sw_ip_patch : Z;
  es_ip_major : Z;
  es_ip_minor : Z;
  es_ip_patch : Z;
  sw_input_fifo_size : Z;
  pkt_pro_fifo_size : Z;
  sw_output_fifo_size : Z;
  hp_fifo_size : Z;
  lp_fifo_size : Z;
  be_fifo_size : Z;
  tod_ns : Z;
  tod_sec : Z;
  eth_wrong_dev_cnt : Z;
  eth_wrong_op_cnt : Z;
  eth_wrong_type_cnt : Z;
  fpga_voltage : Z;
  fpga_temp : Z;
  config_id : Z
}.

Definition zero : health_device_info :=
  Build_health_device_info 0 0 0 0 0 0 0 0 0 0 0 0 0 0 0 0 0 0 0 0 0 0 0 0 0
    0 0 0 0 0 0 0 0 0 0 0 0 0.

(** [parse_device_header(udp_payload, dev)], [u] the payload offset. *)
Definition parse_device_header (buf : list Z) (u : Z) : health_device_info :=
  {| device_id := parse_2byte_be buf (u + 0);
     operation_type := byte_at buf (u + 2);
     config_type := byte_at buf (u + 3);
     frame_length := parse_2byte_be buf (u + 4);
     status_enable := byte_at buf (u + DEV_OFF_STATUS_ENABLE);
     status_addr := parse_2byte_be buf (u + 7);
     tx_total_count := parse_6byte_be buf (u + 9);
     rx_total_count := parse_6byte_be buf (u + 15);
     tx_err_total_count := parse_6byte_be buf (u + 21);
     rx_err_total_count := parse_6byte_be buf (u + 27);
     heartbeat := byte_at buf (u + 33);
     device_id2 := parse_2byte_be buf (u + 34);
     port_count := byte_at buf (u + 36);
     token_bucket_status := byte_at buf (u + 37);
     sw_mode := byte_at buf (u + 38);
     vendor_id := byte_at buf (u + 42);
     auto_mac_update := byte_at buf (u + 43);
     upstream_mode := byte_at buf (u + 44);
     sw_ip_major := byte_at buf (u + 45 + 3);
     sw_ip_minor := byte_at buf (u + 45 + 4);
     sw_ip_patch := byte_at buf (u + 45 + 5);
     es_ip_major := byte_at buf (u + 51 + 3);
     es_ip_minor := byte_at buf (u + 51 + 4);
     es_ip_patch := byte_at buf (u + 51 + 5);
     sw_input_fifo_size := parse_2byte_be buf (u + 57);
     pkt_pro_fifo_size := parse_2byte_be buf (u + 59);
     sw_output_fifo_size := parse_2byte_be buf (u + 61);
     hp_fifo_size := parse_2byte_be buf (u + 63);
     lp_fifo_size := parse_2byte_be buf (u + 65);
     be_fifo_size := parse_2byte_be buf (u + 67);
     tod_ns := parse_5byte_be buf (u + 70);
     tod_sec := parse_5byte_be buf (u + 76);
     eth_wrong_dev_cnt := parse_6byte_be buf (u + 81);
     eth_wrong_op_cnt := parse_6byte_be buf (u + 87);
     eth_wrong_type_cnt := parse_6byte_be buf (u + 93);
     fpga_voltage := parse_2byte_be buf (u + 101);
     fpga_temp := parse_2byte_be buf (u + 103);
     config_id := parse_2byte_be buf (u + 105) |}.

End Dev.

Module Port.

Record health_port_info : Type := Build_health_port_info {
  port_number : Z;
  bit_status : Z;
  crc_err_count : Z;
  ali_err_count : Z;
  len_exc_64 : Z;
  len_exc_1518 : Z;
  min_vl_frame_err : Z;
  max_vl_frame_err : Z;
  inp_port_terr_cnt : Z;
  traffic_policy_drop : Z;
  be_count : Z;
  tx_count : Z;
  rx_count : Z;
  vl_source_err : Z;
  max_delay_err : Z;
  queue_overflow : Z;
  vlid_drop_count : Z;
  undef_mac_count : Z;
  hp_queue_overflow : Z;
  lp_queue_overflow : Z;
  be_queue_overflow : Z;
  max_delay_param : Z;
  port_speed : Z;
  valid : bool
}.

Definition zero : health_port_info :=
  Build_health_port_info 0 0 0 0 0 0 0 0 0 0 0 0 0 0 0 0 0 0 0 0 0 0 0 false.

(** [parse_port_data(port_data, port)], [p] the offset of the block. *)
Definition parse_port_data (buf : list Z) (p : Z) : health_port_info :=
  {| port_number := parse_2byte_be buf (p + 0);
     bit_status := byte_at buf (p + 2);
     crc_err_count := parse_6byte_be buf (p + 3);
     ali_err_count := parse_6byte_be buf (p + 9);
     len_exc_64 := parse_6byte_be buf (p + 15);
     len_exc_1518 := parse_6byte_be buf (p + 21);
     min_vl_frame_err := parse_6byte_be buf (p + 27);
     max_vl_frame_err := parse_6byte_be buf (p + 33);
     inp_port_terr_cnt := parse_6byte_be buf (p + 39);
     traffic_policy_drop := parse_6byte_be buf (p + 45);
     be_count := parse_6byte_be buf (p + 51);
     tx_count := parse_6byte_be buf (p + 57);
     rx_count := parse_6byte_be buf (p + 63);
     vl_source_err := parse_6byte_be buf (p + 69);
     max_delay_err := parse_6byte_be buf (p + 75);
     queue_overflow := parse_6byte_be buf (p + 81);
     vlid_drop_count := parse_6byte_be buf (p + 87);
     undef_mac_count := parse_6byte_be buf (p + 93);
     hp_queue_overflow := parse_6byte_be buf (p + 99);
     lp_queue_overflow := parse_6byte_be buf (p + 105);
     be_queue_overflow := parse_6byte_be buf (p + 111);
     max_delay_param := parse_6byte_be buf (p + 117);
     port_speed := parse_6byte_be buf (p + 123);
     valid := true |}.

End Port.

Module Mcu.

Record health_mcu_info : Type := Build_health_mcu_info {
  device_id : Z;
  operation_type : Z;
  config_type : Z;
  frame_length : Z;
  status_enable : Z;
  fw_major : Z;
  fw_minor : Z;
  comp_stat : Z;
  comp_status : Z;
  volt_12v : Z;
  curr_12v : Z;
  volt_3v3 : Z;
  curr_3v3 : Z;
  volt_1v8 : Z;
  curr_1v8 : Z;
  volt_3v3_fo : Z;
  curr_3v3_fo : Z;
  curr_1v3 : Z;
  volt_1v3 : Z;
  curr_1v0_mgr : Z;
  volt_1v0_mgr : Z;
  volt_1v0_ast : Z;
  curr_1v0_ast : Z;
  vdiv_3v3 : Z;
  vdiv_3v3_fo : Z;
  vdiv_12v : Z;
  board_temp : Z;
  fo_trans_temp : Z;
  valid : bool
}.

Definition zero : health_mcu_info :=
  Build_health_mcu_info 0 0 0 0 0 0 0 0 0 0 0 0 0 0 0 0 0 0 0 0 0 0 0 0 0 0 0
    0 false.

(** [parse_mcu_data(udp_payload, mcu)]: every field but [valid] is
    written; [v] is the [valid] flag the record had. *)
Definition parse_mcu_data (buf : list Z) (u : Z) (v : bool) : health_mcu_info :=
  {| device_id := parse_2byte_be buf (u + 0);
     operation_type := byte_at buf (u + 2);
     config_type := byte_at buf (u + 3);
     frame_length := parse_2byte_be buf (u + 4);
     status_enable := byte_at buf (u + 6);
     fw_major := byte_at buf (u + 7);
     fw_minor := byte_at buf (u + 7 + 1);
     comp_stat := byte_at buf (u + 9);
     comp_status := parse_2byte_be buf (u + 10);
     volt_12v := parse_2byte_be buf (u + 12);
     curr_12v := parse_2byte_be buf (u + 14);
     volt_3v3 := parse_2byte_be buf (u + 16);
     curr_3v3 := parse_2byte_be buf (u + 18);
     volt_1v8 := parse_2byte_be buf (u + 20);
     curr_1v8 := parse_2byte_be buf (u + 22);
     volt_3v3_fo := parse_2byte_be buf (u + 24);
     curr_3v3_fo := parse_2byte_be buf (u + 26);
     curr_1v3 := parse_2byte_be buf (u + 28);
     volt_1v3 := parse_2byte_be buf (u + 30);
     curr_1v0_mgr := parse_2byte_be buf (u + 32);
     volt_1v0_mgr := parse_2byte_be buf (u + 34);
     volt_1v0_ast := parse_2byte_be buf (u + 36);
     curr_1v0_ast := parse_2byte_be buf (u + 38);
     vdiv_3v3 := parse_2byte_be buf (u + 40);
     vdiv_3v3_fo := parse_2byte_be buf (u + 42);
     vdiv_12v := parse_2byte_be buf (u + 44);
     board_temp := parse_2byte_be buf (u + 46);
     fo_trans_temp := parse_2byte_be buf (u + MCU_OFF_FO_TRANS_TEMP);
     valid := v |}.

Definition set_valid (v : bool) (m : health_mcu_info) : health_mcu_info :=
  Build_health_mcu_info (device_id m) (operation_type m) (config_type m)
    (frame_length m) (status_enable m) (fw_major m) (fw_minor m) (comp_stat m)
    (comp_status m) (volt_12v m) (curr_12v m) (volt_3v3 m) (curr_3v3 m)
    (volt_1v8 m) (curr_1v8 m) (volt_3v3_fo m) (curr_3v3_fo m) (curr_1v3 m)
    (volt_1v3 m) (curr_1v0_mgr m) (volt_1v0_mgr m) (volt_1v0_ast m)
    (curr_1v0_ast m) (vdiv_3v3 m) (vdiv_3v3_fo m) (vdiv_12v m) (board_temp m)
    (fo_trans_temp m) v.

End Mcu.

Record health_fpga_data : Type := Build_health_fpga_data {
  device : Dev.health_device_info;
  ports : list Port.health_port_info;
  packets_received : Z;
  device_info_valid : bool;
  port_count_received : Z
}.

Record health_cycle_data : Type := Build_health_cycle_data {
  assistant : health_fpga_data;
  manager : health_fpga_data;
  mcu : Mcu.health_mcu_info;
  total_responses_received : Z;
  last_fpga_type : Z
}.

(** [memset(&cycle, 0, sizeof(cycle))] at the start of a cycle. *)
Definition fpga_zero : health_fpga_data :=
  {| device := Dev.zero;
     ports := repeat Port.zero (Z.to_nat HEALTH_MAX_PORTS);
     packets_received := 0;
     device_info_valid := false;
     port_count_received := 0 |}.

Definition cycle_zero : health_cycle_data :=
  {| assistant := fpga_zero;
     manager := fpga_zero;
     mcu := Mcu.zero;
     total_responses_received := 0;
     last_fpga_type := 0 |}.

(** ** [health_monitor.c]: the response classifier *)

(** What [target_fpga] points to. *)
Inductive fpga_target : Type := TargetAssistant | TargetManager.

Definition get_target (t : fpga_target) (c : health_cycle_data) :
  health_fpga_data :=
  match t with TargetAssistant => assistant c | TargetManager => manager c end.

Definition set_target (t : fpga_target) (f : health_fpga_data)
    (c : health_cycle_data) : health_cycle_data :=
  match t with
  | TargetAssistant =>
      Build_health_cycle_data f (manager c) (mcu c)
        (total_responses_received c) (last_fpga_type c)
  | TargetManager =>
      Build_health_cycle_data (assistant c) f (mcu c)
        (total_responses_received c) (last_fpga_type c)
  end.

Definition set_last_fpga_type (v : Z) (c : health_cycle_data) :
  health_cycle_data :=
  Build_health_cycle_data (assistant c) (manager c) (mcu c)
    (total_responses_received c) v.

Definition set_total_responses_received (v : Z) (c : health_cycle_data) :
  health_cycle_data :=
  Build_health_cycle_data (assistant c) (manager c) (mcu c) v
    (last_fpga_type c).

Definition set_mcu (v : Mcu.health_mcu_info) (c : health_cycle_data) :
  health_cycle_data :=
  Build_health_cycle_data (assistant c) (manager c) v
    (total_responses_received c) (last_fpga_type c).

(** The port loop: [n] blocks from offset [port_ptr]. *)
Fixpoint parse_ports (n : nat) (packet : list Z) (port_ptr : Z)
    (f : health_fpga_data) : health_fpga_data :=
  match n with
  | O => f
  | S n' =>
      let temp_port := Port.parse_port_data packet port_ptr in
      let pnum := Port.port_number temp_port in
      let f :=
        if pnum <? HEALTH_MAX_PORTS then
          {| device := device f;
             ports := <[Z.to_nat pnum := temp_port]> (ports f);
             packets_received := packets_received f;
             device_info_valid := device_info_valid f;
             port_count_received := wrap8 (port_count_received f + 1) |}
        else f in
      parse_ports n' packet (port_ptr + HEALTH_PORT_DATA_SIZE) f
  end.

(** The part of [health_parse_response] after [target_fpga] is chosen. *)
Definition parse_fpga_packet (packet : list Z) (has_device_header : bool)
    (port_count_in_packet : nat) (port_data_offset : Z) (t : fpga_target)
    (c : health_cycle_data) : health_cycle_data :=
  let udp_payload := HEALTH_UDP_PAYLOAD_OFFSET in
  let f := get_target t c in
  let f :=
    if has_device_header && negb (device_info_valid f) then
      {| device := Dev.parse_device_header packet udp_payload;
         ports := ports f;
         packets_received := packets_received f;
         device_info_valid := true;
         port_count_received := port_count_received f |}
    else f in
  let f := parse_ports port_count_in_packet packet
             (udp_payload + port_data_offset) f in
  let f :=
    {| device := device f;
       ports := ports f;
       packets_received := wrap8 (packets_received f + 1);
       device_info_valid := device_info_valid f;
       port_count_received := port_count_received f |} in
  let c := set_target t f c in
  set_total_responses_received (wrap8 (total_responses_received c + 1)) c.

Definition health_parse_response (packet : list Z) (len : Z)
    (cycle : health_cycle_data) : health_cycle_data :=
  let udp_payload := HEALTH_UDP_PAYLOAD_OFFSET in
  let fpga (has_device_header : bool) (port_count_in_packet : nat)
           (port_data_offset : Z) : health_cycle_data :=
    if has_device_header then
      let status_enable := byte_at packet (udp_payload + DEV_OFF_STATUS_ENABLE) in
      if status_enable =? STATUS_ENABLE_ASSISTANT then
        parse_fpga_packet packet has_device_header port_count_in_packet
          port_data_offset TargetAssistant
          (set_last_fpga_type STATUS_ENABLE_ASSISTANT cycle)
      else if status_enable =? STATUS_ENABLE_MANAGER then
        parse_fpga_packet packet has_device_header port_count_in_packet
          port_data_offset TargetManager
          (set_last_fpga_type STATUS_ENABLE_MANAGER cycle)
      else cycle
    else
      if last_fpga_type cycle =? STATUS_ENABLE_ASSISTANT then
        parse_fpga_packet packet has_device_header port_count_in_packet
          port_data_offset TargetAssistant cycle
      else if last_fpga_type cycle =? STATUS_ENABLE_MANAGER then
        parse_fpga_packet packet has_device_header port_count_in_packet
          port_data_offset TargetManager cycle
      else cycle in
  if len =? HEALTH_PKT_SIZE_WITH_HEADER then
    fpga true 8%nat HEALTH_DEVICE_HEADER_SIZE
  else if len =? HEALTH_PKT_SIZE_8_PORTS then
    fpga false 8%nat HEALTH_MINI_HEADER_SIZE
  else if len =? HEALTH_PKT_SIZE_3_PORTS then
    fpga false 3%nat HEALTH_MINI_HEADER_SIZE
  else if HEALTH_UDP_PAYLOAD_OFFSET + MCU_OFF_FO_TRANS_TEMP + 2 <=? len then
    let m := Mcu.parse_mcu_data packet udp_payload (Mcu.valid (mcu cycle)) in
    let cycle := set_mcu (Mcu.set_valid true m) cycle in
    set_total_responses_received
      (wrap8 (total_responses_received cycle + 1)) cycle
  else cycle.

Definition is_health_response (packet : list Z) (len : Z) : bool :=
  if len <? 14 then false
  else (byte_at packet 4 =? HEALTH_MONITOR_RESPONSE_VL_IDX_HIGH)
       && (byte_at packet 5 =? HEALTH_MONITOR_RESPONSE_VL_IDX_LOW).

(** The receive loop over the frames [recv] delivered before the cycle
    deadline, each with its buffer and length. *)
Fixpoint receive_health_responses (rx : list (list Z * Z))
    (cycle : health_cycle_data) : health_cycle_data :=
  match rx with
  | [] => cycle
  | (buffer, len) :: rest =>
      if total_responses_received cycle <? HEALTH_MONITOR_EXPECTED_RESPONSES
      then
        let cycle :=
          if is_health_response buffer len
          then health_parse_response buffer len cycle
          else cycle in
        receive_health_responses rest cycle
      else cycle
  end.

(** ** Fixtures: wire frames and transmit outcomes for the examples *)

Definition be16_bytes (x : Z) : list Z :=
  [Z.land (Z.shiftr x 8) 0xFF; Z.land x 0xFF].

Definition be32_bytes (x : Z) : list Z :=
  [Z.land (Z.shiftr x 24) 0xFF; Z.land (Z.shiftr x 16) 0xFF;
   Z.land (Z.shiftr x 8) 0xFF; Z.land x 0xFF].

(** The value of four wire bytes read in network order. *)
Definition be32_value (b0 b1 b2 b3 : Z) : Z :=
  b0 * 2 ^ 24 + b1 * 2 ^ 16 + b2 * 2 ^ 8 + b3.

(** A VLAN-tagged PTP frame as the master sends it: message type [msg],
    sequence id [seq], and a timestamp of [sec] seconds and [nsec]
    nanoseconds whose two high seconds bytes carry the peer's constant. *)
Definition ptp_rx_frame (vlan msg seq sec nsec : Z) : rte_mbuf :=
  {| data_len := 14 + 4 + 54;
     pkt := [0x03; 0x00; 0x00; 0x00; 0x00; 0x00]
            ++ [0x02; 0x00; 0x00; 0x00; 0x00; 0x10]
            ++ be16_bytes RTE_ETHER_TYPE_VLAN
            ++ be16_bytes vlan
            ++ be16_bytes PTP_ETHERTYPE
            ++ [msg; PTP_VERSION] ++ be16_bytes 54 ++ [PTP_DEFAULT_DOMAIN; 0]
            ++ [0; 0] ++ repeat 0 8 ++ repeat 0 4
            ++ [0xAA; 0xBB; 0xCC; 0xFF; 0xFE; 0x01; 0x02; 0x03] ++ be16_bytes 1
            ++ be16_bytes seq ++ [0; 0]
            ++ [0xAB; 0xCD] ++ be32_bytes sec ++ be32_bytes nsec
            ++ repeat 0 10 |}.

(** A transmit attempt that succeeds at tick [t] and wall-clock [r]. *)
Definition tx_ok (t r : Z) : tx_env :=
  {| tx_mbuf_pool := true; alloc_ok := true; append_ok := true;
     tsc_before := t; nb_tx := 1; tsc_after := t; tx_realtime_ns := r |}.

(** A 1 GHz tick counter. *)
Definition hz_1GHz : Z := 1000000000.

(** Two cycles of a session on VLAN 225 (transmitting on VLAN 97): a
    complete first cycle whose Delay_Resp answers sequence id [first_seq],
    then a second Sync and the tick that sends the second Delay_Req. *)
Definition two_cycle_events (first_seq : Z) : list ptp_event :=
  [ EvTick (tx_ok 0 0) 0;
    EvRx (ptp_rx_frame 225 PTP_MSG_SYNC 7 1000 0) 1000 1000000080000 1000;
    EvTick (tx_ok 100001000 1000000150000) 100001000;
    EvRx (ptp_rx_frame 225 PTP_MSG_DELAY_RESP first_seq 1000 200000)
         100002000 1000000200000 100002000;
    EvRx (ptp_rx_frame 225 PTP_MSG_SYNC 8 1001 0)
         1000001000 1001000080000 1000001000;
    EvTick (tx_ok 1100001000 1001000150000) 1100001000 ].

Definition session_fresh : ptp_session_t :=
  ptp_session_init hz_1GHz 0 1 0 225 97 4420.

(** The session after its first cycle (offset 15000 ns, delay 65000 ns),
    with its second Delay_Req, sequence id 1, in flight. *)
Definition session_in_second_cycle : ptp_session_t :=
  fst (session_run hz_1GHz session_fresh (two_cycle_events 0)).

(** A session whose Delay_Req counter has reached 65535. *)
Definition session_before_wrap : ptp_session_t :=
  set_delay_req_seq_id 65535 session_fresh.

(** The session of the golden Delay_Req of the specification. *)
Definition session_golden : ptp_session_t :=
  set_delay_req_seq_id 5 session_fresh.

(** Health frames: [len] bytes addressed to the health VL-IDX, with
    [status_enable] at payload byte 6 and [n] port blocks numbered from
    [first] after a header of [hdr] bytes. *)
Definition health_frame (len : nat) (status_enable : Z) (hdr n : nat)
    (first : Z) : list Z * Z :=
  let buf := [0x03; 0x00; 0x00; 0x00; 0x11; 0x84] ++ repeat 0 (len - 6) in
  let buf := write_at 48 [status_enable] buf in
  let buf :=
    fold_left
      (fun b k => write_at (42 + hdr + 129 * k + 1) [first + Z.of_nat k] b)
      (seq 0 n) buf in
  (buf, Z.of_nat len).

(** The six responses of one cycle in the order the device sends them. *)
Definition health_cycle_frames : list (list Z * Z) :=
  [ health_frame 1187 STATUS_ENABLE_ASSISTANT 111 8 0;
    health_frame 1083 0 7 8 8;
    health_frame 1187 STATUS_ENABLE_MANAGER 111 8 16;
    health_frame 1083 0 7 8 24;
    health_frame 438 0 7 3 32;
    health_frame 94 0x05 0 0 0 ].

(** An MCU response of the minimum length: 92 bytes addressed to the
    health VL-IDX whose payload bytes 0..49 are 1..50. *)
Definition mcu_frame : list Z :=
  [0x03; 0x00; 0x00; 0x00; 0x11; 0x84] ++ repeat 0 36
  ++ map Z.of_nat (seq 1 50).

(** ** Vocabulary of the statements *)

(** The C types of the two session fields the Delay_Req builder copies. *)
Definition session_wf (s : ptp_session_t) : Prop :=
  is_u16 (delay_req_seq_id s)
  /\ length (clock_identity (our_port_id s)) = 8%nat.

(** [ids] are successive counter values starting at [n], modulo 2^16. *)
Fixpoint consecutive_from (n : Z) (ids : list Z) : Prop :=
  match ids with
  | [] => True
  | x :: rest => x = n /\ consecutive_from (wrap16 (n + 1)) rest
  end.

Definition sent_sequence_ids (bs : list tx_mbuf) : list Z :=
  map (fun b => frame_sequence_id (frame b)) bs.

(** ** Session states along a run *)

(** The state changes a tick can make ([ptp_state_machine_tick]). *)
Definition tick_edge (a b : ptp_state_t) : bool :=
  match a, b with
  | PTP_STATE_INIT, PTP_STATE_LISTENING
  | PTP_STATE_LISTENING, PTP_STATE_LISTENING
  | PTP_STATE_SYNC_RECEIVED, PTP_STATE_SYNC_RECEIVED
  | PTP_STATE_SYNC_RECEIVED, PTP_STATE_DELAY_REQ_SENT
  | PTP_STATE_SYNC_RECEIVED, PTP_STATE_ERROR
  | PTP_STATE_DELAY_REQ_SENT, PTP_STATE_DELAY_REQ_SENT
  | PTP_STATE_DELAY_REQ_SENT, PTP_STATE_LISTENING
  | PTP_STATE_SYNCED, PTP_STATE_SYNCED
  | PTP_STATE_SYNCED, PTP_STATE_LISTENING
  | PTP_STATE_ERROR, PTP_STATE_ERROR
  | PTP_STATE_ERROR, PTP_STATE_LISTENING => true
  | _, _ => false
  end.

(** The state changes a received packet can make ([ptp_packet_process]). *)
Definition rx_edge (a b : ptp_state_t) : bool :=
  ptp_state_eqb a b
  || match a, b with
     | PTP_STATE_LISTENING, PTP_STATE_SYNC_RECEIVED
     | PTP_STATE_SYNCED, PTP_STATE_SYNC_RECEIVED
     | PTP_STATE_ERROR, PTP_STATE_SYNC_RECEIVED
     | PTP_STATE_DELAY_REQ_SENT, PTP_STATE_SYNCED => true
     | _, _ => false
     end.

(** What holds of a session at every point of its life. *)
Definition session_inv (s : ptp_session_t) : Prop :=
  (state s = PTP_STATE_SYNCED -> is_synced s = true) /\
  (state s = PTP_STATE_SYNC_RECEIVED -> t2_tsc s = last_state_change s) /\
  (state s = PTP_STATE_DELAY_REQ_SENT \/ state s = PTP_STATE_SYNCED ->
   delay_req_seq_id s = wrap16 (last_delay_req_seq_id s + 1)) /\
  is_u16 (delay_req_seq_id s) /\ is_u16 (last_delay_req_seq_id s).

(** A tick event for each transmit outcome and clock reading. *)
Definition ticks (ts : list (tx_env * Z)) : list ptp_event :=
  map (fun t => EvTick (fst t) (snd t)) ts.

(** The six statistics counters set at once. *)
Definition with_stats (a b c d e f : Z) (s : ptp_session_t) : ptp_session_t :=
  let s := set_sync_rx_count a s in
  let s := set_delay_req_tx_count b s in
  let s := set_delay_resp_rx_count c s in
  let s := set_sync_timeout_count d s in
  let s := set_sync_errors e s in
  set_sync_count f s.

(** The fields of a session that [ptp_session_init] sets from the
    configuration. *)
Definition session_config (s : ptp_session_t) :
  Z * Z * Z * Z * Z * Z * Z * Z * ptp_port_identity_t :=
  (port_id s, tx_port_id s, vlan_id s, rx_vlan_id s, tx_vlan_id s,
   tx_vl_idx s, rx_vl_idx s, session_idx s, our_port_id s).

(** Two sessions that differ in the statistics counters at most. *)
Definition same_protocol (a b : ptp_session_t) : Prop :=
  ptp_session_reset_stats a = ptp_session_reset_stats b.

(** The fields of a session the Delay_Req builder reads, in the ranges of
    their C types. *)
Definition builder_wf (s : ptp_session_t) : Prop :=
  is_u16 (delay_req_seq_id s) /\ is_u16 (tx_vlan_id s) /\
  is_u16 (tx_vl_idx s) /\
  length (clock_identity (our_port_id s)) = 8%nat /\
  Forall is_byte (clock_identity (our_port_id s)) /\
  is_u16 (port_number (our_port_id s)).

(** ** [ptp_worker.c] *)

Module Worker.

Definition PTP_MAX_PORTS : Z := 8.
Definition PTP_SESSIONS_PER_PORT : Z := 4.

Record ptp_port_t : Type := Build_ptp_port_t {
  port_id : Z;
  session_count : Z;
  sessions : list ptp_session_t;
  enabled : bool;
  tx_mbuf_pool : bool;   (* the pool pointer is not NULL *)
  ptp_lcore_id : Z
}.

Record ptp_context_t : Type := Build_ptp_context_t {
  ports : list ptp_port_t;
  port_count : Z;
  initialized : bool;
  running : bool;
  tsc_hz : Z;
  local_mac : list Z
}.

(** [struct ptp_session_config] of [config.h]. *)
Record ptp_session_config : Type := Build_ptp_session_config {
  rx_port_id : Z;
  rx_vlan : Z;
  tx_port_id : Z;
  tx_vlan : Z;
  tx_vl_idx : Z
}.

Definition set_sessions (v : list ptp_session_t) (p : ptp_port_t) :
  ptp_port_t :=
  Build_ptp_port_t (port_id p) (session_count p) v (enabled p)
    (tx_mbuf_pool p) (ptp_lcore_id p).

Definition set_ports (v : list ptp_port_t) (c : ptp_context_t) :
  ptp_context_t :=
  Build_ptp_context_t v (port_count c) (initialized c) (running c) (tsc_hz c)
    (local_mac c).

Definition port_zero : ptp_port_t :=
  {| port_id := 0; session_count := 0;
     sessions := repeat session_zero (Z.to_nat PTP_SESSIONS_PER_PORT);
     enabled := false; tx_mbuf_pool := false; ptp_lcore_id := 0 |}.

(** [ptp_init]: the zeroed context with the TSC frequency, the MAC of
    port 0 and the initialised flag. *)
Definition ptp_init (hz : Z) (mac : list Z) : ptp_context_t :=
  {| ports := repeat port_zero (Z.to_nat PTP_MAX_PORTS);
     port_count := 0; initialized := true; running := false;
     tsc_hz := hz; local_mac := mac |}.

Definition ptp_get_port (ctx : ptp_context_t) (id : Z) : option ptp_port_t :=
  if PTP_MAX_PORTS <=? id then None
  else
    match ports ctx !! Z.to_nat id with
    | Some port => if enabled port then Some port else None
    | None => None
    end.

(** The loop of [find_session_by_vlan] from index [i], [n] sessions to
    go; the result is the index of the session found. *)
Fixpoint find_session_from (ss : list ptp_session_t) (i n : nat) (vlan : Z) :
  option nat :=
  match n, ss with
  | S n', s :: rest =>
      if rx_vlan_id s =? vlan then Some i
      else find_session_from rest (S i) n' vlan
  | _, _ => None
  end.

Definition find_session_by_vlan (port : ptp_port_t) (vlan : Z) : option nat :=
  find_session_from (sessions port) 0 (Z.to_nat (session_count port)) vlan.

(** A received frame with the clock readings taken while it is handled. *)
Record rx_frame : Type := Build_rx_frame {
  rx_mbuf : rte_mbuf;
  rx_tsc : Z;
  rx_realtime_ns : Z;
  rx_now_tsc : Z
}.

(** The body of the receive loop of [ptp_worker_main] for one frame: the
    port afterwards and the status of [ptp_packet_process] if it ran. *)
Definition worker_rx (hz : Z) (port : ptp_port_t) (f : rx_frame) :
  ptp_port_t * option Z :=
  if negb (ptp_is_ptp_packet (rx_mbuf f)) then (port, None)
  else
    let vlan_id := ptp_get_vlan_id (rx_mbuf f) in
    match find_session_by_vlan port vlan_id with
    | Some i =>
        match sessions port !! i with
        | Some s =>
            let r := ptp_packet_process hz s (rx_mbuf f) (rx_tsc f)
                       (rx_realtime_ns f) (rx_now_tsc f) in
            (set_sessions (<[i := snd r]> (sessions port)) port, Some (fst r))
        | None => (port, None)
        end
    | None => (port, None)
    end.

Fixpoint worker_rx_burst (hz : Z) (port : ptp_port_t) (fs : list rx_frame) :
  ptp_port_t * list (option Z) :=
  match fs with
  | [] => (port, [])
  | f :: rest =>
      let '(port, st) := worker_rx hz port f in
      let '(port, sts) := worker_rx_burst hz port rest in
      (port, st :: sts)
  end.

(** The transmit outcome for a session of [port]: the pool is the
    port's. *)
Definition port_env (port : ptp_port_t) (e : tx_env) : tx_env :=
  Build_tx_env (tx_mbuf_pool port) (alloc_ok e) (append_ok e) (tsc_before e)
    (nb_tx e) (tsc_after e) (tx_realtime_ns e).

(** The tick loop over sessions [i], [i+1], ... ([n] to go); [envs] gives
    the transmit outcome for each session index. *)
Fixpoint worker_tick_from (hz : Z) (port : ptp_port_t) (envs : nat -> tx_env)
    (current_tsc : Z) (i n : nat) : ptp_port_t * list tx_mbuf :=
  match n with
  | O => (port, [])
  | S n' =>
      match sessions port !! i with
      | Some s =>
          let '(s', sent) :=
            ptp_state_machine_tick hz s (port_env port (envs i)) current_tsc in
          let port := set_sessions (<[i := s']> (sessions port)) port in
          let '(port, rest) :=
            worker_tick_from hz port envs current_tsc (S i) n' in
          (port, match sent with Some b => b :: rest | None => rest end)
      | None => (port, [])
      end
  end.

(** One iteration of the loop of [ptp_worker_main]: the burst, then the
    tick of every session. *)
Definition worker_iteration (hz : Z) (port : ptp_port_t) (fs : list rx_frame)
    (envs : nat -> tx_env) (current_tsc : Z) : ptp_port_t * list tx_mbuf :=
  let port := fst (worker_rx_burst hz port fs) in
  worker_tick_from hz port envs current_tsc 0
    (Z.to_nat (session_count port)).

(** One pass of the loop of [ptp_configure_split_sessions]; [pool_ok id]
    tells whether [create_ptp_mbuf_pool(id)] succeeds. *)
Definition configure_one (hz : Z) (pool_ok : Z -> bool) (ctx : ptp_context_t)
    (cfg : ptp_session_config) : Z * ptp_context_t :=
  if (PTP_MAX_PORTS <=? rx_port_id cfg) || (PTP_MAX_PORTS <=? tx_port_id cfg)
  then (-1, ctx)
  else
    let k := Z.to_nat (rx_port_id cfg) in
    match ports ctx !! k with
    | None => (-1, ctx)
    | Some rx_port =>
        let created :=
          if tx_mbuf_pool rx_port then Some (rx_port, port_count ctx)
          else if pool_ok (rx_port_id cfg) then
            Some (Build_ptp_port_t (rx_port_id cfg) (session_count rx_port)
                    (sessions rx_port) true true (ptp_lcore_id rx_port),
                  wrap8 (port_count ctx + 1))
          else None in
        match created with
        | None => (-1, ctx)
        | Some (rx_port, count) =>
            let ctx1 :=
              Build_ptp_context_t (<[k := rx_port]> (ports ctx)) count
                (initialized ctx) (running ctx) (tsc_hz ctx) (local_mac ctx) in
            if PTP_SESSIONS_PER_PORT <=? session_count rx_port then (-1, ctx1)
            else
              let session_idx := wrap8 (session_count rx_port) in
              let s := ptp_session_init hz (rx_port_id cfg) (tx_port_id cfg)
                         session_idx (rx_vlan cfg) (tx_vlan cfg)
                         (tx_vl_idx cfg) in
              let rx_port :=
                Build_ptp_port_t (port_id rx_port)
                  (wrap16 (session_count rx_port + 1))
                  (<[Z.to_nat session_idx := s]> (sessions rx_port))
                  (enabled rx_port) (tx_mbuf_pool rx_port)
                  (ptp_lcore_id rx_port) in
              (0, set_ports (<[k := rx_port]> (ports ctx1)) ctx1)
        end
    end.

Fixpoint configure_loop (hz : Z) (pool_ok : Z -> bool) (ctx : ptp_context_t)
    (cfgs : list ptp_session_config) : Z * ptp_context_t :=
  match cfgs with
  | [] => (0, ctx)
  | cfg :: rest =>
      let '(ret, ctx) := configure_one hz pool_ok ctx cfg in
      if ret =? 0 then configure_loop hz pool_ok ctx rest else (ret, ctx)
  end.

Definition ptp_configure_split_sessions (hz : Z) (pool_ok : Z -> bool)
    (ctx : ptp_context_t) (cfgs : list ptp_session_config) :
  Z * ptp_context_t :=
  if negb (initialized ctx) then (-1, ctx)
  else configure_loop hz pool_ok ctx cfgs.

(** The port of a configuration entry once its pool exists. *)
Definition with_pool (id : Z) (p : ptp_port_t) : ptp_port_t :=
  if tx_mbuf_pool p then p
  else Build_ptp_port_t id (session_count p)
         (sessions p) true true (ptp_lcore_id p).

(** A port as the configuration leaves it: four session slots, at most
    four of them in use, and enabled once it has a pool. *)
Definition port_wf (p : ptp_port_t) : Prop :=
  length (sessions p) = 4%nat /\ 0 <= session_count p <= 4 /\
  (tx_mbuf_pool p = true -> enabled p = true).

Definition context_wf (c : ptp_context_t) : Prop :=
  length (ports c) = 8%nat /\ Forall port_wf (ports c).

(** The event a received frame is for its session. *)
Definition rx_event (f : rx_frame) : ptp_event :=
  EvRx (rx_mbuf f) (rx_tsc f) (rx_realtime_ns f) (rx_now_tsc f).

(** The frame is handed to session [i] of [port] by the receive loop. *)
Definition routed_to (port : ptp_port_t) (i : nat) (f : rx_frame) : bool :=
  ptp_is_ptp_packet (rx_mbuf f)
  && match find_session_by_vlan port (ptp_get_vlan_id (rx_mbuf f)) with
     | Some k => Nat.eqb k i
     | None => false
     end.

(** The port of [cfg] is enabled and its lookup finds a session for the
    RX VLAN of [cfg]. *)
Definition entry_found (ctx : ptp_context_t)
    (cfg : ptp_session_config) : Prop :=
  exists port i s,
    ptp_get_port ctx (rx_port_id cfg) = Some port /\
    find_session_by_vlan port (rx_vlan cfg) = Some i /\
    sessions port !! i = Some s /\
    rx_vlan_id s = rx_vlan cfg.

End Worker.

(** ** [ptp_flow.c] *)

Module Flow.

(** The items of a flow pattern, with the fields the code sets. *)
Inductive flow_item : Type :=
  | ITEM_ETH (spec_mask : option (Z * Z))      (* EtherType spec and mask *)
  | ITEM_VLAN (inner_type inner_mask tci_mask : Z)
  | ITEM_END.

(** The three patterns in the order tried. *)
Definition pattern_vlan_any_eth : list flow_item :=
  [ITEM_ETH None; ITEM_VLAN (rte_cpu_to_be_16 PTP_ETHERTYPE) 0xFFFF 0; ITEM_END].

Definition pattern_vlan_explicit : list flow_item :=
  [ITEM_ETH (Some (rte_cpu_to_be_16 RTE_ETHER_TYPE_VLAN, 0xFFFF));
   ITEM_VLAN (rte_cpu_to_be_16 PTP_ETHERTYPE) 0xFFFF 0; ITEM_END].

Definition pattern_untagged : list flow_item :=
  [ITEM_ETH (Some (rte_cpu_to_be_16 PTP_ETHERTYPE, 0xFFFF)); ITEM_END].

(** The answers of the NIC driver for a port and a pattern:
    [rte_flow_validate] returns 0, and the handle [rte_flow_create]
    returns ([None] for NULL). *)
Record nic : Type := Build_nic {
  validate_ok : Z -> list flow_item -> bool;
  create : Z -> list flow_item -> option Z
}.

(** One attempt: the handle if validation and creation succeed. *)
Definition try_pattern (n : nic) (id : Z) (p : list flow_item) : option Z :=
  if validate_ok n id p then create n id p else None.

(** [ptp_flow_rule_remove]: the handle is cleared whatever
    [rte_flow_destroy] returns. *)
Definition ptp_flow_rule_remove (handles : list (option Z)) (id : Z) :
  list (option Z) :=
  if Worker.PTP_MAX_PORTS <=? id then handles
  else
    match handles !! Z.to_nat id with
    | Some (Some _) => <[Z.to_nat id := None]> handles
    | _ => handles
    end.

Definition ptp_flow_rule_install (n : nic) (handles : list (option Z))
    (id : Z) : Z * list (option Z) :=
  if Worker.PTP_MAX_PORTS <=? id then (-1, handles)
  else
    let handles := ptp_flow_rule_remove handles id in
    match try_pattern n id pattern_vlan_any_eth with
    | Some flow => (0, <[Z.to_nat id := Some flow]> handles)
    | None =>
        match try_pattern n id pattern_vlan_explicit with
        | Some flow => (0, <[Z.to_nat id := Some flow]> handles)
        | None =>
            match try_pattern n id pattern_untagged with
            | Some flow => (0, <[Z.to_nat id := Some flow]> handles)
            | None => (-1, handles)
            end
        end
    end.

(** The loop of [ptp_flow_rules_install_all] over the ports from index
    [i]: the numbers of successes and failures and the handles. *)
Fixpoint install_from (n : nic) (ps : list Worker.ptp_port_t)
    (handles : list (option Z)) (success failed : Z) :
  Z * Z * list (option Z) :=
  match ps with
  | [] => (success, failed, handles)
  | port :: rest =>
      if negb (Worker.enabled port) then
        install_from n rest handles success failed
      else
        let '(ret, handles) :=
          ptp_flow_rule_install n handles (Worker.port_id port) in
        if ret =? 0 then install_from n rest handles (success + 1) failed
        else install_from n rest handles success (failed + 1)
  end.

Definition ptp_flow_rules_install_all (n : nic) (ctx : Worker.ptp_context_t)
    (handles : list (option Z)) : Z * list (option Z) :=
  let '(success, failed, handles) :=
    install_from n (Worker.ports ctx) handles 0 0 in
  (if 0 <? failed then -1 else 0, handles).

(** The handle the three attempts end with: that of the first pattern,
    in the order tried, that the NIC validates and creates. *)
Definition first_accepted (n : nic) (id : Z) : option Z :=
  match try_pattern n id pattern_vlan_any_eth with
  | Some flow => Some flow
  | None =>
      match try_pattern n id pattern_vlan_explicit with
      | Some flow => Some flow
      | None => try_pattern n id pattern_untagged
      end
  end.

(** An enabled port on which no rule can be installed. *)
Definition port_fails (n : nic) (port : Worker.ptp_port_t) : bool :=
  Worker.enabled port
  && ((Worker.PTP_MAX_PORTS <=? Worker.port_id port)
      || match first_accepted n (Worker.port_id port) with
         | Some _ => false
         | None => true
         end).

End Flow.

(** ** [health_monitor.c]: the query cycle *)

Module Health.

Definition HEALTH_MONITOR_QUERY_SIZE : Z := 64.
Definition HEALTH_MONITOR_SEQ_INIT : Z := 0x2F.

(** The initialiser list of [health_query_template] as written: 65
    values for an array of [HEALTH_MONITOR_QUERY_SIZE] = 64 bytes. *)
Definition health_query_initializers : list Z :=
  [ 0x03; 0x00; 0x00; 0x00; 0x00; 0x00;
    0x02; 0x00; 0x00; 0x00; 0x00; 0x20;
    0x08; 0x00;
    0x45; 0x00; 0x00; 0x32;
    0xd4; 0x3b; 0x00; 0x00;
    0x01; 0x11;
    0xd9; 0x9d;
    0x0a; 0x01; 0x21; 0x01;
    0xe0; 0xe0; 0x00; 0x00;
    0x00; 0x64; 0x00; 0x64;
    0x00; 0x1e; 0x00; 0x00;
    0x02; 0x00; 0x52; 0x00; 0x00; 0x00;
    0x00; 0x44; 0x00; 0x00; 0x00; 0x00; 0x00; 0x00;
    0x00; 0x00; 0x00; 0x00; 0x00; 0x00; 0x00; 0x00;
    0x2f ].

(** The array itself: the compiler keeps the first 64 values and drops
    the excess one. *)
Definition health_query_template : list Z :=
  firstn (Z.to_nat HEALTH_MONITOR_QUERY_SIZE) health_query_initializers.

Record health_monitor_stats : Type := Build_health_monitor_stats {
  queries_sent : Z;
  responses_received : Z;
  timeouts : Z;
  current_sequence : Z;
  last_cycle_time_ms : Z;
  last_response_count : Z
}.

(** The part of [struct health_monitor_state] the cycle works on. *)
Record health_monitor_state : Type := Build_health_monitor_state {
  query_packet : list Z;
  sequence : Z;
  stats : health_monitor_stats
}.

(** [init_health_monitor], sockets apart. *)
Definition init_health_monitor : health_monitor_state :=
  {| query_packet := health_query_template;
     sequence := HEALTH_MONITOR_SEQ_INIT;
     stats := Build_health_monitor_stats 0 0 0 0 0 0 |}.

(** [send_health_query] up to [sendto]: the packet with the sequence
    number at offset 63. *)
Definition send_health_query (st : health_monitor_state) :
  health_monitor_state :=
  Build_health_monitor_state
    (<[63%nat := sequence st]> (query_packet st)) (sequence st) (stats st).

(** Step 6 of the thread loop: 255 is followed by 1. *)
Definition next_sequence (seq : Z) : Z :=
  if 255 <=? seq then 1 else wrap8 (seq + 1).

(** What the outside answers during one pass of the thread loop. *)
Record cycle_io : Type := Build_cycle_io {
  sent_ok : bool;              (* sendto did not fail *)
  received : list (list Z * Z);  (* frames read before the deadline *)
  cycle_time : Z               (* measured duration in ms *)
}.

(** One pass of the loop of [health_monitor_thread_func]: the state
    afterwards, the query if it was sent, and the cycle data printed. *)
Definition health_cycle (st : health_monitor_state) (io : cycle_io) :
  health_monitor_state * option (list Z) * health_cycle_data :=
  let cycle := cycle_zero in
  let st := send_health_query st in
  if negb (sent_ok io) then (st, None, cycle)
  else
    let q := query_packet st in
    let cycle := receive_health_responses (received io) cycle in
    let n := total_responses_received cycle in
    let s := stats st in
    let s :=
      Build_health_monitor_stats
        (wrap64 (queries_sent s + 1))
        (wrap64 (responses_received s + n))
        (if n <? HEALTH_MONITOR_EXPECTED_RESPONSES
         then wrap64 (timeouts s + 1) else timeouts s)
        (sequence st)
        (cycle_time io)
        n in
    (Build_health_monitor_state (query_packet st)
       (next_sequence (sequence st)) s,
     Some q, cycle).

(** The passes of the loop in order, with the queries sent. *)
Fixpoint health_run (st : health_monitor_state) (ios : list cycle_io) :
  health_monitor_state * list (list Z) :=
  match ios with
  | [] => (st, [])
  | io :: rest =>
      let '(st1, q, _) := health_cycle st io in
      let '(st2, qs) := health_run st1 rest in
      (st2, match q with Some p => p :: qs | None => qs end)
  end.

(** The sequence numbers of [n] successive queries starting at [seq]. *)
Fixpoint sequence_from (seq : Z) (n : nat) : list Z :=
  match n with
  | O => []
  | S n' => seq :: sequence_from (next_sequence seq) n'
  end.

(** The frame is accepted by the receive loop. *)
Definition accepted (f : list Z * Z) : bool :=
  is_health_response (fst f) (snd f).

End Health.

(** ** Tactics *)

(** Reduce the projections of a session through its setters only. *)
Ltac session_cbn :=
  cbn [port_id tx_port_id vlan_id rx_vlan_id tx_vlan_id tx_vl_idx rx_vl_idx
       session_idx state last_state_change master_port_id master_domain
       our_port_id sync_seq_id delay_req_seq_id last_delay_req_seq_id t1_ns
       t2_tsc t2_realtime_ns t3_tsc t3_realtime_ns t4_ns offset_ns delay_ns
       tsc_hz sync_rx_count delay_req_tx_count delay_resp_rx_count
       sync_timeout_count sync_errors last_sync_tsc last_delay_req_tsc
       is_synced sync_count set_state set_last_state_change
       set_master_port_id set_master_domain set_our_port_id set_sync_seq_id
       set_delay_req_seq_id set_last_delay_req_seq_id set_t1_ns set_t2_tsc
       set_t2_realtime_ns set_t3_tsc set_t3_realtime_ns set_t4_ns
       set_offset_ns set_delay_ns set_tsc_hz set_sync_rx_count
       set_delay_req_tx_count set_delay_resp_rx_count set_sync_timeout_count
       set_sync_errors set_last_sync_tsc set_last_delay_req_tsc set_is_synced
       set_sync_count fst snd negb].

Tactic Notation "session_cbn" "in" hyp(H) :=
  cbn [port_id tx_port_id vlan_id rx_vlan_id tx_vlan_id tx_vl_idx rx_vl_idx
       session_idx state last_state_change master_port_id master_domain
       our_port_id sync_seq_id delay_req_seq_id last_delay_req_seq_id t1_ns
       t2_tsc t2_realtime_ns t3_tsc t3_realtime_ns t4_ns offset_ns delay_ns
       tsc_hz sync_rx_count delay_req_tx_count delay_resp_rx_count
       sync_timeout_count sync_errors last_sync_tsc last_delay_req_tsc
       is_synced sync_count set_state set_last_state_change
       set_master_port_id set_master_domain set_our_port_id set_sync_seq_id
       set_delay_req_seq_id set_last_delay_req_seq_id set_t1_ns set_t2_tsc
       set_t2_realtime_ns set_t3_tsc set_t3_realtime_ns set_t4_ns
       set_offset_ns set_delay_ns set_tsc_hz set_sync_rx_count
       set_delay_req_tx_count set_delay_resp_rx_count set_sync_timeout_count
       set_sync_errors set_last_sync_tsc set_last_delay_req_tsc set_is_synced
       set_sync_count fst snd negb] in H.

(** Split an instance of [session_inv] and close the parts that follow
    from the hypotheses or contradict the state. *)
Ltac inv_parts :=
  refine (conj _ (conj _ (conj _ (conj _ _))));
  intros; try assumption; try discriminate; try reflexivity;
  try solve [intuition (discriminate || auto)].

(** * Properties *)

Lemma to_int64_range x : - 2 ^ 63 <= to_int64 x < 2 ^ 63.
Proof. unfold to_int64. pose proof (Z.mod_pos_bound (x + 2 ^ 63) (2 ^ 64)). lia. Qed.

Lemma to_int64_id x : - 2 ^ 63 <= x < 2 ^ 63 -> to_int64 x = x.
Proof. intros H. unfold to_int64. rewrite Z.mod_small; lia. Qed.

Lemma to_int64_eqm x y k : x = y + k * 2 ^ 64 -> to_int64 x = to_int64 y.
Proof.
  intros ->. unfold to_int64.
  replace (y + k * 2 ^ 64 + 2 ^ 63) with (y + 2 ^ 63 + k * 2 ^ 64) by ring.
  now rewrite Z.mod_add by lia.
Qed.

Lemma to_int64_repr x : exists k, to_int64 x = x + k * 2 ^ 64.
Proof.
  exists (- ((x + 2 ^ 63) / 2 ^ 64)). unfold to_int64.
  rewrite Z.mod_eq by lia. ring.
Qed.

Lemma to_int64_sub a b : to_int64 (to_int64 a - to_int64 b) = to_int64 (a - b).
Proof.
  destruct (to_int64_repr a) as [ka ->], (to_int64_repr b) as [kb ->].
  apply (to_int64_eqm _ _ (ka - kb)). ring.
Qed.

Lemma c_div_2_range x : - 2 ^ 63 <= x < 2 ^ 63 -> - 2 ^ 62 <= c_div x 2 < 2 ^ 62.
Proof. intros H. unfold c_div. Z.to_euclidean_division_equations. lia. Qed.

(** ** Bytes and byte order *)

Lemma land_0xFF x : Z.land x 0xFF = x mod 2 ^ 8.
Proof. change 0xFF with (Z.ones 8). apply Z.land_ones. lia. Qed.

Lemma testbit_small lo n k : 0 <= lo < 2 ^ n -> n <= k -> Z.testbit lo k = false.
Proof.
  intros [H0 H1] Hk.
  destruct (Z.eq_dec lo 0) as [-> | Hne]; [apply Z.bits_0 |].
  apply Z.bits_above_log2; [lia |].
  assert (0 <= n) by (destruct (Z_lt_le_dec n 0); [rewrite Z.pow_neg_r in H1; lia | lia]).
  assert (Z.log2 lo < n) by (apply Z.log2_lt_pow2; lia). lia.
Qed.

Lemma lor_shiftl_add hi lo n :
  0 <= n -> 0 <= lo < 2 ^ n -> Z.lor (Z.shiftl hi n) lo = hi * 2 ^ n + lo.
Proof.
  intros Hn Hlo.
  assert (Hdisj : Z.land (Z.shiftl hi n) lo = 0).
  { apply Z.bits_inj'. intros k Hk. rewrite Z.land_spec, Z.bits_0.
    destruct (Z_lt_le_dec k n).
    - rewrite Z.shiftl_spec_low; auto.
    - rewrite (testbit_small lo n k) by lia. apply andb_false_r. }
  rewrite <- Z.lxor_lor, <- Z.add_nocarry_lxor by exact Hdisj.
  now rewrite Z.shiftl_mul_pow2.
Qed.

Lemma bswap16_arith x :
  bswap16 x = x mod 2 ^ 8 * 2 ^ 8 + (x / 2 ^ 8) mod 2 ^ 8.
Proof.
  unfold bswap16. rewrite !land_0xFF, Z.shiftr_div_pow2 by lia.
  apply lor_shiftl_add; [lia | apply Z.mod_pos_bound; lia].
Qed.

Lemma bswap32_arith x :
  bswap32 x = x mod 2 ^ 8 * 2 ^ 24 + (x / 2 ^ 8) mod 2 ^ 8 * 2 ^ 16
              + (x / 2 ^ 16) mod 2 ^ 8 * 2 ^ 8 + (x / 2 ^ 24) mod 2 ^ 8.
Proof.
  unfold bswap32. rewrite !land_0xFF, !Z.shiftr_div_pow2 by lia.
  pose proof (Z.mod_pos_bound x (2 ^ 8) ltac:(lia)).
  pose proof (Z.mod_pos_bound (x / 2 ^ 8) (2 ^ 8) ltac:(lia)).
  pose proof (Z.mod_pos_bound (x / 2 ^ 16) (2 ^ 8) ltac:(lia)).
  pose proof (Z.mod_pos_bound (x / 2 ^ 24) (2 ^ 8) ltac:(lia)).
  rewrite (lor_shiftl_add _ ((x / 2 ^ 24) mod 2 ^ 8) 8) by lia.
  rewrite (Z.shiftl_mul_pow2 ((x / 2 ^ 8) mod 2 ^ 8) 16) by lia.
  rewrite (lor_shiftl_add _ ((x / 2 ^ 8) mod 2 ^ 8 * 2 ^ 16) 24) by lia.
  assert (Hd : Z.land (x mod 2 ^ 8 * 2 ^ 24 + (x / 2 ^ 8) mod 2 ^ 8 * 2 ^ 16)
                      ((x / 2 ^ 16) mod 2 ^ 8 * 2 ^ 8 + (x / 2 ^ 24) mod 2 ^ 8) = 0).
  { apply Z.bits_inj'. intros k Hk. rewrite Z.land_spec, Z.bits_0.
    destruct (Z_lt_le_dec k 16).
    - replace (x mod 2 ^ 8 * 2 ^ 24 + (x / 2 ^ 8) mod 2 ^ 8 * 2 ^ 16)
        with ((x mod 2 ^ 8 * 2 ^ 8 + (x / 2 ^ 8) mod 2 ^ 8) * 2 ^ 16) by ring.
      rewrite Z.mul_pow2_bits_low by lia. reflexivity.
    - rewrite (testbit_small ((x / 2 ^ 16) mod 2 ^ 8 * 2 ^ 8 + (x / 2 ^ 24) mod 2 ^ 8) 16 k)
        by lia.
      apply andb_false_r. }
  rewrite <- Z.lxor_lor, <- Z.add_nocarry_lxor by exact Hd. ring.
Qed.

Lemma bswap16_involutive x : is_u16 x -> bswap16 (bswap16 x) = x.
Proof.
  unfold is_u16. intros H. rewrite (bswap16_arith (bswap16 x)), (bswap16_arith x).
  Z.to_euclidean_division_equations. lia.
Qed.

Lemma load16_store16 x rest : is_u16 x -> load16 (store16 x ++ rest) 0 = x.
Proof.
  unfold is_u16. intros H. unfold load16, store16, byte_at. simpl.
  rewrite !land_0xFF, Z.shiftr_div_pow2 by lia.
  Z.to_euclidean_division_equations. lia.
Qed.

Lemma bswap16_range x : is_u16 (bswap16 x).
Proof.
  unfold is_u16. rewrite bswap16_arith.
  pose proof (Z.mod_pos_bound x (2 ^ 8) ltac:(lia)).
  pose proof (Z.mod_pos_bound (x / 2 ^ 8) (2 ^ 8) ltac:(lia)). lia.
Qed.

(** ** The Delay_Resp handler and the offset/delay calculation *)

Lemma ptp_state_eqb_eq a b : ptp_state_eqb a b = true <-> a = b.
Proof. destruct a, b; simpl; split; congruence. Qed.

Lemma handle_delay_resp_mismatch hz s header timestamp now_tsc :
  rte_be_to_cpu_16 (sequence_id header) <> last_delay_req_seq_id s ->
  ptp_handle_delay_resp hz s header timestamp now_tsc = s.
Proof.
  intros H. unfold ptp_handle_delay_resp.
  destruct (Z.eqb_spec (rte_be_to_cpu_16 (sequence_id header))
              (last_delay_req_seq_id s)); [contradiction | reflexivity].
Qed.

Lemma handle_delay_resp_accept hz s header timestamp now_tsc :
  rte_be_to_cpu_16 (sequence_id header) = last_delay_req_seq_id s ->
  state s = PTP_STATE_DELAY_REQ_SENT ->
  ptp_handle_delay_resp hz s header timestamp now_tsc =
  set_last_state_change now_tsc
    (set_sync_count (wrap32 (sync_count s + 1))
       (set_is_synced true
          (set_state PTP_STATE_SYNCED
             (ptp_calculate_offset_delay hz
                (set_t4_ns (ptp_timestamp_to_ns timestamp) s))))).
Proof.
  intros Hseq Hst. unfold ptp_handle_delay_resp.
  rewrite Hseq, Z.eqb_refl. cbn [negb set_t4_ns state]. rewrite Hst.
  unfold ptp_calculate_offset_delay.
  destruct (t4_ns (set_t4_ns (ptp_timestamp_to_ns timestamp) s) =? 0);
    reflexivity.
Qed.

Lemma handle_delay_resp_other_state hz s header timestamp now_tsc :
  rte_be_to_cpu_16 (sequence_id header) = last_delay_req_seq_id s ->
  state s <> PTP_STATE_DELAY_REQ_SENT ->
  ptp_handle_delay_resp hz s header timestamp now_tsc =
  set_t4_ns (ptp_timestamp_to_ns timestamp) s.
Proof.
  intros Hseq Hst. unfold ptp_handle_delay_resp.
  rewrite Hseq, Z.eqb_refl. cbn [negb set_t4_ns state].
  destruct (state s); try reflexivity. contradiction.
Qed.

(** C1: a completed cycle (a Delay_Resp accepted in DELAY_REQ_SENT) with
    non-zero t1, t2_realtime, t3_realtime and t4 ends in SYNCED with
    offset = ((t2 - t1) - (t4 - t3)) / 2 and delay = ((t2 - t1) + (t4 - t3)) / 2,
    where t4 is the received timestamp, the division is C's (truncating)
    and the values are signed 64-bit: the numerators are read as [int64_t],
    which is the identity whenever they fit into 64 bits. *)
Theorem C1_offset_delay_formula (hz : Z) (s : ptp_session_t)
    (header : ptp_header_t) (timestamp : ptp_timestamp_t) (now_tsc : Z) :
  0 < hz ->
  state s = PTP_STATE_DELAY_REQ_SENT ->
  rte_be_to_cpu_16 (sequence_id header) = last_delay_req_seq_id s ->
  t1_ns s <> 0 -> t2_realtime_ns s <> 0 -> t3_realtime_ns s <> 0 ->
  ptp_timestamp_to_ns timestamp <> 0 ->
  let s' := ptp_handle_delay_resp hz s header timestamp now_tsc in
  let A := t2_realtime_ns s - t1_ns s in
  let B := t4_ns s' - t3_realtime_ns s in
  state s' = PTP_STATE_SYNCED /\
  t4_ns s' = ptp_timestamp_to_ns timestamp /\
  offset_ns s' = c_div (to_int64 (A - B)) 2 /\
  delay_ns s' = c_div (to_int64 (A + B)) 2 /\
  (- 2 ^ 63 <= A - B < 2 ^ 63 -> offset_ns s' = Z.quot (A - B) 2) /\
  (- 2 ^ 63 <= A + B < 2 ^ 63 -> delay_ns s' = Z.quot (A + B) 2) /\
  - 2 ^ 63 <= offset_ns s' < 2 ^ 63 /\ - 2 ^ 63 <= delay_ns s' < 2 ^ 63.
Proof.
  intros _ Hst Hseq _ _ _ Ht4 s' A B. subst s' A B.
  rewrite (handle_delay_resp_accept _ _ _ _ _ Hseq Hst).
  unfold ptp_calculate_offset_delay. cbn [t4_ns set_t4_ns].
  destruct (Z.eqb_spec (ptp_timestamp_to_ns timestamp) 0) as [E | _];
    [contradiction |].
  cbn -[to_int64 c_div Z.pow Z.quot].
  set (t1 := t1_ns s). set (t2 := t2_realtime_ns s).
  set (t3 := t3_realtime_ns s). set (t4 := ptp_timestamp_to_ns timestamp).
  assert (Ho : to_int64 (to_int64 (to_int64 t2 - to_int64 t1)
                         - to_int64 (to_int64 t4 - to_int64 t3))
               = to_int64 (t2 - t1 - (t4 - t3))).
  { rewrite to_int64_sub.
    destruct (to_int64_repr t1) as [k1 ->], (to_int64_repr t2) as [k2 ->].
    destruct (to_int64_repr t3) as [k3 ->], (to_int64_repr t4) as [k4 ->].
    apply (to_int64_eqm _ _ (k2 - k1 - (k4 - k3))). ring. }
  assert (Hd : to_int64 (to_int64 (to_int64 t2 - to_int64 t1)
                         + to_int64 (to_int64 t4 - to_int64 t3))
               = to_int64 (t2 - t1 + (t4 - t3))).
  { rewrite !to_int64_sub.
    destruct (to_int64_repr (t2 - t1)) as [k1 ->].
    destruct (to_int64_repr (t4 - t3)) as [k2 ->].
    apply (to_int64_eqm _ _ (k1 + k2)). ring. }
  rewrite Ho, Hd.
  pose proof (c_div_2_range _ (to_int64_range (t2 - t1 - (t4 - t3)))).
  pose proof (c_div_2_range _ (to_int64_range (t2 - t1 + (t4 - t3)))).
  repeat split; try reflexivity; try lia.
  - intros Hr. now rewrite to_int64_id.
  - intros Hr. now rewrite to_int64_id.
Qed.

(** C2, as the code has it: a sequence-matching Delay_Resp whose receive
    timestamp is zero stores t4 = 0; in DELAY_REQ_SENT the formulas are
    skipped, offset_ns and delay_ns are both set to 0 and the state becomes
    SYNCED; in any other state the state, offset_ns and delay_ns are kept.
    The whole effect is fixed: in DELAY_REQ_SENT the session afterwards is
    the old one with t4, delay, offset, the cached frequency, the state,
    is_synced, sync_count and last_state_change written and nothing else
    (no counter for a missing t4 exists); in any other state it is the old
    one with t4 stored and nothing else. *)
Theorem C2_missing_t4_zeroes_offset_delay (hz : Z) (s : ptp_session_t)
    (header : ptp_header_t) (timestamp : ptp_timestamp_t) (now_tsc : Z) :
  0 < hz ->
  rte_be_to_cpu_16 (sequence_id header) = last_delay_req_seq_id s ->
  ptp_timestamp_to_ns timestamp = 0 ->
  let s' := ptp_handle_delay_resp hz s header timestamp now_tsc in
  t4_ns s' = 0 /\
  (state s = PTP_STATE_DELAY_REQ_SENT ->
   state s' = PTP_STATE_SYNCED /\ offset_ns s' = 0 /\ delay_ns s' = 0) /\
  (state s <> PTP_STATE_DELAY_REQ_SENT ->
   state s' = state s /\ offset_ns s' = offset_ns s
   /\ delay_ns s' = delay_ns s) /\
  (state s = PTP_STATE_DELAY_REQ_SENT ->
   s' = set_last_state_change now_tsc
          (set_sync_count (wrap32 (sync_count s + 1))
             (set_is_synced true
                (set_state PTP_STATE_SYNCED
                   (set_tsc_hz hz
                      (set_offset_ns 0
                         (set_delay_ns 0 (set_t4_ns 0 s)))))))) /\
  (state s <> PTP_STATE_DELAY_REQ_SENT ->
   s' = set_t4_ns 0 s /\
   is_synced s' = is_synced s /\ sync_count s' = sync_count s /\
   last_state_change s' = last_state_change s /\ tsc_hz s' = tsc_hz s).
Proof.
  intros _ Hseq Ht4 s'. subst s'.
  destruct (ptp_state_eqb (state s) PTP_STATE_DELAY_REQ_SENT) eqn:E.
  - apply ptp_state_eqb_eq in E.
    rewrite (handle_delay_resp_accept _ _ _ _ _ Hseq E).
    unfold ptp_calculate_offset_delay. cbn [t4_ns set_t4_ns].
    rewrite Ht4. cbn. repeat split; auto; contradiction.
  - assert (Hne : state s <> PTP_STATE_DELAY_REQ_SENT).
    { intros H. apply ptp_state_eqb_eq in H. congruence. }
    rewrite (handle_delay_resp_other_state _ _ _ _ _ Hseq Hne).
    rewrite Ht4. cbn. repeat split; auto; contradiction.
Qed.

(** ** The Sync handler *)

(** C6: in SYNC_RECEIVED or DELAY_REQ_SENT the Sync handler writes the
    master identity, the master domain, the Sync sequence id and
    last_sync_tsc and nothing else; t1, t2_tsc, t2_realtime and the state
    are as before. *)
Theorem C6_sync_mid_cycle_keeps_t1_t2 (s : ptp_session_t)
    (header : ptp_header_t) (timestamp : ptp_timestamp_t)
    (rx_tsc realtime_ns : Z) :
  state s = PTP_STATE_SYNC_RECEIVED \/ state s = PTP_STATE_DELAY_REQ_SENT ->
  let s' := ptp_handle_sync s header timestamp rx_tsc realtime_ns in
  s' = set_last_sync_tsc rx_tsc
         (set_sync_seq_id (rte_be_to_cpu_16 (sequence_id header))
            (set_master_domain (domain_number header)
               (set_master_port_id (source_port_id header) s))) /\
  last_sync_tsc s' = rx_tsc /\
  t1_ns s' = t1_ns s /\ t2_tsc s' = t2_tsc s /\
  t2_realtime_ns s' = t2_realtime_ns s /\ state s' = state s.
Proof.
  intros Hst s'. subst s'. unfold ptp_handle_sync.
  cbn [state set_master_port_id set_master_domain set_sync_seq_id
       set_last_sync_tsc].
  destruct Hst as [E | E]; rewrite E; cbn; repeat split; congruence.
Qed.

(** ** Dispatch of received packets *)

Lemma handle_sync_keeps_sync_rx_count s header timestamp rx_tsc realtime_ns :
  sync_rx_count (ptp_handle_sync s header timestamp rx_tsc realtime_ns)
  = sync_rx_count s.
Proof.
  unfold ptp_handle_sync.
  cbn [state set_master_port_id set_master_domain set_sync_seq_id
       set_last_sync_tsc].
  destruct (state s); reflexivity.
Qed.

Lemma packet_process_sync hz s m o rx_tsc realtime_ns now_tsc :
  ptp_is_ptp_packet m = true ->
  ptp_get_msg_type m = PTP_MSG_SYNC ->
  ptp_get_vlan_id m = rx_vlan_id s ->
  get_ptp_header m = Some o ->
  ptp_packet_process hz s m rx_tsc realtime_ns now_tsc =
  let s1 := ptp_handle_sync s (ptp_header_at (pkt m) o)
              (ptp_timestamp_at (pkt m) (o + PTP_HEADER_LEN)) rx_tsc
              realtime_ns in
  (0, set_sync_rx_count (wrap64 (sync_rx_count s1 + 1)) s1).
Proof.
  intros Hptp Hty Hvlan Hhdr. unfold ptp_packet_process.
  rewrite Hptp, Hty, Hvlan, Hhdr, Z.eqb_refl. reflexivity.
Qed.

Lemma packet_process_delay_resp hz s m o rx_tsc realtime_ns now_tsc :
  ptp_is_ptp_packet m = true ->
  ptp_get_msg_type m = PTP_MSG_DELAY_RESP ->
  ptp_get_vlan_id m = rx_vlan_id s ->
  get_ptp_header m = Some o ->
  ptp_packet_process hz s m rx_tsc realtime_ns now_tsc =
  let s1 := ptp_handle_delay_resp hz s (ptp_header_at (pkt m) o)
              (ptp_timestamp_at (pkt m) (o + PTP_HEADER_LEN)) now_tsc in
  (0, set_delay_resp_rx_count (wrap64 (delay_resp_rx_count s1 + 1)) s1).
Proof.
  intros Hptp Hty Hvlan Hhdr. unfold ptp_packet_process.
  rewrite Hptp, Hty, Hvlan, Hhdr, Z.eqb_refl. reflexivity.
Qed.

Lemma tick_delay_req_sent hz s env current_tsc :
  state s = PTP_STATE_DELAY_REQ_SENT ->
  ptp_state_machine_tick hz s env current_tsc =
  if delay_resp_timeout_cycles hz <? wrap64 (current_tsc - last_state_change s)
  then (set_last_state_change current_tsc
          (set_state PTP_STATE_LISTENING
             (set_sync_timeout_count (wrap64 (sync_timeout_count s + 1)) s)),
        None)
  else (s, None).
Proof. intros H. unfold ptp_state_machine_tick. rewrite H. reflexivity. Qed.

(** C3, as the code has it: in DELAY_REQ_SENT a Delay_Resp of the
    session's VLAN whose sequence id differs from last_delay_req_seq_id is
    ignored by the handler, so the state stays DELAY_REQ_SENT and only
    delay_resp_rx_count changes: ptp_packet_process counts every Delay_Resp
    it dispatches, matching or not.  The session then leaves
    DELAY_REQ_SENT by the tick only, to LISTENING, once more than
    delay_resp_timeout_cycles have passed since the state was entered. *)
Theorem C3_mismatched_delay_resp_keeps_state (hz : Z) (s : ptp_session_t)
    (m : rte_mbuf) (o rx_tsc realtime_ns now_tsc : Z) :
  state s = PTP_STATE_DELAY_REQ_SENT ->
  ptp_is_ptp_packet m = true ->
  ptp_get_msg_type m = PTP_MSG_DELAY_RESP ->
  ptp_get_vlan_id m = rx_vlan_id s ->
  get_ptp_header m = Some o ->
  rte_be_to_cpu_16 (sequence_id (ptp_header_at (pkt m) o))
    <> last_delay_req_seq_id s ->
  let r := ptp_packet_process hz s m rx_tsc realtime_ns now_tsc in
  ptp_handle_delay_resp hz s (ptp_header_at (pkt m) o)
    (ptp_timestamp_at (pkt m) (o + PTP_HEADER_LEN)) now_tsc = s /\
  r = (0, set_delay_resp_rx_count (wrap64 (delay_resp_rx_count s + 1)) s) /\
  state (snd r) = PTP_STATE_DELAY_REQ_SENT /\
  delay_resp_rx_count (snd r) = wrap64 (delay_resp_rx_count s + 1) /\
  (forall env current_tsc,
     wrap64 (current_tsc - last_state_change s)
       <= delay_resp_timeout_cycles hz ->
     ptp_state_machine_tick hz (snd r) env current_tsc = (snd r, None)) /\
  (forall env current_tsc,
     delay_resp_timeout_cycles hz
       < wrap64 (current_tsc - last_state_change s) ->
     state (fst (ptp_state_machine_tick hz (snd r) env current_tsc))
     = PTP_STATE_LISTENING).
Proof.
  intros Hst Hptp Hty Hvlan Hhdr Hseq r.
  pose proof (handle_delay_resp_mismatch hz s _
                (ptp_timestamp_at (pkt m) (o + PTP_HEADER_LEN)) now_tsc Hseq)
    as Hsame.
  assert (Hr : r = (0, set_delay_resp_rx_count
                         (wrap64 (delay_resp_rx_count s + 1)) s)).
  { subst r. rewrite (packet_process_delay_resp _ _ _ o) by assumption.
    cbv zeta. rewrite Hsame. reflexivity. }
  rewrite Hr. cbn [snd fst].
  set (s1 := set_delay_resp_rx_count (wrap64 (delay_resp_rx_count s + 1)) s).
  assert (Hst1 : state s1 = PTP_STATE_DELAY_REQ_SENT) by exact Hst.
  repeat split; try assumption; try reflexivity.
  - intros env current_tsc Hle. rewrite tick_delay_req_sent by exact Hst1.
    change (last_state_change s1) with (last_state_change s).
    destruct (Z.ltb_spec (delay_resp_timeout_cycles hz)
                (wrap64 (current_tsc - last_state_change s))); [lia | reflexivity].
  - intros env current_tsc Hlt. rewrite tick_delay_req_sent by exact Hst1.
    change (last_state_change s1) with (last_state_change s).
    destruct (Z.ltb_spec (delay_resp_timeout_cycles hz)
                (wrap64 (current_tsc - last_state_change s))); [reflexivity | lia].
Qed.

(** The Sync handler in the states that start a cycle, and in the
    others. *)
Lemma handle_sync_by_state s header timestamp rx_tsc realtime_ns :
  let base :=
    set_last_sync_tsc rx_tsc
      (set_sync_seq_id (rte_be_to_cpu_16 (sequence_id header))
         (set_master_domain (domain_number header)
            (set_master_port_id (source_port_id header) s))) in
  ptp_handle_sync s header timestamp rx_tsc realtime_ns
  = match state s with
    | PTP_STATE_LISTENING | PTP_STATE_SYNCED | PTP_STATE_ERROR =>
        set_last_state_change rx_tsc
          (set_state PTP_STATE_SYNC_RECEIVED
             (set_t2_realtime_ns realtime_ns
                (set_t2_tsc rx_tsc
                   (set_t1_ns (ptp_timestamp_to_ns timestamp) base))))
    | _ => base
    end.
Proof.
  cbn zeta. unfold ptp_handle_sync.
  cbn [state set_master_port_id set_master_domain set_sync_seq_id
       set_last_sync_tsc].
  destruct (state s); reflexivity.
Qed.

(** C7, as the code has it: the Sync handler never touches sync_rx_count;
    ptp_packet_process adds one (modulo 2^64) for every Sync of the
    session's VLAN it dispatches, whatever the state of the session.  What
    does depend on the state is the rest: in LISTENING, SYNCED and ERROR
    the handler also stores t1, t2_tsc and t2_realtime, enters
    SYNC_RECEIVED and stamps last_state_change; in INIT, SYNC_RECEIVED and
    DELAY_REQ_SENT it writes the master identity, the master domain, the
    Sync sequence id and last_sync_tsc only, so t1, t2 and the state are
    kept. *)
Theorem C7_sync_rx_count_every_sync (hz : Z) (s : ptp_session_t)
    (m : rte_mbuf) (o rx_tsc realtime_ns now_tsc : Z) :
  ptp_is_ptp_packet m = true ->
  ptp_get_msg_type m = PTP_MSG_SYNC ->
  ptp_get_vlan_id m = rx_vlan_id s ->
  get_ptp_header m = Some o ->
  let r := ptp_packet_process hz s m rx_tsc realtime_ns now_tsc in
  let h := ptp_header_at (pkt m) o in
  let ts := ptp_timestamp_at (pkt m) (o + PTP_HEADER_LEN) in
  let base :=
    set_last_sync_tsc rx_tsc
      (set_sync_seq_id (rte_be_to_cpu_16 (sequence_id h))
         (set_master_domain (domain_number h)
            (set_master_port_id (source_port_id h) s))) in
  fst r = 0 /\
  sync_rx_count (snd r) = wrap64 (sync_rx_count s + 1) /\
  sync_rx_count
    (ptp_handle_sync s (ptp_header_at (pkt m) o)
       (ptp_timestamp_at (pkt m) (o + PTP_HEADER_LEN)) rx_tsc realtime_ns)
  = sync_rx_count s /\
  (state s = PTP_STATE_LISTENING \/ state s = PTP_STATE_SYNCED
   \/ state s = PTP_STATE_ERROR ->
   snd r = set_sync_rx_count (wrap64 (sync_rx_count s + 1))
             (set_last_state_change rx_tsc
                (set_state PTP_STATE_SYNC_RECEIVED
                   (set_t2_realtime_ns realtime_ns
                      (set_t2_tsc rx_tsc
                         (set_t1_ns (ptp_timestamp_to_ns ts) base))))) /\
   state (snd r) = PTP_STATE_SYNC_RECEIVED /\
   t1_ns (snd r) = ptp_timestamp_to_ns ts /\
   t2_tsc (snd r) = rx_tsc /\ t2_realtime_ns (snd r) = realtime_ns /\
   last_state_change (snd r) = rx_tsc) /\
  (state s = PTP_STATE_INIT \/ state s = PTP_STATE_SYNC_RECEIVED
   \/ state s = PTP_STATE_DELAY_REQ_SENT ->
   snd r = set_sync_rx_count (wrap64 (sync_rx_count s + 1)) base /\
   state (snd r) = state s /\
   t1_ns (snd r) = t1_ns s /\
   t2_tsc (snd r) = t2_tsc s /\ t2_realtime_ns (snd r) = t2_realtime_ns s /\
   last_state_change (snd r) = last_state_change s).
Proof.
  intros Hptp Hty Hvlan Hhdr r h ts base. subst r.
  rewrite (packet_process_sync _ _ _ o) by assumption.
  cbv zeta. cbn [fst snd sync_rx_count set_sync_rx_count].
  rewrite handle_sync_keeps_sync_rx_count.
  split; [reflexivity |]. split; [reflexivity |]. split; [reflexivity |].
  pose proof (handle_sync_by_state s h ts rx_tsc realtime_ns) as Hs.
  cbn zeta in Hs. fold h ts. rewrite Hs. fold base.
  split.
  - intros [E | [E | E]]; rewrite E; repeat split.
  - intros [E | [E | E]]; rewrite E; repeat split; cbn; exact E.
Qed.

(** ** The Delay_Req builder *)

Lemma delay_req_ptp_layout s :
  length (clock_identity (our_port_id s)) = 8%nat ->
  delay_req_ptp s =
  [0x01; 0x02] ++ store16 (rte_cpu_to_be_16 PTP_MSG_LENGTH_PADDED)
  ++ [0x0A; 0x00] ++ store16 (rte_cpu_to_be_16 0x0102)
  ++ repeat 0 8 ++ repeat 0 4
  ++ ptp_port_identity_bytes (our_port_id s)
  ++ store16 (rte_cpu_to_be_16 (delay_req_seq_id s))
  ++ [0x01; 0xFF] ++ repeat 0 10 ++ repeat 0 62.
Proof.
  intros Hlen. unfold delay_req_ptp, ptp_port_identity_bytes.
  destruct (clock_identity (our_port_id s))
    as [|c0 [|c1 [|c2 [|c3 [|c4 [|c5 [|c6 [|c7 [|c8 l]]]]]]]]];
    try discriminate Hlen.
  reflexivity.
Qed.

Lemma frame_sequence_id_delay_req s :
  session_wf s -> frame_sequence_id (delay_req_frame s) = delay_req_seq_id s.
Proof.
  intros [Hseq Hlen]. unfold frame_sequence_id, delay_req_frame.
  rewrite (delay_req_ptp_layout s Hlen). unfold ptp_port_identity_bytes.
  destruct (clock_identity (our_port_id s))
    as [|c0 [|c1 [|c2 [|c3 [|c4 [|c5 [|c6 [|c7 [|c8 l]]]]]]]]];
    try discriminate Hlen.
  unfold rte_be_to_cpu_16, rte_cpu_to_be_16.
  set (y := bswap16 (delay_req_seq_id s)).
  assert (Hy : is_u16 y) by apply bswap16_range.
  change (load16 _ (sizeof_ptp_eth_frame + 30))
    with (load16 (store16 y ++ [0x01; 0xFF] ++ repeat 0 10 ++ repeat 0 62) 0).
  rewrite load16_store16 by exact Hy.
  apply bswap16_involutive, Hseq.
Qed.

(** C5: the Delay_Req built for tx_vlan 97, VL-IDX 4420 and sequence id 5:
    Ethernet and VLAN headers byte for byte, then the 106-byte PTP message
    with the listed header bytes, a zero origin timestamp (bytes 34..43)
    and zero padding (bytes 44..105); a successful send hands exactly this
    frame to the transmit burst. *)
Theorem C5_golden_delay_req (s : ptp_session_t) :
  tx_vlan_id s = 97 -> tx_vl_idx s = 4420 -> delay_req_seq_id s = 5 ->
  length (clock_identity (our_port_id s)) = 8%nat ->
  let f := delay_req_frame s in
  let p := skipn 18 f in
  slice 0 6 f = [0x03; 0x00; 0x00; 0x00; 0x11; 0x44] /\
  slice 6 6 f = [0x02; 0x00; 0x00; 0x00; 0x00; 0x20] /\
  slice 12 2 f = [0x81; 0x00] /\
  slice 14 2 f = [0x00; 0x61] /\
  slice 16 2 f = [0x88; 0xF7] /\
  p = delay_req_ptp s /\
  length p = 106%nat /\
  byte_at p 0 = 0x01 /\
  slice 2 2 p = [0x00; 0x6A] /\
  byte_at p 4 = 0x0A /\
  slice 6 2 p = [0x01; 0x02] /\
  slice 30 2 p = [0x00; 0x05] /\
  byte_at p 32 = 0x01 /\
  byte_at p 33 = 0xFF /\
  slice 34 10 p = repeat 0 10 /\
  skipn 44 p = repeat 0 62 /\
  forall t r, snd (ptp_send_delay_req s (tx_ok t r))
              = Some {| frame := f; l2_len := 18; tx_vlan_offload := true;
                        vlan_tci := 97 |}.
Proof.
  intros Hvlan Hidx Hseq Hlen f p. subst p f.
  assert (Hsend : forall t r,
            snd (ptp_send_delay_req s (tx_ok t r))
            = Some {| frame := delay_req_frame s; l2_len := 18;
                      tx_vlan_offload := true; vlan_tci := 97 |}).
  { intros t r. unfold ptp_send_delay_req, delay_req_mbuf. cbn.
    rewrite Hvlan. reflexivity. }
  remember (delay_req_frame s) as f eqn:Hf in *.
  assert (Hp : skipn 18 f = delay_req_ptp s).
  { rewrite Hf. reflexivity. }
  unfold delay_req_frame in Hf. rewrite (delay_req_ptp_layout s Hlen) in Hf.
  rewrite Hvlan, Hidx, Hseq in Hf. unfold ptp_port_identity_bytes in Hf.
  destruct (clock_identity (our_port_id s))
    as [|c0 [|c1 [|c2 [|c3 [|c4 [|c5 [|c6 [|c7 [|c8 l]]]]]]]]];
    try discriminate Hlen.
  repeat split; try exact Hp; try exact Hsend; rewrite Hf; reflexivity.
Qed.

(** ** The Delay_Req sequence id along a run *)

Lemma handle_sync_keeps_seq s header timestamp rx_tsc realtime_ns :
  let s' := ptp_handle_sync s header timestamp rx_tsc realtime_ns in
  delay_req_seq_id s' = delay_req_seq_id s /\ our_port_id s' = our_port_id s.
Proof.
  unfold ptp_handle_sync.
  cbn [state set_master_port_id set_master_domain set_sync_seq_id
       set_last_sync_tsc].
  destruct (state s); split; reflexivity.
Qed.

Lemma handle_delay_resp_keeps_seq hz s header timestamp now_tsc :
  let s' := ptp_handle_delay_resp hz s header timestamp now_tsc in
  delay_req_seq_id s' = delay_req_seq_id s /\ our_port_id s' = our_port_id s.
Proof.
  unfold ptp_handle_delay_resp, ptp_calculate_offset_delay.
  destruct (negb _); [split; reflexivity |].
  cbn [state set_t4_ns t4_ns].
  destruct (state s); destruct (_ =? 0); split; reflexivity.
Qed.

Lemma packet_process_keeps_seq hz s m rx_tsc realtime_ns now_tsc :
  let s' := snd (ptp_packet_process hz s m rx_tsc realtime_ns now_tsc) in
  delay_req_seq_id s' = delay_req_seq_id s /\ our_port_id s' = our_port_id s.
Proof.
  unfold ptp_packet_process.
  destruct (negb (ptp_is_ptp_packet m)); [split; reflexivity |].
  destruct (_ <? 0); [split; reflexivity |].
  destruct (negb _); [split; reflexivity |].
  destruct (get_ptp_header m) as [o |]; [| split; reflexivity].
  destruct (_ =? PTP_MSG_SYNC).
  { cbn [snd delay_req_seq_id our_port_id set_sync_rx_count].
    apply handle_sync_keeps_seq. }
  destruct (_ =? PTP_MSG_DELAY_RESP).
  { cbn [snd delay_req_seq_id our_port_id set_delay_resp_rx_count].
    apply handle_delay_resp_keeps_seq. }
  destruct (_ =? PTP_MSG_FOLLOW_UP); [split; reflexivity |].
  destruct (_ =? PTP_MSG_ANNOUNCE); split; reflexivity.
Qed.

(** What one tick does to the counter: a buffer is sent exactly when the
    send succeeds, it carries the counter, and the counter moves on. *)
Lemma tick_seq hz s env current_tsc :
  let r := ptp_state_machine_tick hz s env current_tsc in
  our_port_id (fst r) = our_port_id s /\
  match snd r with
  | Some b => b = delay_req_mbuf s
              /\ delay_req_seq_id (fst r) = wrap16 (delay_req_seq_id s + 1)
  | None => delay_req_seq_id (fst r) = delay_req_seq_id s
  end.
Proof.
  unfold ptp_state_machine_tick, ptp_send_delay_req.
  destruct (state s).
  - split; reflexivity.
  - destruct (_ && _); split; reflexivity.
  - destruct (_ <=? _); [| split; reflexivity].
    destruct (tx_mbuf_pool env); [| split; reflexivity].
    destruct (alloc_ok env); [| split; reflexivity].
    destruct (append_ok env); [| split; reflexivity].
    destruct (nb_tx env =? 1); cbn; auto.
  - destruct (_ <? _); split; reflexivity.
  - destruct (_ <? _); split; reflexivity.
  - destruct (_ <? _); split; reflexivity.
Qed.

Lemma wrap16_range x : is_u16 (wrap16 x).
Proof. unfold is_u16, wrap16. apply Z.mod_pos_bound. lia. Qed.

Lemma session_step_seq hz s ev :
  session_wf s ->
  let r := session_step hz s ev in
  session_wf (fst r) /\
  match snd r with
  | Some b => frame_sequence_id (frame b) = delay_req_seq_id s
              /\ delay_req_seq_id (fst r) = wrap16 (delay_req_seq_id s + 1)
  | None => delay_req_seq_id (fst r) = delay_req_seq_id s
  end.
Proof.
  intros Hwf. destruct ev as [m rx_tsc realtime_ns now_tsc | env current_tsc].
  - cbn [session_step fst snd].
    destruct (packet_process_keeps_seq hz s m rx_tsc realtime_ns now_tsc)
      as [Hs Hp].
    unfold session_wf. rewrite Hs, Hp. split; [exact Hwf | reflexivity].
  - cbn [session_step].
    destruct (tick_seq hz s env current_tsc) as [Hp Hs].
    destruct (ptp_state_machine_tick hz s env current_tsc) as [s1 [b |]];
      cbn [fst snd] in *.
    + destruct Hs as [-> Hs]. unfold session_wf. rewrite Hs, Hp.
      split; [split; [apply wrap16_range | apply Hwf] |].
      split; [apply frame_sequence_id_delay_req, Hwf | reflexivity].
    + unfold session_wf. rewrite Hs, Hp. split; [exact Hwf | reflexivity].
Qed.

Lemma run_seq hz evs : forall s,
  session_wf s ->
  let r := session_run hz s evs in
  session_wf (fst r) /\
  consecutive_from (delay_req_seq_id s) (sent_sequence_ids (snd r)) /\
  delay_req_seq_id (fst r)
  = wrap16 (delay_req_seq_id s + Z.of_nat (length (snd r))).
Proof.
  induction evs as [| ev evs IH]; intros s Hwf.
  - cbn. repeat split; try apply Hwf.
    rewrite Z.add_0_r. unfold wrap16. symmetry. apply Z.mod_small, Hwf.
  - cbn [session_run].
    destruct (session_step_seq hz s ev Hwf) as [Hwf1 Hstep].
    destruct (session_step hz s ev) as [s1 sent]. cbn [fst snd] in *.
    specialize (IH s1 Hwf1).
    destruct (session_run hz s1 evs) as [s2 rest]. cbn [fst snd] in *.
    destruct IH as (Hwf2 & Hrest & Hcnt). split; [exact Hwf2 |].
    destruct sent as [b |].
    + destruct Hstep as [Hid Hnext]. split.
      * cbn. rewrite <- Hnext. auto.
      * rewrite Hcnt, Hnext. cbn [length]. unfold wrap16.
        rewrite Zplus_mod_idemp_l. f_equal. lia.
    + rewrite <- Hstep. auto.
Qed.

(** C4, as the code has it: along any run of a session the sequence ids
    of the Delay_Req frames sent are successive values of the 16-bit
    counter: the first is the counter's value at the start, each next one
    is the previous plus one modulo 2^16 (65535 is followed by 0), and the
    counter ends at its start value plus the number of frames sent, modulo
    2^16. *)
Theorem C4_delay_req_seq_successive (hz : Z) (s : ptp_session_t)
    (evs : list ptp_event) :
  0 < hz ->
  session_wf s ->
  let r := session_run hz s evs in
  session_wf (fst r) /\
  consecutive_from (delay_req_seq_id s) (sent_sequence_ids (snd r)) /\
  delay_req_seq_id (fst r)
  = wrap16 (delay_req_seq_id s + Z.of_nat (length (snd r))).
Proof. intros _ Hwf. exact (run_seq hz evs s Hwf). Qed.

(** ** Wire timestamps *)

Lemma bswap32_load32 b0 b1 b2 b3 :
  is_byte b0 -> is_byte b1 -> is_byte b2 -> is_byte b3 ->
  bswap32 (b0 + 2 ^ 8 * b1 + 2 ^ 16 * b2 + 2 ^ 24 * b3)
  = be32_value b0 b1 b2 b3.
Proof.
  unfold is_byte, be32_value. intros H0 H1 H2 H3. rewrite bswap32_arith.
  Z.to_euclidean_division_equations. lia.
Qed.

Lemma timestamp_to_ns_wire m0 m1 s0 s1 s2 s3 n0 n1 n2 n3 :
  Forall is_byte [s0; s1; s2; s3; n0; n1; n2; n3] ->
  ptp_timestamp_to_ns
    (ptp_timestamp_at [m0; m1; s0; s1; s2; s3; n0; n1; n2; n3] 0)
  = be32_value s0 s1 s2 s3 * 1000000000 + be32_value n0 n1 n2 n3.
Proof.
  intros H. repeat (apply Forall_cons_iff in H; destruct H as [? H]).
  unfold ptp_timestamp_to_ns, ptp_timestamp_at, rte_be_to_cpu_32.
  cbn [seconds_lsb nanoseconds].
  change (load32 [m0; m1; s0; s1; s2; s3; n0; n1; n2; n3] (0 + 2))
    with (s0 + 2 ^ 8 * s1 + 2 ^ 16 * s2 + 2 ^ 24 * s3).
  change (load32 [m0; m1; s0; s1; s2; s3; n0; n1; n2; n3] (0 + 6))
    with (n0 + 2 ^ 8 * n1 + 2 ^ 16 * n2 + 2 ^ 24 * n3).
  rewrite !bswap32_load32 by assumption.
  unfold wrap64, be32_value, is_byte in *.
  rewrite (Z.mod_small ((s0 * 2 ^ 24 + s1 * 2 ^ 16 + s2 * 2 ^ 8 + s3)
                        * 1000000000)) by lia.
  rewrite Z.mod_small by lia. reflexivity.
Qed.

(** C9: two 10-byte wire timestamps that agree on bytes 2..9 parse to the
    same nanosecond count, namely seconds_lsb * 10^9 + nanoseconds of the
    network-order fields, whatever bytes 0..1 hold; on transmit, the
    timestamp made from a nanosecond count has bytes 0..1 zero, and so has
    the origin timestamp of every Delay_Req built. *)
Theorem C9_seconds_msb_ignored (w w' : list Z) :
  length w = 10%nat -> length w' = 10%nat ->
  Forall is_byte (skipn 2 w) ->
  skipn 2 w = skipn 2 w' ->
  ptp_timestamp_to_ns (ptp_timestamp_at w 0)
  = be32_value (byte_at w 2) (byte_at w 3) (byte_at w 4) (byte_at w 5)
    * 1000000000
    + be32_value (byte_at w 6) (byte_at w 7) (byte_at w 8) (byte_at w 9) /\
  ptp_timestamp_to_ns (ptp_timestamp_at w' 0)
  = ptp_timestamp_to_ns (ptp_timestamp_at w 0) /\
  (forall ns,
     seconds_msb (ns_to_ptp_timestamp ns) = 0 /\
     slice 0 2 (ptp_timestamp_bytes (ns_to_ptp_timestamp ns)) = [0; 0]) /\
  (forall s,
     length (clock_identity (our_port_id s)) = 8%nat ->
     slice 34 2 (delay_req_ptp s) = [0; 0]).
Proof.
  intros Hl Hl' Hb Heq.
  destruct w as [|m0 [|m1 [|s0 [|s1 [|s2 [|s3 [|n0 [|n1 [|n2 [|n3 [|x l]]]]]]]]]]];
    try discriminate Hl.
  destruct w' as [|m0' [|m1' [|s0' [|s1' [|s2' [|s3' [|n0' [|n1' [|n2' [|n3' [|x' l']]]]]]]]]]];
    try discriminate Hl'.
  cbn [skipn] in Heq, Hb. injection Heq as <- <- <- <- <- <- <- <-.
  rewrite !timestamp_to_ns_wire by exact Hb.
  repeat split; try reflexivity.
  intros s Hs. rewrite (delay_req_ptp_layout s Hs).
  unfold ptp_port_identity_bytes.
  destruct (clock_identity (our_port_id s))
    as [|c0 [|c1 [|c2 [|c3 [|c4 [|c5 [|c6 [|c7 [|c8 l]]]]]]]]];
    try discriminate Hs.
  reflexivity.
Qed.

(** ** The health response classifier *)

Lemma parse_fpga_packet_marker packet h n off t c :
  last_fpga_type (parse_fpga_packet packet h n off t c) = last_fpga_type c.
Proof. unfold parse_fpga_packet. destruct t; reflexivity. Qed.

(** A mini-header frame is dropped unless the marker names an FPGA. *)
Lemma continuation_dropped packet len c :
  len = HEALTH_PKT_SIZE_8_PORTS \/ len = HEALTH_PKT_SIZE_3_PORTS ->
  last_fpga_type c <> STATUS_ENABLE_ASSISTANT ->
  last_fpga_type c <> STATUS_ENABLE_MANAGER ->
  health_parse_response packet len c = c.
Proof.
  intros Hlen Ha Hm. unfold health_parse_response.
  destruct (Z.eqb_spec (last_fpga_type c) STATUS_ENABLE_ASSISTANT);
    [contradiction |].
  destruct (Z.eqb_spec (last_fpga_type c) STATUS_ENABLE_MANAGER);
    [contradiction |].
  destruct Hlen as [-> | ->]; reflexivity.
Qed.

(** Only a 1187-byte frame with a known status_enable moves the marker. *)
Lemma parse_response_marker packet len c :
  let c' := health_parse_response packet len c in
  last_fpga_type c' = last_fpga_type c \/
  (len = HEALTH_PKT_SIZE_WITH_HEADER /\
   byte_at packet (HEALTH_UDP_PAYLOAD_OFFSET + DEV_OFF_STATUS_ENABLE)
   = last_fpga_type c' /\
   (last_fpga_type c' = STATUS_ENABLE_ASSISTANT
    \/ last_fpga_type c' = STATUS_ENABLE_MANAGER)).
Proof.
  unfold health_parse_response.
  destruct (Z.eqb_spec len HEALTH_PKT_SIZE_WITH_HEADER) as [-> | _].
  { destruct (Z.eqb_spec (byte_at packet
                (HEALTH_UDP_PAYLOAD_OFFSET + DEV_OFF_STATUS_ENABLE))
              STATUS_ENABLE_ASSISTANT) as [E | _].
    - right. rewrite parse_fpga_packet_marker. cbn [last_fpga_type set_last_fpga_type].
      auto.
    - destruct (Z.eqb_spec (byte_at packet
                  (HEALTH_UDP_PAYLOAD_OFFSET + DEV_OFF_STATUS_ENABLE))
                STATUS_ENABLE_MANAGER) as [E | _].
      + right. rewrite parse_fpga_packet_marker.
        cbn [last_fpga_type set_last_fpga_type]. auto.
      + left. reflexivity. }
  left.
  destruct (len =? HEALTH_PKT_SIZE_8_PORTS);
    [| destruct (len =? HEALTH_PKT_SIZE_3_PORTS)].
  - destruct (_ =? STATUS_ENABLE_ASSISTANT);
      [apply parse_fpga_packet_marker |].
    destruct (_ =? STATUS_ENABLE_MANAGER);
      [apply parse_fpga_packet_marker | reflexivity].
  - destruct (_ =? STATUS_ENABLE_ASSISTANT);
      [apply parse_fpga_packet_marker |].
    destruct (_ =? STATUS_ENABLE_MANAGER);
      [apply parse_fpga_packet_marker | reflexivity].
  - destruct (_ <=? len); reflexivity.
Qed.

(** The marker after a receive loop is the one before it or comes from
    an accepted 1187-byte frame of that loop. *)
Lemma receive_marker rx : forall c,
  let c' := receive_health_responses rx c in
  last_fpga_type c' = last_fpga_type c \/
  exists p,
    In (p, HEALTH_PKT_SIZE_WITH_HEADER) rx /\
    is_health_response p HEALTH_PKT_SIZE_WITH_HEADER = true /\
    byte_at p (HEALTH_UDP_PAYLOAD_OFFSET + DEV_OFF_STATUS_ENABLE)
    = last_fpga_type c' /\
    (last_fpga_type c' = STATUS_ENABLE_ASSISTANT
     \/ last_fpga_type c' = STATUS_ENABLE_MANAGER).
Proof.
  induction rx as [| [buffer len] rest IH]; intros c; cbn zeta.
  - left. reflexivity.
  - cbn [receive_health_responses].
    destruct (_ <? HEALTH_MONITOR_EXPECTED_RESPONSES); [| left; reflexivity].
    destruct (is_health_response buffer len) eqn:Hacc.
    + destruct (IH (health_parse_response buffer len c)) as [E | (p & Hin & H)].
      * destruct (parse_response_marker buffer len c) as [E' | (-> & Hb & Hk)].
        -- left. congruence.
        -- right. exists buffer. rewrite E.
           split; [left; reflexivity | auto].
      * right. exists p. split; [right; exact Hin | exact H].
    + destruct (IH c) as [E | (p & Hin & H)]; [left; exact E |].
      right. exists p. split; [right; exact Hin | exact H].
Qed.

(** C8: in a cycle that started from the zeroed cycle data, a 1083- or
    438-byte frame changes the cycle data only if an accepted 1187-byte
    frame with status_enable 0x03 or 0x01 was classified before it in that
    cycle and set the marker; when no 1187-byte frame came before, the
    frame leaves the whole cycle data (both accumulators, the MCU record,
    the response count and the marker) as it was. *)
Theorem C8_continuation_needs_full_frame (rx : list (list Z * Z))
    (packet : list Z) (len : Z) :
  len = HEALTH_PKT_SIZE_8_PORTS \/ len = HEALTH_PKT_SIZE_3_PORTS ->
  let cycle := receive_health_responses rx cycle_zero in
  let cycle' := health_parse_response packet len cycle in
  (cycle' <> cycle ->
   exists p,
     In (p, HEALTH_PKT_SIZE_WITH_HEADER) rx /\
     is_health_response p HEALTH_PKT_SIZE_WITH_HEADER = true /\
     byte_at p (HEALTH_UDP_PAYLOAD_OFFSET + DEV_OFF_STATUS_ENABLE)
     = last_fpga_type cycle /\
     (last_fpga_type cycle = STATUS_ENABLE_ASSISTANT
      \/ last_fpga_type cycle = STATUS_ENABLE_MANAGER)) /\
  ((forall p l, In (p, l) rx -> l <> HEALTH_PKT_SIZE_WITH_HEADER) ->
   cycle' = cycle
   /\ assistant cycle' = assistant cycle /\ manager cycle' = manager cycle
   /\ total_responses_received cycle' = total_responses_received cycle).
Proof.
  intros Hlen cycle cycle'. subst cycle'.
  destruct (receive_marker rx cycle_zero) as [E | Hex]; fold cycle in E || fold cycle in Hex.
  - assert (Hdrop : health_parse_response packet len cycle = cycle).
    { apply continuation_dropped; [exact Hlen | |]; rewrite E; discriminate. }
    split; [intros Hne; contradiction |].
    intros _. rewrite Hdrop. auto.
  - split; [intros _; exact Hex |].
    intros Hnone. destruct Hex as (p & Hin & _).
    exfalso. exact (Hnone p _ Hin eq_refl).
Qed.

Lemma byte_at_is_byte buf i : Forall is_byte buf -> is_byte (byte_at buf i).
Proof.
  intros H. unfold byte_at.
  destruct (nth_lookup_or_length buf (Z.to_nat i) 0) as [E | E].
  - eapply Forall_lookup_1; [exact H | exact E].
  - rewrite nth_overflow by lia. unfold is_byte. lia.
Qed.

(** On a buffer of bytes the 2-byte reader returns the big-endian value
    of the two bytes. *)
Lemma parse_2byte_be_value buf o :
  Forall is_byte buf ->
  parse_2byte_be buf o = byte_at buf o * 2 ^ 8 + byte_at buf (o + 1).
Proof.
  intros Hb.
  pose proof (byte_at_is_byte buf o Hb) as H0.
  pose proof (byte_at_is_byte buf (o + 1) Hb) as H1.
  unfold is_byte in *. unfold parse_2byte_be.
  rewrite lor_shiftl_add by lia. unfold wrap16. apply Z.mod_small. lia.
Qed.

(** C10: a frame whose length is none of 1187, 1083, 438 is parsed as the
    MCU record exactly when its length is at least 42 + 48 + 2 = 92: then
    the MCU fields are decoded, mcu.valid is set and the response count
    goes up by one, and nothing else changes; a shorter frame, 91 bytes
    included, leaves the cycle data untouched.  Decoded means: each of the
    28 fields of the record is the byte, or the big-endian pair of bytes,
    of the frame at 42 plus the field's offset, the last one,
    fo_trans_temp, being bytes 90 and 91, the last two of a frame of the
    minimum length. *)
Theorem C10_mcu_minimum_length (packet : list Z) (len : Z)
    (cycle : health_cycle_data) :
  len <> HEALTH_PKT_SIZE_WITH_HEADER ->
  len <> HEALTH_PKT_SIZE_8_PORTS ->
  len <> HEALTH_PKT_SIZE_3_PORTS ->
  let cycle' := health_parse_response packet len cycle in
  HEALTH_UDP_PAYLOAD_OFFSET + MCU_OFF_FO_TRANS_TEMP + 2 = 92 /\
  (92 <= len ->
   cycle' = set_total_responses_received
              (wrap8 (total_responses_received cycle + 1))
              (set_mcu
                 (Mcu.set_valid true
                    (Mcu.parse_mcu_data packet HEALTH_UDP_PAYLOAD_OFFSET
                       (Mcu.valid (mcu cycle)))) cycle)
   /\ Mcu.valid (mcu cycle') = true
   /\ total_responses_received cycle'
      = wrap8 (total_responses_received cycle + 1)
   /\ (0 <= total_responses_received cycle < 255 ->
       total_responses_received cycle' = total_responses_received cycle + 1)
   /\ assistant cycle' = assistant cycle /\ manager cycle' = manager cycle
   /\ last_fpga_type cycle' = last_fpga_type cycle) /\
  (len < 92 -> cycle' = cycle) /\
  (len = 91 -> cycle' = cycle) /\
  (92 <= len -> Forall is_byte packet ->
   let b o := byte_at packet o in
   let be16 o := byte_at packet o * 2 ^ 8 + byte_at packet (o + 1) in
   let r := mcu cycle' in
   Mcu.device_id r = be16 42 /\
   Mcu.operation_type r = b 44 /\
   Mcu.config_type r = b 45 /\
   Mcu.frame_length r = be16 46 /\
   Mcu.status_enable r = b 48 /\
   Mcu.fw_major r = b 49 /\
   Mcu.fw_minor r = b 50 /\
   Mcu.comp_stat r = b 51 /\
   Mcu.comp_status r = be16 52 /\
   Mcu.volt_12v r = be16 54 /\
   Mcu.curr_12v r = be16 56 /\
   Mcu.volt_3v3 r = be16 58 /\
   Mcu.curr_3v3 r = be16 60 /\
   Mcu.volt_1v8 r = be16 62 /\
   Mcu.curr_1v8 r = be16 64 /\
   Mcu.volt_3v3_fo r = be16 66 /\
   Mcu.curr_3v3_fo r = be16 68 /\
   Mcu.curr_1v3 r = be16 70 /\
   Mcu.volt_1v3 r = be16 72 /\
   Mcu.curr_1v0_mgr r = be16 74 /\
   Mcu.volt_1v0_mgr r = be16 76 /\
   Mcu.volt_1v0_ast r = be16 78 /\
   Mcu.curr_1v0_ast r = be16 80 /\
   Mcu.vdiv_3v3 r = be16 82 /\
   Mcu.vdiv_3v3_fo r = be16 84 /\
   Mcu.vdiv_12v r = be16 86 /\
   Mcu.board_temp r = be16 88 /\
   Mcu.fo_trans_temp r = be16 90).
Proof.
  intros H1 H2 H3 cycle'. subst cycle'. unfold health_parse_response.
  destruct (Z.eqb_spec len HEALTH_PKT_SIZE_WITH_HEADER); [contradiction |].
  destruct (Z.eqb_spec len HEALTH_PKT_SIZE_8_PORTS); [contradiction |].
  destruct (Z.eqb_spec len HEALTH_PKT_SIZE_3_PORTS); [contradiction |].
  change (HEALTH_UDP_PAYLOAD_OFFSET + MCU_OFF_FO_TRANS_TEMP + 2) with 92.
  destruct (Z.leb_spec 92 len) as [Hge | Hlt].
  - split; [reflexivity |].
    split; [| split; [intros; lia | split; [intros; lia |]]].
    + intros _. cbn [mcu set_mcu set_total_responses_received
                      total_responses_received Mcu.valid Mcu.set_valid
                      assistant manager last_fpga_type].
      repeat split; try reflexivity.
      intros Hr. unfold wrap8. apply Z.mod_small. lia.
    + intros _ Hb. cbn zeta.
      cbn [mcu set_mcu set_total_responses_received].
      unfold Mcu.set_valid, Mcu.parse_mcu_data.
      cbn [Mcu.device_id Mcu.operation_type Mcu.config_type Mcu.frame_length
           Mcu.status_enable Mcu.fw_major Mcu.fw_minor Mcu.comp_stat
           Mcu.comp_status Mcu.volt_12v Mcu.curr_12v Mcu.volt_3v3
           Mcu.curr_3v3 Mcu.volt_1v8 Mcu.curr_1v8 Mcu.volt_3v3_fo
           Mcu.curr_3v3_fo Mcu.curr_1v3 Mcu.volt_1v3 Mcu.curr_1v0_mgr
           Mcu.volt_1v0_mgr Mcu.volt_1v0_ast Mcu.curr_1v0_ast Mcu.vdiv_3v3
           Mcu.vdiv_3v3_fo Mcu.vdiv_12v Mcu.board_temp Mcu.fo_trans_temp].
      rewrite !parse_2byte_be_value by exact Hb.
      repeat split; reflexivity.
  - split; [reflexivity |]. split; [intros; lia |].
    split; [reflexivity |]. split; [reflexivity | intros; lia].
Qed.

(** ** The claims at concrete inputs *)

Lemma session_fresh_wf : session_wf session_fresh.
Proof. split; [unfold is_u16; cbn; lia | reflexivity]. Qed.

(** Scenario 6 of the specification: the six frames of a cycle. *)
Example health_cycle_classification :
  let c := receive_health_responses health_cycle_frames cycle_zero in
  port_count_received (assistant c) = 16 /\
  port_count_received (manager c) = 19 /\
  Mcu.valid (mcu c) = true /\ total_responses_received c = 6.
Proof. vm_compute. repeat split. Qed.

Lemma C1_offset_delay_formula_witness :
  let m := ptp_rx_frame 225 PTP_MSG_DELAY_RESP 1 1001 200000 in
  let s' := ptp_handle_delay_resp hz_1GHz session_in_second_cycle
              (ptp_header_at (pkt m) 18) (ptp_timestamp_at (pkt m) 52)
              1100002000 in
  state s' = PTP_STATE_SYNCED /\
  offset_ns s' = Z.quot (80000 - 50000) 2 /\
  delay_ns s' = Z.quot (80000 + 50000) 2.
Proof.
  intros m s'.
  destruct (C1_offset_delay_formula hz_1GHz session_in_second_cycle
              (ptp_header_at (pkt m) 18) (ptp_timestamp_at (pkt m) 52)
              1100002000)
    as (Hst & _ & _ & _ & Ho & Hd & _).
  - reflexivity.
  - vm_compute; reflexivity.
  - vm_compute; reflexivity.
  - vm_compute; discriminate.
  - vm_compute; discriminate.
  - vm_compute; discriminate.
  - vm_compute; discriminate.
  - split; [exact Hst |]. split.
    + unfold s'. rewrite Ho; [vm_compute; reflexivity | vm_compute].
      split; [discriminate | reflexivity].
    + unfold s'. rewrite Hd; [vm_compute; reflexivity | vm_compute].
      split; [discriminate | reflexivity].
Defined.

Lemma C2_missing_t4_zeroes_offset_delay_witness :
  let m := ptp_rx_frame 225 PTP_MSG_DELAY_RESP 1 0 0 in
  let s' := ptp_handle_delay_resp hz_1GHz session_in_second_cycle
              (ptp_header_at (pkt m) 18) (ptp_timestamp_at (pkt m) 52)
              1100002000 in
  state s' = PTP_STATE_SYNCED /\ offset_ns s' = 0 /\ delay_ns s' = 0.
Proof.
  intros m s'.
  destruct (C2_missing_t4_zeroes_offset_delay hz_1GHz session_in_second_cycle
              (ptp_header_at (pkt m) 18) (ptp_timestamp_at (pkt m) 52)
              1100002000)
    as (_ & H & _).
  - reflexivity.
  - vm_compute; reflexivity.
  - vm_compute; reflexivity.
  - apply H. vm_compute; reflexivity.
Defined.

(** C2 fails as stated: the session holds offset 15000 ns and delay
    65000 ns from its first cycle; the matching Delay_Resp of the second
    cycle has a zero timestamp, and both values are 0 afterwards. *)
Lemma C2_offset_delay_not_kept :
  let s := session_in_second_cycle in
  let m := ptp_rx_frame 225 PTP_MSG_DELAY_RESP 1 0 0 in
  let s' := snd (ptp_packet_process hz_1GHz s m 1100002000 1001000200000
                   1100002000) in
  rte_be_to_cpu_16 (sequence_id (ptp_header_at (pkt m) 18))
  = last_delay_req_seq_id s /\
  ptp_timestamp_to_ns (ptp_timestamp_at (pkt m) 52) = 0 /\
  state s' = PTP_STATE_SYNCED /\
  offset_ns s = 15000 /\ delay_ns s = 65000 /\
  offset_ns s' = 0 /\ delay_ns s' = 0 /\
  ~ (offset_ns s' = offset_ns s /\ delay_ns s' = delay_ns s).
Proof.
  vm_compute. repeat split; try reflexivity. intros [H _]. discriminate H.
Qed.

Lemma C3_mismatched_delay_resp_keeps_state_witness :
  let s := session_in_second_cycle in
  let m := ptp_rx_frame 225 PTP_MSG_DELAY_RESP 99 1001 200000 in
  let r := ptp_packet_process hz_1GHz s m 1100002000 1001000200000
             1100002000 in
  state (snd r) = PTP_STATE_DELAY_REQ_SENT /\
  delay_resp_rx_count (snd r) = wrap64 (delay_resp_rx_count s + 1).
Proof.
  intros s m r.
  destruct (C3_mismatched_delay_resp_keeps_state hz_1GHz s m 18 1100002000
              1001000200000 1100002000)
    as (_ & _ & Hst & Hcnt & _).
  - vm_compute; reflexivity.
  - vm_compute; reflexivity.
  - vm_compute; reflexivity.
  - vm_compute; reflexivity.
  - vm_compute; reflexivity.
  - vm_compute; discriminate.
  - split; [exact Hst | exact Hcnt].
Defined.

(** C3 fails as stated: in DELAY_REQ_SENT with sequence id 1 in flight, a
    Delay_Resp carrying sequence id 99 leaves the state alone but
    delay_resp_rx_count goes from 1 to 2. *)
Lemma C3_mismatch_is_counted :
  let s := session_in_second_cycle in
  let m := ptp_rx_frame 225 PTP_MSG_DELAY_RESP 99 1001 200000 in
  let s' := snd (ptp_packet_process hz_1GHz s m 1100002000 1001000200000
                   1100002000) in
  state s = PTP_STATE_DELAY_REQ_SENT /\
  last_delay_req_seq_id s = 1 /\
  rte_be_to_cpu_16 (sequence_id (ptp_header_at (pkt m) 18)) = 99 /\
  state s' = PTP_STATE_DELAY_REQ_SENT /\
  delay_resp_rx_count s = 1 /\ delay_resp_rx_count s' = 2 /\
  delay_resp_rx_count s' <> delay_resp_rx_count s.
Proof. vm_compute. repeat split; try reflexivity. discriminate. Qed.

Lemma C4_delay_req_seq_successive_witness :
  consecutive_from 0
    (sent_sequence_ids
       (snd (session_run hz_1GHz session_fresh (two_cycle_events 0)))).
Proof.
  exact (proj1 (proj2 (C4_delay_req_seq_successive hz_1GHz session_fresh
                         (two_cycle_events 0) eq_refl session_fresh_wf))).
Defined.

(** C4 fails as stated: with the counter at 65535 the next two Delay_Req
    frames carry 65535 and then 0; and the first Delay_Req of a fresh
    session carries 0 as well. *)
Lemma C4_wrap_lands_on_zero :
  sent_sequence_ids
    (snd (session_run hz_1GHz session_before_wrap (two_cycle_events 65535)))
  = [65535; 0] /\
  delay_req_seq_id session_before_wrap = 65535 /\
  sent_sequence_ids
    (snd (session_run hz_1GHz session_fresh (two_cycle_events 0)))
  = [0; 1].
Proof. vm_compute. repeat split. Qed.

Lemma C5_golden_delay_req_witness :
  delay_req_frame session_golden =
  [0x03; 0x00; 0x00; 0x00; 0x11; 0x44; 0x02; 0x00; 0x00; 0x00; 0x00; 0x20;
   0x81; 0x00; 0x00; 0x61; 0x88; 0xF7]
  ++ delay_req_ptp session_golden /\
  slice 30 2 (delay_req_ptp session_golden) = [0x00; 0x05] /\
  skipn 44 (delay_req_ptp session_golden) = repeat 0 62.
Proof.
  destruct (C5_golden_delay_req session_golden eq_refl eq_refl eq_refl eq_refl)
    as (_ & _ & _ & _ & _ & Hp & _ & _ & _ & _ & _ & Hseq & _ & _ & _ & Hpad & _).
  rewrite <- Hp. split; [reflexivity |]. split; [exact Hseq | exact Hpad].
Defined.

Lemma C6_sync_mid_cycle_keeps_t1_t2_witness :
  let m := ptp_rx_frame 225 PTP_MSG_SYNC 9 1002 0 in
  let s' := ptp_handle_sync session_in_second_cycle
              (ptp_header_at (pkt m) 18) (ptp_timestamp_at (pkt m) 52)
              2000001000 1002000080000 in
  last_sync_tsc s' = 2000001000 /\
  t1_ns s' = t1_ns session_in_second_cycle /\
  t2_tsc s' = t2_tsc session_in_second_cycle /\
  t2_realtime_ns s' = t2_realtime_ns session_in_second_cycle /\
  state s' = state session_in_second_cycle.
Proof.
  intros m s'.
  exact (proj2 (C6_sync_mid_cycle_keeps_t1_t2 session_in_second_cycle
                  (ptp_header_at (pkt m) 18) (ptp_timestamp_at (pkt m) 52)
                  2000001000 1002000080000 (or_intror eq_refl))).
Defined.

Lemma C7_sync_rx_count_every_sync_witness :
  let s := session_in_second_cycle in
  let m := ptp_rx_frame 225 PTP_MSG_SYNC 9 1002 0 in
  let r := ptp_packet_process hz_1GHz s m 2000001000 1002000080000
             2000001000 in
  fst r = 0 /\ sync_rx_count (snd r) = wrap64 (sync_rx_count s + 1).
Proof.
  intros s m r.
  destruct (C7_sync_rx_count_every_sync hz_1GHz s m 18 2000001000
              1002000080000 2000001000)
    as (Hret & Hcnt & _).
  - vm_compute; reflexivity.
  - vm_compute; reflexivity.
  - vm_compute; reflexivity.
  - vm_compute; reflexivity.
  - split; [exact Hret | exact Hcnt].
Defined.

(** C7 fails as stated: the session is in DELAY_REQ_SENT, which is none
    of LISTENING, SYNCED, ERROR, and a Sync still takes sync_rx_count
    from 2 to 3. *)
Lemma C7_sync_counted_mid_cycle :
  let s := session_in_second_cycle in
  let m := ptp_rx_frame 225 PTP_MSG_SYNC 9 1002 0 in
  let s' := snd (ptp_packet_process hz_1GHz s m 2000001000 1002000080000
                   2000001000) in
  state s = PTP_STATE_DELAY_REQ_SENT /\
  ptp_get_msg_type m = PTP_MSG_SYNC /\
  state s' = PTP_STATE_DELAY_REQ_SENT /\
  sync_rx_count s = 2 /\ sync_rx_count s' = 3 /\
  sync_rx_count s' = sync_rx_count s + 1.
Proof. vm_compute. repeat split. Qed.

Lemma C8_continuation_needs_full_frame_witness :
  let cycle := receive_health_responses [health_frame 94 0x05 0 0 0]
                 cycle_zero in
  let p := fst (health_frame 1083 0 7 8 8) in
  health_parse_response p 1083 cycle = cycle /\
  total_responses_received (health_parse_response p 1083 cycle) = 1.
Proof.
  intros cycle p.
  destruct (C8_continuation_needs_full_frame [health_frame 94 0x05 0 0 0]
              p 1083 (or_introl eq_refl)) as [_ H].
  destruct H as (Heq & _ & _ & Htot).
  - intros q l [Hin | []]. injection Hin as _ <-. discriminate.
  - split; [exact Heq |]. fold cycle in Htot. rewrite Htot.
    vm_compute; reflexivity.
Defined.

Lemma C9_seconds_msb_ignored_witness :
  let w := [0xAB; 0xCD; 0x00; 0x00; 0x03; 0xE8; 0x00; 0x03; 0x0D; 0x40] in
  let w' := [0x00; 0x00; 0x00; 0x00; 0x03; 0xE8; 0x00; 0x03; 0x0D; 0x40] in
  ptp_timestamp_to_ns (ptp_timestamp_at w 0) = 1000 * 1000000000 + 200000 /\
  ptp_timestamp_to_ns (ptp_timestamp_at w' 0)
  = ptp_timestamp_to_ns (ptp_timestamp_at w 0).
Proof.
  intros w w'.
  destruct (C9_seconds_msb_ignored w w') as (Hv & Hsame & _).
  - reflexivity.
  - reflexivity.
  - unfold w. cbn [skipn]. repeat constructor; discriminate.
  - reflexivity.
  - split; [rewrite Hv; vm_compute; reflexivity | exact Hsame].
Defined.

Lemma C10_mcu_minimum_length_witness :
  let p92 := fst (health_frame 92 0x05 0 0 0) in
  let p91 := fst (health_frame 91 0x05 0 0 0) in
  let r := mcu (health_parse_response mcu_frame 92 cycle_zero) in
  Mcu.valid (mcu (health_parse_response p92 92 cycle_zero)) = true /\
  total_responses_received (health_parse_response p92 92 cycle_zero) = 1 /\
  health_parse_response p91 91 cycle_zero = cycle_zero /\
  is_health_response mcu_frame 92 = true /\
  Mcu.device_id r = 258 /\ Mcu.fw_major r = 8 /\ Mcu.fw_minor r = 9 /\
  Mcu.board_temp r = 12080 /\ Mcu.fo_trans_temp r = 12594.
Proof.
  intros p92 p91 r.
  destruct (C10_mcu_minimum_length p92 92 cycle_zero)
    as (_ & H92 & _); [discriminate | discriminate | discriminate |].
  destruct (C10_mcu_minimum_length p91 91 cycle_zero)
    as (_ & _ & _ & H91 & _); [discriminate | discriminate | discriminate |].
  destruct (C10_mcu_minimum_length mcu_frame 92 cycle_zero)
    as (_ & _ & _ & _ & Hf); [discriminate | discriminate | discriminate |].
  destruct H92 as (_ & Hv & _ & Ht & _); [discriminate |].
  split; [exact Hv |]. split; [| split; [exact (H91 eq_refl) |]].
  { apply Ht. vm_compute. split; [discriminate | reflexivity]. }
  split; [vm_compute; reflexivity |].
  destruct Hf as (Hd & _ & _ & _ & _ & Hma & Hmi & Hrest).
  { discriminate. }
  { let l := eval vm_compute in mcu_frame in change mcu_frame with l.
    repeat (constructor; [unfold is_byte; lia |]). constructor. }
  fold r in Hd, Hma, Hmi, Hrest.
  do 19 destruct Hrest as (_ & Hrest). destruct Hrest as (Hbt & Hfo).
  rewrite Hd, Hma, Hmi, Hbt, Hfo. repeat split.
Defined.

(** * Further properties of the code *)

(** ** Timestamps ([ptp_types.h]) *)

Lemma bswap32_range x : 0 <= bswap32 x < 2 ^ 32.
Proof.
  rewrite bswap32_arith.
  pose proof (Z.mod_pos_bound x (2 ^ 8) ltac:(lia)).
  pose proof (Z.mod_pos_bound (x / 2 ^ 8) (2 ^ 8) ltac:(lia)).
  pose proof (Z.mod_pos_bound (x / 2 ^ 16) (2 ^ 8) ltac:(lia)).
  pose proof (Z.mod_pos_bound (x / 2 ^ 24) (2 ^ 8) ltac:(lia)). lia.
Qed.

Lemma u32_bytes x :
  0 <= x < 2 ^ 32 ->
  exists b0 b1 b2 b3,
    is_byte b0 /\ is_byte b1 /\ is_byte b2 /\ is_byte b3 /\
    x = b0 + 2 ^ 8 * b1 + 2 ^ 16 * b2 + 2 ^ 24 * b3.
Proof.
  intros H.
  exists (x mod 2 ^ 8), ((x / 2 ^ 8) mod 2 ^ 8), ((x / 2 ^ 16) mod 2 ^ 8),
    (x / 2 ^ 24).
  unfold is_byte. Z.to_euclidean_division_equations. lia.
Qed.

Lemma bswap32_involutive x : 0 <= x < 2 ^ 32 -> bswap32 (bswap32 x) = x.
Proof.
  intros H. destruct (u32_bytes x H) as (b0 & b1 & b2 & b3 & H0 & H1 & H2 & H3 & ->).
  rewrite bswap32_load32 by assumption. unfold be32_value.
  replace (b0 * 2 ^ 24 + b1 * 2 ^ 16 + b2 * 2 ^ 8 + b3)
    with (b3 + 2 ^ 8 * b2 + 2 ^ 16 * b1 + 2 ^ 24 * b0) by ring.
  rewrite bswap32_load32 by assumption. unfold be32_value. ring.
Qed.

Lemma shiftr_land_0xFF x k :
  0 <= k -> Z.land (Z.shiftr x k) 0xFF = (x / 2 ^ k) mod 2 ^ 8.
Proof. intros Hk. now rewrite land_0xFF, Z.shiftr_div_pow2. Qed.

Lemma load32_store32 x rest :
  0 <= x < 2 ^ 32 -> load32 (store32 x ++ rest) 0 = x.
Proof.
  intros H. unfold load32, store32, byte_at. simpl.
  rewrite !land_0xFF, !Z.shiftr_div_pow2 by lia.
  Z.to_euclidean_division_equations. lia.
Qed.

Lemma timestamp_to_ns_value (ts : ptp_timestamp_t) :
  ptp_timestamp_to_ns ts
  = rte_be_to_cpu_32 (seconds_lsb ts) * 1000000000
    + rte_be_to_cpu_32 (nanoseconds ts) /\
  0 <= ptp_timestamp_to_ns ts < 2 ^ 62 /\
  to_int64 (ptp_timestamp_to_ns ts) = ptp_timestamp_to_ns ts.
Proof.
  unfold ptp_timestamp_to_ns, rte_be_to_cpu_32, wrap64.
  pose proof (bswap32_range (seconds_lsb ts)).
  pose proof (bswap32_range (nanoseconds ts)).
  rewrite (Z.mod_small (bswap32 (seconds_lsb ts) * 1000000000)) by lia.
  rewrite Z.mod_small by lia.
  split; [reflexivity |]. split; [lia |]. apply to_int64_id. lia.
Qed.

(** X1: The nanosecond count of a timestamp never wraps and fits 62 bits, so
    the [int64_t] casts of t1 and t4 in the offset calculation are exact. *)
Theorem timestamp_to_ns_bounded (ts : ptp_timestamp_t) :
  ptp_timestamp_to_ns ts
  = rte_be_to_cpu_32 (seconds_lsb ts) * 1000000000
    + rte_be_to_cpu_32 (nanoseconds ts) /\
  0 <= ptp_timestamp_to_ns ts < 2 ^ 62 /\
  to_int64 (ptp_timestamp_to_ns ts) = ptp_timestamp_to_ns ts.
Proof. exact (timestamp_to_ns_value ts). Qed.

(** X2: Nanoseconds to timestamp and back: the seconds are cut to 32 bits, so
    the round trip is the identity below 2^32 seconds and reduces modulo
    2^32 * 10^9 in general; the ten bytes of the timestamp in memory parse
    back to the same timestamp. *)
Theorem ns_timestamp_round_trip (ns : Z) :
  is_u64 ns ->
  ptp_timestamp_to_ns (ns_to_ptp_timestamp ns) = ns mod (2 ^ 32 * 1000000000)
  /\ (ns < 2 ^ 32 * 1000000000 ->
      ptp_timestamp_to_ns (ns_to_ptp_timestamp ns) = ns)
  /\ ptp_timestamp_at (ptp_timestamp_bytes (ns_to_ptp_timestamp ns)) 0
     = ns_to_ptp_timestamp ns.
Proof.
  unfold is_u64. intros Hns.
  assert (Hval : ptp_timestamp_to_ns (ns_to_ptp_timestamp ns)
                 = ns mod (2 ^ 32 * 1000000000)).
  { unfold ptp_timestamp_to_ns, ns_to_ptp_timestamp, rte_be_to_cpu_32,
      rte_cpu_to_be_32. cbn [seconds_lsb nanoseconds].
    unfold wrap32, wrap64.
    rewrite !bswap32_involutive
      by (apply Z.mod_pos_bound; lia).
    Z.to_euclidean_division_equations. lia. }
  split; [exact Hval |]. split.
  - intros Hlt. rewrite Hval. apply Z.mod_small. lia.
  - unfold ptp_timestamp_at, ptp_timestamp_bytes, ns_to_ptp_timestamp.
    cbn [seconds_msb seconds_lsb nanoseconds].
    set (a := rte_cpu_to_be_32 (wrap32 (ns / 1000000000))).
    set (b := rte_cpu_to_be_32 (wrap32 (ns mod 1000000000))).
    assert (Ha : 0 <= a < 2 ^ 32) by apply bswap32_range.
    assert (Hb : 0 <= b < 2 ^ 32) by apply bswap32_range.
    change (load16 (store16 0 ++ store32 a ++ store32 b) 0) with 0.
    change (load32 (store16 0 ++ store32 a ++ store32 b) (0 + 2))
      with (load32 (store32 a ++ store32 b) 0).
    change (load32 (store16 0 ++ store32 a ++ store32 b) (0 + 6))
      with (load32 (store32 b ++ []) 0).
    rewrite !load32_store32 by assumption. reflexivity.
Qed.

Lemma ns_timestamp_round_trip_witness :
  ptp_timestamp_to_ns (ns_to_ptp_timestamp 1000000200000) = 1000000200000.
Proof.
  destruct (ns_timestamp_round_trip 1000000200000) as (_ & H & _).
  - unfold is_u64. lia.
  - apply H. lia.
Defined.

(** ** Packet classification ([ptp_packet.c]) *)

Lemma land_0x0F_range x : 0 <= Z.land x 0x0F <= 15.
Proof.
  pose proof (Z.land_ones x 4 ltac:(lia)) as E.
  change (Z.ones 4) with 0x0F in E. rewrite E.
  pose proof (Z.mod_pos_bound x (2 ^ 4) ltac:(lia)). lia.
Qed.

Lemma land_0x0FFF_range x : 0 <= Z.land x 0x0FFF < 4096.
Proof.
  pose proof (Z.land_ones x 12 ltac:(lia)) as E.
  change (Z.ones 12) with 0x0FFF in E. rewrite E.
  pose proof (Z.mod_pos_bound x (2 ^ 12) ltac:(lia)). lia.
Qed.

Lemma ptp_packet_shape (m : rte_mbuf) :
  ptp_is_ptp_packet m = true ->
  sizeof_rte_ether_hdr <= data_len m /\
  0 <= ptp_get_msg_type m <= 15 /\
  ((ether_type_of m = PTP_ETHERTYPE /\
    get_ptp_header m = Some sizeof_rte_ether_hdr /\
    ptp_get_vlan_id m = 0 /\
    ptp_get_msg_type m = Z.land (byte_at (pkt m) 14) 0x0F) \/
   (ether_type_of m = RTE_ETHER_TYPE_VLAN /\
    sizeof_ptp_eth_frame <= data_len m /\
    rte_be_to_cpu_16 (load16 (pkt m) 16) = PTP_ETHERTYPE /\
    get_ptp_header m = Some sizeof_ptp_eth_frame /\
    0 <= ptp_get_vlan_id m < 4096 /\
    ptp_get_msg_type m = Z.land (byte_at (pkt m) 18) 0x0F)).
Proof.
  unfold ptp_is_ptp_packet, ptp_get_msg_type, get_ptp_header, ptp_get_vlan_id.
  destruct (Z.ltb_spec (data_len m) sizeof_rte_ether_hdr); [discriminate |].
  destruct (Z.eqb_spec (ether_type_of m) PTP_ETHERTYPE) as [E | NE].
  - intros _. split; [assumption |]. split; [apply land_0x0F_range |].
    left. rewrite E. repeat split; reflexivity.
  - destruct (Z.eqb_spec (ether_type_of m) RTE_ETHER_TYPE_VLAN) as [E | NE'];
      [| discriminate].
    destruct (Z.ltb_spec (data_len m) sizeof_ptp_eth_frame); [discriminate |].
    intros Hin. apply Z.eqb_eq in Hin.
    split; [assumption |]. split; [apply land_0x0F_range |].
    right. repeat split; try assumption; try reflexivity;
      apply land_0x0FFF_range.
Qed.

(** X3: Every frame [ptp_is_ptp_packet] accepts has at least an Ethernet
    header, a message type in 0..15 and a PTP header at offset 14
    (untagged, VLAN id 0) or 18 (one 802.1Q tag, at least 18 bytes, VLAN id
    below 4096); so the guards for a negative message type and a NULL
    header in [ptp_packet_process] never fire. *)
Theorem ptp_packet_classified (m : rte_mbuf) :
  ptp_is_ptp_packet m = true ->
  sizeof_rte_ether_hdr <= data_len m /\
  0 <= ptp_get_msg_type m <= 15 /\
  ((ether_type_of m = PTP_ETHERTYPE /\
    get_ptp_header m = Some sizeof_rte_ether_hdr /\
    ptp_get_vlan_id m = 0 /\
    ptp_get_msg_type m = Z.land (byte_at (pkt m) 14) 0x0F) \/
   (ether_type_of m = RTE_ETHER_TYPE_VLAN /\
    sizeof_ptp_eth_frame <= data_len m /\
    rte_be_to_cpu_16 (load16 (pkt m) 16) = PTP_ETHERTYPE /\
    get_ptp_header m = Some sizeof_ptp_eth_frame /\
    0 <= ptp_get_vlan_id m < 4096 /\
    ptp_get_msg_type m = Z.land (byte_at (pkt m) 18) 0x0F)).
Proof. exact (ptp_packet_shape m). Qed.

Lemma ptp_packet_classified_witness :
  get_ptp_header (ptp_rx_frame 225 PTP_MSG_SYNC 7 1000 0) = Some 18 /\
  ptp_get_vlan_id (ptp_rx_frame 225 PTP_MSG_SYNC 7 1000 0) = 225.
Proof.
  destruct (ptp_packet_classified (ptp_rx_frame 225 PTP_MSG_SYNC 7 1000 0))
    as (_ & _ & [(E & _) | (_ & _ & _ & Hh & _)]).
  - vm_compute; reflexivity.
  - vm_compute in E. discriminate E.
  - split; [exact Hh | vm_compute; reflexivity].
Defined.

(** X4: A frame shorter than an Ethernet header, or a tagged frame shorter
    than 18 bytes, is never a PTP packet, whatever its bytes. *)
Theorem short_frame_not_ptp (m : rte_mbuf) :
  data_len m < 14 \/
  (ether_type_of m = RTE_ETHER_TYPE_VLAN /\ data_len m < 18) ->
  ptp_is_ptp_packet m = false.
Proof.
  unfold ptp_is_ptp_packet. intros [H | [E H]].
  - destruct (Z.ltb_spec (data_len m) sizeof_rte_ether_hdr);
      [reflexivity | unfold sizeof_rte_ether_hdr in *; lia].
  - destruct (data_len m <? sizeof_rte_ether_hdr); [reflexivity |].
    rewrite E. cbn.
    destruct (Z.ltb_spec (data_len m) sizeof_ptp_eth_frame);
      [reflexivity | unfold sizeof_ptp_eth_frame in *; lia].
Qed.

Lemma short_frame_not_ptp_witness :
  ptp_is_ptp_packet
    {| data_len := 17; pkt := pkt (ptp_rx_frame 225 PTP_MSG_SYNC 7 1000 0) |}
  = false.
Proof.
  apply short_frame_not_ptp. right. split; [vm_compute; reflexivity |].
  cbn. lia.
Defined.

Lemma packet_process_not_ptp hz s m rx_tsc realtime_ns now_tsc :
  ptp_is_ptp_packet m = false ->
  ptp_packet_process hz s m rx_tsc realtime_ns now_tsc = (-1, s).
Proof. intros H. unfold ptp_packet_process. rewrite H. reflexivity. Qed.

Lemma packet_process_ptp hz s m rx_tsc realtime_ns now_tsc :
  ptp_is_ptp_packet m = true ->
  exists o,
    get_ptp_header m = Some o /\
    ptp_packet_process hz s m rx_tsc realtime_ns now_tsc =
    if negb (ptp_get_vlan_id m =? rx_vlan_id s) then (-2, s)
    else if ptp_get_msg_type m =? PTP_MSG_SYNC then
      let s1 := ptp_handle_sync s (ptp_header_at (pkt m) o)
                  (ptp_timestamp_at (pkt m) (o + PTP_HEADER_LEN)) rx_tsc
                  realtime_ns in
      (0, set_sync_rx_count (wrap64 (sync_rx_count s1 + 1)) s1)
    else if ptp_get_msg_type m =? PTP_MSG_DELAY_RESP then
      let s1 := ptp_handle_delay_resp hz s (ptp_header_at (pkt m) o)
                  (ptp_timestamp_at (pkt m) (o + PTP_HEADER_LEN)) now_tsc in
      (0, set_delay_resp_rx_count (wrap64 (delay_resp_rx_count s1 + 1)) s1)
    else if ptp_get_msg_type m =? PTP_MSG_FOLLOW_UP then (0, s)
    else if ptp_get_msg_type m =? PTP_MSG_ANNOUNCE then (0, s)
    else (-4, s).
Proof.
  intros Hptp.
  destruct (ptp_packet_shape m Hptp) as (_ & Hty & Hcase).
  assert (Hh : exists o, get_ptp_header m = Some o).
  { destruct Hcase as [(_ & H & _) | (_ & _ & _ & H & _)]; eauto. }
  destruct Hh as [o Ho]. exists o. split; [exact Ho |].
  unfold ptp_packet_process. rewrite Hptp, Ho. cbn [negb].
  destruct (Z.ltb_spec (ptp_get_msg_type m) 0); [lia | reflexivity].
Qed.

(** X5: The status of [ptp_packet_process] is 0, -1, -2 or -4; -1 means the
    frame is not PTP, -2 that its VLAN is not the session's RX VLAN, -4
    that its message type is none of Sync, Delay_Resp, Follow_Up,
    Announce; on every non-zero status, and for Follow_Up and Announce,
    the session is left exactly as it was. *)
Theorem packet_process_status (hz : Z) (s : ptp_session_t) (m : rte_mbuf)
    (rx_tsc realtime_ns now_tsc : Z) :
  let r := ptp_packet_process hz s m rx_tsc realtime_ns now_tsc in
  let ty := ptp_get_msg_type m in
  (fst r = 0 \/ fst r = -1 \/ fst r = -2 \/ fst r = -4) /\
  (fst r <> 0 -> snd r = s) /\
  (fst r = -1 <-> ptp_is_ptp_packet m = false) /\
  (fst r = -2 <->
   ptp_is_ptp_packet m = true /\ ptp_get_vlan_id m <> rx_vlan_id s) /\
  (fst r = -4 <->
   ptp_is_ptp_packet m = true /\ ptp_get_vlan_id m = rx_vlan_id s /\
   ty <> PTP_MSG_SYNC /\ ty <> PTP_MSG_DELAY_RESP /\
   ty <> PTP_MSG_FOLLOW_UP /\ ty <> PTP_MSG_ANNOUNCE) /\
  (ty = PTP_MSG_FOLLOW_UP \/ ty = PTP_MSG_ANNOUNCE -> snd r = s).
Proof.
  intros r ty. subst r ty.
  destruct (ptp_is_ptp_packet m) eqn:Hptp.
  2:{ unfold ptp_packet_process. rewrite Hptp. cbn.
      repeat split; try tauto; try discriminate; try lia;
        intros; try tauto; try lia; intuition discriminate. }
  destruct (packet_process_ptp hz s m rx_tsc realtime_ns now_tsc Hptp)
    as (o & _ & ->).
  destruct (Z.eqb_spec (ptp_get_vlan_id m) (rx_vlan_id s)) as [Ev | Ev];
    cbn [negb].
  2:{ cbn. repeat split; intros; try tauto; try lia; try discriminate;
        intuition (try discriminate; try lia). }
  destruct (Z.eqb_spec (ptp_get_msg_type m) PTP_MSG_SYNC) as [E0 | N0].
  { cbn. rewrite E0. unfold PTP_MSG_FOLLOW_UP, PTP_MSG_ANNOUNCE, PTP_MSG_SYNC.
    repeat split; intros; try tauto; try lia; try discriminate;
      intuition (try discriminate; try lia). }
  destruct (Z.eqb_spec (ptp_get_msg_type m) PTP_MSG_DELAY_RESP) as [E9 | N9].
  { cbn. rewrite E9.
    unfold PTP_MSG_FOLLOW_UP, PTP_MSG_ANNOUNCE, PTP_MSG_DELAY_RESP.
    repeat split; intros; try tauto; try lia; try discriminate;
      intuition (try discriminate; try lia). }
  destruct (Z.eqb_spec (ptp_get_msg_type m) PTP_MSG_FOLLOW_UP) as [E8 | N8].
  { cbn. repeat split; intros; try tauto; try lia; try discriminate;
      intuition (try discriminate; try lia). }
  destruct (Z.eqb_spec (ptp_get_msg_type m) PTP_MSG_ANNOUNCE) as [E11 | N11].
  { cbn. repeat split; intros; try tauto; try lia; try discriminate;
      intuition (try discriminate; try lia). }
  cbn. repeat split; intros; try tauto; try lia; try discriminate;
    intuition (try discriminate; try lia).
Qed.

(** ** Sending a Delay_Req ([ptp_send_delay_req]) *)

(** X6: The send succeeds exactly when the pool exists, the buffer is
    allocated and extended and the burst takes one packet.  A failed send
    returns -1, -2, -3 or -4, hands nothing over and leaves the session as
    it was: no sequence id is used up and t3 is not touched.  A successful
    send hands over the built buffer, remembers its sequence id, advances
    the counter and stores the mean of the two TSC readings as t3, which
    lies between them as long as their sum fits 64 bits. *)
Theorem send_delay_req_outcomes (s : ptp_session_t) (env : tx_env) :
  let ok := tx_mbuf_pool env && alloc_ok env && append_ok env
            && (nb_tx env =? 1) in
  let ret := fst (fst (ptp_send_delay_req s env)) in
  let s' := snd (fst (ptp_send_delay_req s env)) in
  let sent := snd (ptp_send_delay_req s env) in
  (ret = 0 <-> ok = true) /\
  (ok = false ->
   (ret = -1 \/ ret = -2 \/ ret = -3 \/ ret = -4) /\ s' = s /\ sent = None) /\
  (ok = true ->
   sent = Some (delay_req_mbuf s) /\
   last_delay_req_seq_id s' = delay_req_seq_id s /\
   delay_req_seq_id s' = wrap16 (delay_req_seq_id s + 1) /\
   delay_req_tx_count s' = wrap64 (delay_req_tx_count s + 1) /\
   t3_realtime_ns s' = tx_realtime_ns env /\
   t3_tsc s' = wrap64 (tsc_before env + tsc_after env) / 2 /\
   last_delay_req_tsc s' = t3_tsc s' /\
   state s' = state s /\
   (0 <= tsc_before env <= tsc_after env ->
    tsc_before env + tsc_after env < 2 ^ 64 ->
    tsc_before env <= t3_tsc s' <= tsc_after env)).
Proof.
  unfold ptp_send_delay_req.
  destruct (tx_mbuf_pool env), (alloc_ok env), (append_ok env);
    cbn -[wrap64 wrap16 Z.div Z.pow];
    try solve [repeat split; intros; try discriminate; try tauto; try lia;
               intuition (try discriminate; try lia)].
  destruct (Z.eqb_spec (nb_tx env) 1) as [E | NE];
    cbn -[wrap64 wrap16 Z.div Z.pow].
  - split; [tauto |]. split; [discriminate |]. intros _.
    repeat (split; [reflexivity |]).
    intros Hle Hsum. unfold wrap64. rewrite Z.mod_small by lia.
    Z.to_euclidean_division_equations. lia.
  - split; [split; [lia | discriminate] |]. split; [| discriminate].
    intros _. split; [lia | split; reflexivity].
Qed.

(** ** A failed transmit and the way out of ERROR *)

Lemma tick_sync_received hz s env current_tsc :
  state s = PTP_STATE_SYNC_RECEIVED ->
  ptp_state_machine_tick hz s env current_tsc =
  if delay_req_interval_cycles hz <=? wrap64 (current_tsc - last_state_change s)
  then
    let '(ret, s1, sent) := ptp_send_delay_req s env in
    if ret =? 0 then
      (set_last_state_change current_tsc
         (set_state PTP_STATE_DELAY_REQ_SENT s1), sent)
    else
      (set_sync_errors (wrap64 (sync_errors (set_state PTP_STATE_ERROR s1) + 1))
         (set_state PTP_STATE_ERROR s1), sent)
  else (s, None).
Proof. intros H. unfold ptp_state_machine_tick. rewrite H. reflexivity. Qed.

(** X7: When the Delay_Req cannot be sent, the tick puts the session into
    ERROR, counts one sync error, sends nothing and changes nothing else;
    in particular last_state_change still holds the arrival of the Sync.
    From ERROR the next Sync starts a new cycle at once, and without a
    Sync the tick returns to LISTENING once more than sync_timeout cycles
    have passed since that arrival. *)
Theorem tx_failure_and_recovery (hz : Z) (s : ptp_session_t) (env : tx_env)
    (current_tsc : Z) :
  state s = PTP_STATE_SYNC_RECEIVED ->
  delay_req_interval_cycles hz <= wrap64 (current_tsc - last_state_change s) ->
  tx_mbuf_pool env && alloc_ok env && append_ok env && (nb_tx env =? 1)
  = false ->
  let e := set_sync_errors (wrap64 (sync_errors s + 1))
             (set_state PTP_STATE_ERROR s) in
  ptp_state_machine_tick hz s env current_tsc = (e, None) /\
  (forall header timestamp rx_tsc realtime_ns,
     let s1 := ptp_handle_sync e header timestamp rx_tsc realtime_ns in
     state s1 = PTP_STATE_SYNC_RECEIVED /\
     t1_ns s1 = ptp_timestamp_to_ns timestamp /\
     t2_realtime_ns s1 = realtime_ns /\
     last_state_change s1 = rx_tsc) /\
  (forall env' t,
     state (fst (ptp_state_machine_tick hz e env' t)) =
     if sync_timeout_cycles hz <? wrap64 (t - last_state_change s)
     then PTP_STATE_LISTENING else PTP_STATE_ERROR).
Proof.
  intros Hst Hint Hfail e.
  split; [| split].
  - rewrite tick_sync_received by exact Hst.
    destruct (Z.leb_spec (delay_req_interval_cycles hz)
                (wrap64 (current_tsc - last_state_change s))); [| lia].
    unfold ptp_send_delay_req.
    destruct (tx_mbuf_pool env), (alloc_ok env), (append_ok env);
      try reflexivity.
    cbn [andb] in Hfail. rewrite Hfail. reflexivity.
  - intros header timestamp rx_tsc realtime_ns. cbn. auto.
  - intros env' t. unfold ptp_state_machine_tick.
    cbn [e state set_sync_errors set_state last_state_change].
    destruct (_ <? _); reflexivity.
Qed.

Lemma tx_failure_and_recovery_witness :
  let s := fst (session_run hz_1GHz session_fresh
                  [ EvTick (tx_ok 0 0) 0;
                    EvRx (ptp_rx_frame 225 PTP_MSG_SYNC 7 1000 0)
                         1000 1000000080000 1000 ]) in
  let env := Build_tx_env true false true 100001000 0 100001000 0 in
  state (fst (ptp_state_machine_tick hz_1GHz s env 100001000))
  = PTP_STATE_ERROR /\
  delay_req_seq_id (fst (ptp_state_machine_tick hz_1GHz s env 100001000)) = 0.
Proof.
  intros s env.
  destruct (tx_failure_and_recovery hz_1GHz s env 100001000) as (H & _).
  - vm_compute; reflexivity.
  - vm_compute; discriminate.
  - reflexivity.
  - rewrite H. vm_compute. split; reflexivity.
Defined.

(** ** Building and parsing a Delay_Req *)

Lemma store16_bytes x : Forall is_byte (store16 x).
Proof.
  unfold store16, is_byte. repeat constructor;
    rewrite land_0xFF; apply Z.mod_pos_bound; lia.
Qed.

Lemma be16_round_trip x rest :
  is_u16 x ->
  rte_be_to_cpu_16 (load16 (store16 (rte_cpu_to_be_16 x) ++ rest) 0) = x.
Proof.
  intros H. unfold rte_be_to_cpu_16, rte_cpu_to_be_16.
  rewrite load16_store16 by apply bswap16_range.
  now apply bswap16_involutive.
Qed.

Lemma delay_req_fields (s : ptp_session_t) :
  builder_wf s ->
  let f := delay_req_frame s in
  let m := {| data_len := 124; pkt := f |} in
  let h := ptp_header_at f 18 in
  length f = 124%nat /\ Forall is_byte f /\
  ptp_is_ptp_packet m = true /\
  ptp_get_vlan_id m = Z.land (tx_vlan_id s) 0x0FFF /\
  ptp_get_msg_type m = PTP_MSG_DELAY_REQ /\
  get_ptp_header m = Some 18 /\
  msg_type h = PTP_MSG_DELAY_REQ /\ transport h = 0 /\
  version h = PTP_VERSION /\
  rte_be_to_cpu_16 (msg_length h) = PTP_MSG_LENGTH_PADDED /\
  domain_number h = PTP_DEFAULT_DOMAIN /\
  rte_be_to_cpu_16 (flags h) = 0x0102 /\
  correction h = 0 /\
  source_port_id h = our_port_id s /\
  rte_be_to_cpu_16 (sequence_id h) = delay_req_seq_id s /\
  control h = PTP_CTRL_DELAY_REQ /\
  log_msg_interval h = PTP_LOG_DELAY_REQ_INT /\
  ptp_timestamp_to_ns (ptp_timestamp_at f (18 + PTP_HEADER_LEN)) = 0.
Proof.
  intros (Hseq & Hvlan & Hidx & Hlen & Hci & Hpn) f m h. subst h m f.
  assert (Hvl : is_u16 (Z.land (tx_vlan_id s) 0x0FFF)).
  { pose proof (land_0x0FFF_range (tx_vlan_id s)). unfold is_u16. lia. }
  unfold ptp_is_ptp_packet, ptp_get_vlan_id, ptp_get_msg_type, get_ptp_header,
    ether_type_of, data_len, pkt, delay_req_frame.
  rewrite (delay_req_ptp_layout s Hlen). unfold ptp_port_identity_bytes.
  destruct (our_port_id s) as [ci pn] eqn:Hid. cbn [clock_identity port_number] in *.
  destruct ci as [|c0 [|c1 [|c2 [|c3 [|c4 [|c5 [|c6 [|c7 [|c8 l]]]]]]]]];
    try discriminate Hlen.
  set (vl := store16 (rte_cpu_to_be_16 (Z.land (tx_vlan_id s) 0x0FFF))).
  set (sq := store16 (rte_cpu_to_be_16 (delay_req_seq_id s))).
  set (pnb := store16 pn).
  match goal with |- length ?F = _ /\ _ => set (fr := F) end.
  assert (Ev : rte_be_to_cpu_16 (load16 fr 14) = Z.land (tx_vlan_id s) 0x0FFF).
  { change (load16 fr 14)
      with (load16 (vl ++ store16 (rte_cpu_to_be_16 PTP_ETHERTYPE)) 0).
    apply be16_round_trip, Hvl. }
  assert (Es : rte_be_to_cpu_16 (load16 fr 48) = delay_req_seq_id s).
  { change (load16 fr 48)
      with (load16 (sq ++ [0x01; 0xFF] ++ repeat 0 10 ++ repeat 0 62) 0).
    apply be16_round_trip, Hseq. }
  assert (Ep : load16 fr 46 = pn).
  { change (load16 fr 46)
      with (load16 (pnb ++ sq ++ [0x01; 0xFF] ++ repeat 0 10 ++ repeat 0 62)
              0).
    apply load16_store16, Hpn. }
  change (rte_be_to_cpu_16 (load16 fr 12)) with RTE_ETHER_TYPE_VLAN.
  change (rte_be_to_cpu_16 (load16 fr 16)) with PTP_ETHERTYPE.
  cbn [Z.eqb Z.ltb Z.compare Pos.compare Pos.compare_cont Pos.eqb
       RTE_ETHER_TYPE_VLAN PTP_ETHERTYPE sizeof_rte_ether_hdr
       sizeof_ptp_eth_frame].
  rewrite Ev.
  split; [reflexivity |]. split.
  { subst fr vl sq pnb.
    repeat (apply Forall_app; split); try apply store16_bytes;
      try (repeat constructor; unfold is_byte; lia);
      try (apply Forall_forall; intros x Hx; apply repeat_spec in Hx;
           subst x; unfold is_byte; lia).
    - repeat apply Forall_cons; try (rewrite land_0xFF; apply Z.mod_pos_bound; lia);
        try (unfold is_byte; lia). constructor.
    - exact Hci. }
  repeat split; try reflexivity; try exact Es.
  - rewrite <- Z.land_assoc. reflexivity.
  - unfold ptp_header_at, ptp_port_identity_at. cbn [source_port_id].
    change (18 + 20 + 8) with 46. rewrite Ep. reflexivity.
Qed.

(** X8: Parsing what the builder built: for a session whose fields are in the
    ranges of their C types, the Delay_Req frame is 124 bytes, is
    recognised as a PTP packet on VLAN tx_vlan mod 4096 with message type
    Delay_Req, and its header parses to version 2, length 106, domain 10,
    flags 0x0102, the session's sequence id and port identity, control 1,
    logMessageInterval -1 and a zero origin timestamp. *)
Theorem delay_req_parses_back (s : ptp_session_t) :
  builder_wf s ->
  let f := delay_req_frame s in
  let m := {| data_len := 124; pkt := f |} in
  let h := ptp_header_at f 18 in
  length f = 124%nat /\ Forall is_byte f /\
  ptp_is_ptp_packet m = true /\
  ptp_get_vlan_id m = Z.land (tx_vlan_id s) 0x0FFF /\
  ptp_get_msg_type m = PTP_MSG_DELAY_REQ /\
  get_ptp_header m = Some 18 /\
  msg_type h = PTP_MSG_DELAY_REQ /\ transport h = 0 /\
  version h = PTP_VERSION /\
  rte_be_to_cpu_16 (msg_length h) = PTP_MSG_LENGTH_PADDED /\
  domain_number h = PTP_DEFAULT_DOMAIN /\
  rte_be_to_cpu_16 (flags h) = 0x0102 /\
  correction h = 0 /\
  source_port_id h = our_port_id s /\
  rte_be_to_cpu_16 (sequence_id h) = delay_req_seq_id s /\
  control h = PTP_CTRL_DELAY_REQ /\
  log_msg_interval h = PTP_LOG_DELAY_REQ_INT /\
  ptp_timestamp_to_ns (ptp_timestamp_at f (18 + PTP_HEADER_LEN)) = 0.
Proof. exact (delay_req_fields s). Qed.

Lemma session_golden_builder_wf : builder_wf session_golden.
Proof.
  unfold builder_wf, is_u16, is_byte.
  change (our_port_id session_golden)
    with {| clock_identity := [0x2C; 0x1A; 0; 0; 0; 0; 0; 0];
            port_number := 0 |}.
  change (delay_req_seq_id session_golden) with 5.
  change (tx_vlan_id session_golden) with 97.
  change (tx_vl_idx session_golden) with 4420.
  cbn [clock_identity port_number length].
  repeat split; try lia.
  repeat (apply Forall_cons; [lia |]). apply Forall_nil.
Qed.

Lemma delay_req_parses_back_witness :
  let m := {| data_len := 124; pkt := delay_req_frame session_golden |} in
  ptp_is_ptp_packet m = true /\ ptp_get_vlan_id m = 97 /\
  rte_be_to_cpu_16 (sequence_id (ptp_header_at (pkt m) 18)) = 5.
Proof.
  intros m.
  destruct (delay_req_parses_back session_golden)
    as (_ & _ & Hp & Hv & _ & _ & _ & _ & _ & _ & _ & _ & _ & _ & Hs & _).
  - exact session_golden_builder_wf.
  - split; [exact Hp |]. split; [exact Hv | exact Hs].
Defined.

(** X9: A Delay_Req of this slave that comes back to a session (a loop in the
    fabric) is never taken for an answer: [ptp_packet_process] returns -2
    or -4 and the session is unchanged. *)
Theorem own_delay_req_ignored (hz : Z) (s s0 : ptp_session_t)
    (rx_tsc realtime_ns now_tsc : Z) :
  builder_wf s ->
  let m := {| data_len := 124; pkt := delay_req_frame s |} in
  let r := ptp_packet_process hz s0 m rx_tsc realtime_ns now_tsc in
  (fst r = -2 \/ fst r = -4) /\ snd r = s0.
Proof.
  intros Hwf m r.
  destruct (delay_req_fields s Hwf)
    as (_ & _ & Hp & _ & Hty & _).
  fold m in Hp, Hty. subst r.
  destruct (packet_process_ptp hz s0 m rx_tsc realtime_ns now_tsc Hp)
    as (o & _ & ->).
  rewrite Hty.
  destruct (negb _); cbn; auto.
Qed.

Lemma own_delay_req_ignored_witness :
  snd (ptp_packet_process hz_1GHz session_in_second_cycle
         {| data_len := 124; pkt := delay_req_frame session_golden |}
         0 0 0)
  = session_in_second_cycle.
Proof.
  apply own_delay_req_ignored. exact session_golden_builder_wf.
Defined.


(** ** A complete cycle *)

Lemma offset_delay_arith t1 t2 t3 t4 :
  to_int64 (to_int64 (to_int64 t2 - to_int64 t1)
            - to_int64 (to_int64 t4 - to_int64 t3))
  = to_int64 (t2 - t1 - (t4 - t3)) /\
  to_int64 (to_int64 (to_int64 t2 - to_int64 t1)
            + to_int64 (to_int64 t4 - to_int64 t3))
  = to_int64 (t2 - t1 + (t4 - t3)).
Proof.
  split.
  - rewrite to_int64_sub.
    destruct (to_int64_repr t1) as [k1 ->], (to_int64_repr t2) as [k2 ->].
    destruct (to_int64_repr t3) as [k3 ->], (to_int64_repr t4) as [k4 ->].
    apply (to_int64_eqm _ _ (k2 - k1 - (k4 - k3))). ring.
  - rewrite !to_int64_sub.
    destruct (to_int64_repr (t2 - t1)) as [k1 ->].
    destruct (to_int64_repr (t4 - t3)) as [k2 ->].
    apply (to_int64_eqm _ _ (k1 + k2)). ring.
Qed.

Lemma delay_resp_completes hz s header timestamp now_tsc :
  state s = PTP_STATE_DELAY_REQ_SENT ->
  rte_be_to_cpu_16 (sequence_id header) = last_delay_req_seq_id s ->
  ptp_timestamp_to_ns timestamp <> 0 ->
  let s' := ptp_handle_delay_resp hz s header timestamp now_tsc in
  let A := t2_realtime_ns s - t1_ns s in
  let B := ptp_timestamp_to_ns timestamp - t3_realtime_ns s in
  state s' = PTP_STATE_SYNCED /\ is_synced s' = true /\
  sync_count s' = wrap32 (sync_count s + 1) /\
  delay_req_seq_id s' = delay_req_seq_id s /\
  last_state_change s' = now_tsc /\
  offset_ns s' = c_div (to_int64 (A - B)) 2 /\
  delay_ns s' = c_div (to_int64 (A + B)) 2.
Proof.
  intros Hst Hseq Ht4 s' A B. subst s' A B.
  rewrite (handle_delay_resp_accept _ _ _ _ _ Hseq Hst).
  unfold ptp_calculate_offset_delay. cbn [t4_ns set_t4_ns].
  destruct (Z.eqb_spec (ptp_timestamp_to_ns timestamp) 0) as [E | _];
    [contradiction |].
  cbn -[to_int64 c_div Z.pow wrap32].
  destruct (offset_delay_arith (t1_ns s) (t2_realtime_ns s)
              (t3_realtime_ns s) (ptp_timestamp_to_ns timestamp)) as [Ho Hd].
  rewrite Ho, Hd. repeat split; reflexivity.
Qed.

Lemma delay_req_mbuf_ext a b :
  tx_vl_idx a = tx_vl_idx b -> tx_vlan_id a = tx_vlan_id b ->
  our_port_id a = our_port_id b -> delay_req_seq_id a = delay_req_seq_id b ->
  delay_req_mbuf a = delay_req_mbuf b.
Proof.
  intros H1 H2 H3 H4.
  unfold delay_req_mbuf, delay_req_frame, delay_req_ptp.
  rewrite H1, H2, H3, H4. reflexivity.
Qed.

Lemma handle_sync_accept s header timestamp rx_tsc realtime_ns :
  state s = PTP_STATE_LISTENING \/ state s = PTP_STATE_SYNCED
  \/ state s = PTP_STATE_ERROR ->
  let s1 := ptp_handle_sync s header timestamp rx_tsc realtime_ns in
  state s1 = PTP_STATE_SYNC_RECEIVED /\
  last_state_change s1 = rx_tsc /\
  t1_ns s1 = ptp_timestamp_to_ns timestamp /\
  t2_tsc s1 = rx_tsc /\
  t2_realtime_ns s1 = realtime_ns /\
  sync_count s1 = sync_count s /\
  delay_req_seq_id s1 = delay_req_seq_id s /\
  delay_req_tx_count s1 = delay_req_tx_count s /\
  tx_vl_idx s1 = tx_vl_idx s /\ tx_vlan_id s1 = tx_vlan_id s /\
  our_port_id s1 = our_port_id s.
Proof.
  intros Hst. unfold ptp_handle_sync.
  cbn [state set_master_port_id set_master_domain set_sync_seq_id
       set_last_sync_tsc].
  destruct Hst as [E | [E | E]]; rewrite E; cbn; repeat split; reflexivity.
Qed.

Lemma tick_sends hz s env current_tsc :
  state s = PTP_STATE_SYNC_RECEIVED ->
  delay_req_interval_cycles hz <= wrap64 (current_tsc - last_state_change s) ->
  tx_mbuf_pool env && alloc_ok env && append_ok env && (nb_tx env =? 1)
  = true ->
  let r := ptp_state_machine_tick hz s env current_tsc in
  snd r = Some (delay_req_mbuf s) /\
  state (fst r) = PTP_STATE_DELAY_REQ_SENT /\
  last_delay_req_seq_id (fst r) = delay_req_seq_id s /\
  delay_req_seq_id (fst r) = wrap16 (delay_req_seq_id s + 1) /\
  t3_realtime_ns (fst r) = tx_realtime_ns env /\
  t1_ns (fst r) = t1_ns s /\ t2_realtime_ns (fst r) = t2_realtime_ns s /\
  sync_count (fst r) = sync_count s.
Proof.
  intros Hst Hint Hok r. subst r.
  apply andb_prop in Hok as [Hok Hnb]. apply andb_prop in Hok as [Hok Hap].
  apply andb_prop in Hok as [Hpool Hal].
  rewrite tick_sync_received by exact Hst.
  destruct (Z.leb_spec (delay_req_interval_cycles hz)
              (wrap64 (current_tsc - last_state_change s))); [| lia].
  unfold ptp_send_delay_req. rewrite Hpool, Hal, Hap, Hnb.
  cbn -[wrap64 wrap16 Z.div delay_req_mbuf]. repeat split; reflexivity.
Qed.

(** X10: One whole exchange on a session that is ready for a Sync (LISTENING,
    SYNCED or ERROR): the Sync is handled, a tick at least
    delay_req_interval later sends the Delay_Req with the session's
    sequence id, and the Delay_Resp carrying that id and a non-zero
    timestamp ends the cycle in SYNCED with one more sync counted, the
    sequence counter advanced by one, and offset and delay computed from
    the four timestamps of this exchange: t1 from the Sync, t2 the
    wall-clock reading at its arrival, t3 the reading after the transmit,
    t4 from the Delay_Resp.  With t2 and t3 below 2^62 the formulas hold in
    the integers. *)
Theorem complete_cycle (hz : Z) (s : ptp_session_t)
    (hsync : ptp_header_t) (ts1 : ptp_timestamp_t) (rx_tsc t2 : Z)
    (env : tx_env) (current_tsc : Z)
    (hresp : ptp_header_t) (ts4 : ptp_timestamp_t) (now_tsc : Z) :
  state s = PTP_STATE_LISTENING \/ state s = PTP_STATE_SYNCED
  \/ state s = PTP_STATE_ERROR ->
  delay_req_interval_cycles hz <= wrap64 (current_tsc - rx_tsc) ->
  tx_mbuf_pool env && alloc_ok env && append_ok env && (nb_tx env =? 1)
  = true ->
  rte_be_to_cpu_16 (sequence_id hresp) = delay_req_seq_id s ->
  ptp_timestamp_to_ns ts4 <> 0 ->
  let s1 := ptp_handle_sync s hsync ts1 rx_tsc t2 in
  let r := ptp_state_machine_tick hz s1 env current_tsc in
  let s3 := ptp_handle_delay_resp hz (fst r) hresp ts4 now_tsc in
  let A := t2 - ptp_timestamp_to_ns ts1 in
  let B := ptp_timestamp_to_ns ts4 - tx_realtime_ns env in
  snd r = Some (delay_req_mbuf s) /\
  state s3 = PTP_STATE_SYNCED /\ is_synced s3 = true /\
  sync_count s3 = wrap32 (sync_count s + 1) /\
  delay_req_seq_id s3 = wrap16 (delay_req_seq_id s + 1) /\
  offset_ns s3 = c_div (to_int64 (A - B)) 2 /\
  delay_ns s3 = c_div (to_int64 (A + B)) 2 /\
  (0 <= t2 < 2 ^ 62 -> 0 <= tx_realtime_ns env < 2 ^ 62 ->
   offset_ns s3 = Z.quot (A - B) 2 /\ delay_ns s3 = Z.quot (A + B) 2).
Proof.
  intros Hst Hint Hok Hseq Ht4 s1 r s3 A B.
  destruct (handle_sync_accept s hsync ts1 rx_tsc t2 Hst)
    as (S1 & S2 & S3 & _ & S5 & S6 & S7 & _ & S9 & S10 & S11).
  fold s1 in S1, S2, S3, S5, S6, S7, S9, S10, S11.
  destruct (tick_sends hz s1 env current_tsc S1) as
    (T1 & T2 & T3 & T4 & T5 & T6 & T7 & T8).
  { rewrite S2. exact Hint. }
  { exact Hok. }
  fold r in T1, T2, T3, T4, T5, T6, T7, T8.
  destruct (delay_resp_completes hz (fst r) hresp ts4 now_tsc)
    as (H1 & H2 & H3 & H4 & _ & H6 & H7).
  { exact T2. }
  { rewrite T3, S7. exact Hseq. }
  { exact Ht4. }
  fold s3 in H1, H2, H3, H4, H6, H7.
  rewrite T6, T7, T5, S3, S5 in H6, H7. fold A B in H6, H7.
  rewrite T8, S6 in H3. rewrite T4, S7 in H4.
  destruct (timestamp_to_ns_value ts1) as (_ & Hb1 & _).
  destruct (timestamp_to_ns_value ts4) as (_ & Hb4 & _).
  split.
  { rewrite T1. f_equal. apply delay_req_mbuf_ext; assumption. }
  repeat split; try assumption.
  - rewrite H6. unfold c_div. f_equal. apply to_int64_id. subst A B. lia.
  - rewrite H7. unfold c_div. f_equal. apply to_int64_id. subst A B. lia.
Qed.

Lemma complete_cycle_witness :
  let m1 := ptp_rx_frame 225 PTP_MSG_SYNC 9 1002 0 in
  let m4 := ptp_rx_frame 225 PTP_MSG_DELAY_RESP 0 1002 200000 in
  let s := fst (session_run hz_1GHz session_fresh [EvTick (tx_ok 0 0) 0]) in
  let s1 := ptp_handle_sync s (ptp_header_at (pkt m1) 18)
              (ptp_timestamp_at (pkt m1) 52) 1000 1002000080000 in
  let r := ptp_state_machine_tick hz_1GHz s1
             (tx_ok 100001000 1002000150000) 100001000 in
  let s3 := ptp_handle_delay_resp hz_1GHz (fst r) (ptp_header_at (pkt m4) 18)
              (ptp_timestamp_at (pkt m4) 52) 100002000 in
  state s3 = PTP_STATE_SYNCED /\ sync_count s3 = wrap32 (0 + 1).
Proof.
  intros m1 m4 s s1 r s3.
  destruct (complete_cycle hz_1GHz s (ptp_header_at (pkt m1) 18)
              (ptp_timestamp_at (pkt m1) 52) 1000 1002000080000
              (tx_ok 100001000 1002000150000) 100001000
              (ptp_header_at (pkt m4) 18) (ptp_timestamp_at (pkt m4) 52)
              100002000)
    as (_ & Hst & _ & Hc & _).
  - left. vm_compute; reflexivity.
  - vm_compute; discriminate.
  - reflexivity.
  - vm_compute; reflexivity.
  - vm_compute; discriminate.
  - split; [exact Hst | exact Hc].
Defined.

(** ** A repeated Delay_Resp *)

Lemma set_t4_ns_same x : set_t4_ns (t4_ns x) x = x.
Proof. destruct x. reflexivity. Qed.

(** X11: Handling the same Delay_Resp a second time changes nothing: a cycle
    is completed, and sync_count raised, at most once per Delay_Resp. *)
Theorem delay_resp_idempotent (hz : Z) (s : ptp_session_t)
    (header : ptp_header_t) (timestamp : ptp_timestamp_t)
    (now_tsc now_tsc' : Z) :
  ptp_handle_delay_resp hz
    (ptp_handle_delay_resp hz s header timestamp now_tsc)
    header timestamp now_tsc'
  = ptp_handle_delay_resp hz s header timestamp now_tsc.
Proof.
  destruct (Z.eq_dec (rte_be_to_cpu_16 (sequence_id header))
              (last_delay_req_seq_id s)) as [Hseq | Hseq].
  2:{ rewrite (handle_delay_resp_mismatch hz s header timestamp now_tsc Hseq).
      now apply handle_delay_resp_mismatch. }
  destruct (ptp_state_eqb (state s) PTP_STATE_DELAY_REQ_SENT) eqn:E.
  - apply ptp_state_eqb_eq in E.
    rewrite (handle_delay_resp_accept _ _ _ _ _ Hseq E).
    set (v := ptp_timestamp_to_ns timestamp).
    set (c := ptp_calculate_offset_delay hz (set_t4_ns v s)).
    assert (Hc : last_delay_req_seq_id c = last_delay_req_seq_id s
                 /\ t4_ns c = v).
    { subst c. unfold ptp_calculate_offset_delay.
      destruct (t4_ns (set_t4_ns v s) =? 0); session_cbn; auto. }
    destruct Hc as [Hc1 Hc2].
    set (S1 := set_last_state_change now_tsc _).
    assert (Ht : t4_ns S1 = v) by exact Hc2.
    rewrite handle_delay_resp_other_state.
    + fold v. rewrite <- Ht at 1. apply set_t4_ns_same.
    + subst S1. session_cbn. rewrite Hc1. exact Hseq.
    + subst S1. session_cbn. discriminate.
  - assert (Hne : state s <> PTP_STATE_DELAY_REQ_SENT).
    { intros H. apply ptp_state_eqb_eq in H. congruence. }
    rewrite (handle_delay_resp_other_state _ _ _ _ _ Hseq Hne).
    rewrite handle_delay_resp_other_state by (session_cbn; assumption).
    exact (set_t4_ns_same (set_t4_ns (ptp_timestamp_to_ns timestamp) s)).
Qed.

(** ** The state graph *)

Lemma handle_sync_state s header timestamp rx_tsc realtime_ns :
  state (ptp_handle_sync s header timestamp rx_tsc realtime_ns)
  = match state s with
    | PTP_STATE_LISTENING | PTP_STATE_SYNCED | PTP_STATE_ERROR =>
        PTP_STATE_SYNC_RECEIVED
    | st => st
    end.
Proof.
  unfold ptp_handle_sync. session_cbn. destruct (state s) eqn:E;
    cbn [ptp_state_eqb orb]; session_cbn; try reflexivity; exact E.
Qed.

Lemma handle_delay_resp_state hz s header timestamp now_tsc :
  let s' := ptp_handle_delay_resp hz s header timestamp now_tsc in
  state s' = state s \/
  (state s = PTP_STATE_DELAY_REQ_SENT /\ state s' = PTP_STATE_SYNCED
   /\ is_synced s' = true).
Proof.
  unfold ptp_handle_delay_resp, ptp_calculate_offset_delay.
  destruct (negb _); [left; reflexivity |]. session_cbn.
  destruct (state s) eqn:E; cbn [ptp_state_eqb]; session_cbn; auto.
Qed.

Lemma tick_init hz s env current_tsc :
  state s = PTP_STATE_INIT ->
  ptp_state_machine_tick hz s env current_tsc =
  (set_last_state_change current_tsc (set_state PTP_STATE_LISTENING s), None).
Proof. intros H. unfold ptp_state_machine_tick. rewrite H. reflexivity. Qed.

Lemma tick_listening hz s env current_tsc :
  state s = PTP_STATE_LISTENING ->
  ptp_state_machine_tick hz s env current_tsc =
  if (0 <? last_sync_tsc s)
     && (sync_timeout_cycles hz <? wrap64 (current_tsc - last_sync_tsc s))
  then (set_sync_timeout_count (wrap64 (sync_timeout_count s + 1)) s, None)
  else (s, None).
Proof. intros H. unfold ptp_state_machine_tick. rewrite H. reflexivity. Qed.

Lemma tick_synced hz s env current_tsc :
  state s = PTP_STATE_SYNCED ->
  ptp_state_machine_tick hz s env current_tsc =
  if sync_timeout_cycles hz <? wrap64 (current_tsc - last_sync_tsc s)
  then (set_last_state_change current_tsc
          (set_state PTP_STATE_LISTENING
             (set_is_synced false
                (set_sync_timeout_count
                   (wrap64 (sync_timeout_count s + 1)) s))), None)
  else (s, None).
Proof. intros H. unfold ptp_state_machine_tick. rewrite H. reflexivity. Qed.

Lemma tick_error hz s env current_tsc :
  state s = PTP_STATE_ERROR ->
  ptp_state_machine_tick hz s env current_tsc =
  if sync_timeout_cycles hz <? wrap64 (current_tsc - last_state_change s)
  then (set_last_state_change current_tsc
          (set_state PTP_STATE_LISTENING s), None)
  else (s, None).
Proof. intros H. unfold ptp_state_machine_tick. rewrite H. reflexivity. Qed.

(** The shape of a send: status 0 with a buffer, or a failure without;
    the fields the send does not write are as before. *)
Lemma send_shape s env :
  exists ret s1 sent,
    ptp_send_delay_req s env = (ret, s1, sent) /\
    state s1 = state s /\ is_synced s1 = is_synced s /\
    t1_ns s1 = t1_ns s /\ t2_tsc s1 = t2_tsc s /\
    last_state_change s1 = last_state_change s /\
    ((ret = 0 /\ sent = Some (delay_req_mbuf s) /\
      last_delay_req_seq_id s1 = delay_req_seq_id s /\
      delay_req_seq_id s1 = wrap16 (delay_req_seq_id s + 1) /\
      delay_req_tx_count s1 = wrap64 (delay_req_tx_count s + 1)) \/
     (ret <> 0 /\ sent = None /\ s1 = s)).
Proof.
  unfold ptp_send_delay_req.
  destruct (tx_mbuf_pool env), (alloc_ok env), (append_ok env); cbn [negb];
    try (do 3 eexists; split; [reflexivity |];
         repeat (split; [reflexivity |]);
         right; split; [lia | split; reflexivity]).
  destruct (nb_tx env =? 1); cbn [negb]; do 3 eexists;
    (split; [reflexivity |]); repeat (split; [reflexivity |]).
  - left. repeat split; reflexivity.
  - right. split; [lia | split; reflexivity].
Qed.

(** X12: Every step of a session follows an edge of the state graph: a tick
    moves INIT to LISTENING, SYNC_RECEIVED to DELAY_REQ_SENT or ERROR, and
    DELAY_REQ_SENT, SYNCED or ERROR back to LISTENING; a received packet
    moves LISTENING, SYNCED or ERROR to SYNC_RECEIVED and DELAY_REQ_SENT to
    SYNCED; nothing else changes the state.  A Delay_Req is sent by no
    packet handler, and by a tick exactly when the tick takes the session
    from SYNC_RECEIVED to DELAY_REQ_SENT. *)
Theorem step_follows_state_graph (hz : Z) (s : ptp_session_t)
    (ev : ptp_event) :
  let r := session_step hz s ev in
  match ev with
  | EvRx _ _ _ _ =>
      rx_edge (state s) (state (fst r)) = true /\ snd r = None
  | EvTick _ _ =>
      tick_edge (state s) (state (fst r)) = true /\
      (snd r <> None <->
       state s = PTP_STATE_SYNC_RECEIVED
       /\ state (fst r) = PTP_STATE_DELAY_REQ_SENT)
  end.
Proof.
  destruct ev as [m rx_tsc realtime_ns now_tsc | env current_tsc]; cbn zeta.
  - cbn [session_step fst snd]. split; [| reflexivity].
    unfold ptp_packet_process.
    assert (Hrefl : forall a, rx_edge a a = true)
      by (intros a; destruct a; reflexivity).
    destruct (negb (ptp_is_ptp_packet m)); [apply Hrefl |].
    destruct (_ <? 0); [apply Hrefl |].
    destruct (negb _); [apply Hrefl |].
    destruct (get_ptp_header m) as [o |]; [| apply Hrefl].
    destruct (_ =? PTP_MSG_SYNC).
    { session_cbn. rewrite handle_sync_state.
      destruct (state s); reflexivity. }
    destruct (_ =? PTP_MSG_DELAY_RESP).
    { session_cbn.
      destruct (handle_delay_resp_state hz s (ptp_header_at (pkt m) o)
                  (ptp_timestamp_at (pkt m) (o + PTP_HEADER_LEN)) now_tsc)
        as [E | (E1 & E2 & _)].
      - rewrite E. apply Hrefl.
      - rewrite E1, E2. reflexivity. }
    destruct (_ =? PTP_MSG_FOLLOW_UP); [apply Hrefl |].
    destruct (_ =? PTP_MSG_ANNOUNCE); apply Hrefl.
  - cbn [session_step].
    assert (Hno : forall a b : ptp_state_t,
              a <> PTP_STATE_SYNC_RECEIVED ->
              (@None tx_mbuf <> None <->
               a = PTP_STATE_SYNC_RECEIVED /\ b = PTP_STATE_DELAY_REQ_SENT)).
    { intros a b Ha. split; [intros H; now contradiction H | tauto]. }
    destruct (state s) eqn:E.
    + rewrite tick_init by exact E. session_cbn.
      split; [reflexivity | apply Hno; discriminate].
    + rewrite tick_listening by exact E.
      destruct (_ && _); session_cbn; rewrite ?E;
        (split; [reflexivity | apply Hno; discriminate]).
    + rewrite tick_sync_received by exact E.
      destruct (_ <=? _).
      2:{ session_cbn. rewrite E. split; [reflexivity |].
          split; [intros H; now contradiction H
                 | intros [_ H]; discriminate H]. }
      destruct (send_shape s env)
        as (ret & s1 & sent & -> & _ & _ & _ & _ & _ & Hcase).
      destruct Hcase as [(-> & -> & _) | (Hr & -> & _)].
      * cbn [Z.eqb]. session_cbn. split; [reflexivity |].
        split; [auto | discriminate].
      * destruct (Z.eqb_spec ret 0); [contradiction |]. session_cbn.
        split; [reflexivity |].
        split; [intros H; now contradiction H
               | intros [_ H]; discriminate H].
    + rewrite tick_delay_req_sent by exact E.
      destruct (_ <? _); session_cbn; rewrite ?E;
        (split; [reflexivity | apply Hno; discriminate]).
    + rewrite tick_synced by exact E.
      destruct (_ <? _); session_cbn; rewrite ?E;
        (split; [reflexivity | apply Hno; discriminate]).
    + rewrite tick_error by exact E.
      destruct (_ <? _); session_cbn; rewrite ?E;
        (split; [reflexivity | apply Hno; discriminate]).
Qed.
(** ** Invariants of a session *)

Lemma handle_sync_inv s header timestamp rx_tsc realtime_ns :
  session_inv s ->
  session_inv (ptp_handle_sync s header timestamp rx_tsc realtime_ns).
Proof.
  unfold session_inv, ptp_handle_sync. session_cbn.
  intros (H1 & H2 & H3 & H4 & H5).
  destruct (state s) eqn:E; cbn [ptp_state_eqb orb]; session_cbn;
    rewrite ?E; inv_parts.
Qed.

Lemma handle_delay_resp_inv hz s header timestamp now_tsc :
  session_inv s ->
  session_inv (ptp_handle_delay_resp hz s header timestamp now_tsc).
Proof.
  unfold session_inv, ptp_handle_delay_resp, ptp_calculate_offset_delay.
  intros (H1 & H2 & H3 & H4 & H5).
  destruct (negb _); [inv_parts |]. session_cbn.
  destruct (state s) eqn:E; cbn [ptp_state_eqb]; session_cbn;
    rewrite ?E;
    try destruct (ptp_timestamp_to_ns timestamp =? 0); session_cbn; inv_parts.
Qed.

Lemma sync_rx_count_inv a s :
  session_inv s -> session_inv (set_sync_rx_count a s).
Proof. intros H. unfold session_inv; session_cbn; exact H. Qed.

Lemma delay_resp_rx_count_inv a s :
  session_inv s -> session_inv (set_delay_resp_rx_count a s).
Proof. intros H. unfold session_inv; session_cbn; exact H. Qed.

Lemma packet_process_inv hz s m rx_tsc realtime_ns now_tsc :
  session_inv s ->
  session_inv (snd (ptp_packet_process hz s m rx_tsc realtime_ns now_tsc)).
Proof.
  intros H. unfold ptp_packet_process.
  destruct (negb (ptp_is_ptp_packet m)); [exact H |].
  destruct (_ <? 0); [exact H |].
  destruct (negb _); [exact H |].
  destruct (get_ptp_header m) as [o |]; [| exact H].
  destruct (_ =? PTP_MSG_SYNC).
  { cbn [snd]. apply sync_rx_count_inv, handle_sync_inv, H. }
  destruct (_ =? PTP_MSG_DELAY_RESP).
  { cbn [snd]. apply delay_resp_rx_count_inv, handle_delay_resp_inv, H. }
  destruct (_ =? PTP_MSG_FOLLOW_UP); [exact H |].
  destruct (_ =? PTP_MSG_ANNOUNCE); exact H.
Qed.

Lemma tick_inv hz s env current_tsc :
  session_inv s ->
  session_inv (fst (ptp_state_machine_tick hz s env current_tsc)).
Proof.
  intros (H1 & H2 & H3 & H4 & H5). unfold session_inv.
  destruct (state s) eqn:E.
  - rewrite tick_init by exact E. session_cbn.
    inv_parts.
  - rewrite tick_listening by exact E.
    destruct (_ && _); session_cbn; rewrite ?E;
      inv_parts.
  - rewrite tick_sync_received by exact E.
    destruct (_ <=? _).
    2:{ session_cbn. rewrite E. inv_parts. }
    destruct (send_shape s env)
      as (ret & s1 & sent & -> & Hst & Hsy & _ & _ & _ & Hcase).
    destruct Hcase as [(-> & _ & Hl & Hn & _) | (Hr & _ & ->)].
    + cbn [Z.eqb]. session_cbn. rewrite Hl, Hn.
      inv_parts. apply wrap16_range.
    + destruct (Z.eqb_spec ret 0); [contradiction |]. session_cbn.
      inv_parts.
  - rewrite tick_delay_req_sent by exact E.
    destruct (_ <? _); session_cbn; rewrite ?E;
      inv_parts.
  - rewrite tick_synced by exact E.
    destruct (_ <? _); session_cbn; rewrite ?E;
      inv_parts.
  - rewrite tick_error by exact E.
    destruct (_ <? _); session_cbn; rewrite ?E;
      inv_parts.
Qed.

Lemma session_step_inv hz s ev :
  session_inv s -> session_inv (fst (session_step hz s ev)).
Proof.
  destruct ev; cbn [session_step fst].
  - apply packet_process_inv.
  - apply tick_inv.
Qed.

Lemma session_run_inv hz evs : forall s,
  session_inv s -> session_inv (fst (session_run hz s evs)).
Proof.
  induction evs as [| ev evs IH]; intros s H; [exact H |].
  cbn [session_run].
  pose proof (session_step_inv hz s ev H) as H1.
  destruct (session_step hz s ev) as [s1 sent]. cbn [fst] in H1.
  specialize (IH s1 H1).
  destruct (session_run hz s1 evs) as [s2 rest]. exact IH.
Qed.

(** X13: Whatever frames arrive and whatever the transmit path answers, a
    session set up by [ptp_session_init] keeps these facts: in state
    SYNCED the flag [is_synced] is set; in state SYNC_RECEIVED the time of
    the last state change is the receive time T2 of the Sync; while a
    Delay_Resp is awaited and once synchronised, the next sequence id is
    one past the id the response is matched against; both ids stay 16-bit
    values. *)
Theorem session_invariant (hz rx_port tx_port idx rx_vlan tx_vlan tx_vl : Z)
    (evs : list ptp_event) :
  session_inv
    (fst (session_run hz
            (ptp_session_init hz rx_port tx_port idx rx_vlan tx_vlan tx_vl)
            evs)).
Proof.
  apply session_run_inv. unfold session_inv, ptp_session_init,
    ptp_init_port_identity. session_cbn.
  inv_parts; unfold is_u16; lia.
Qed.
(** ** Statistics do not steer the protocol *)

Lemma with_stats_same_protocol a b c d e f s :
  same_protocol s (with_stats a b c d e f s).
Proof. reflexivity. Qed.

Lemma handle_sync_stats a b c d e f s header timestamp rx_tsc realtime_ns :
  ptp_handle_sync (with_stats a b c d e f s) header timestamp rx_tsc
    realtime_ns
  = with_stats a b c d e f
      (ptp_handle_sync s header timestamp rx_tsc realtime_ns).
Proof.
  unfold ptp_handle_sync, with_stats. session_cbn.
  destruct (state s); reflexivity.
Qed.

Lemma handle_delay_resp_stats a b c d e f hz s header timestamp now_tsc :
  exists f',
    ptp_handle_delay_resp hz (with_stats a b c d e f s) header timestamp
      now_tsc
    = with_stats a b c d e f'
        (ptp_handle_delay_resp hz s header timestamp now_tsc).
Proof.
  unfold ptp_handle_delay_resp, ptp_calculate_offset_delay, with_stats.
  session_cbn.
  destruct (negb _); [exists f; reflexivity |].
  destruct (state s); cbn [ptp_state_eqb]; try (exists f; reflexivity).
  session_cbn. destruct (_ =? 0); eexists; reflexivity.
Qed.

Lemma set_sync_rx_count_stats v v' a b c d e f s :
  set_sync_rx_count v (with_stats a b c d e f s)
  = with_stats v b c d e f (set_sync_rx_count v' s).
Proof. reflexivity. Qed.

Lemma set_delay_resp_rx_count_stats v v' a b c d e f s :
  set_delay_resp_rx_count v (with_stats a b c d e f s)
  = with_stats a b v d e f (set_delay_resp_rx_count v' s).
Proof. reflexivity. Qed.

Lemma packet_process_stats a b c d e f hz s m rx_tsc realtime_ns now_tsc :
  exists a' c' f',
    ptp_packet_process hz (with_stats a b c d e f s) m rx_tsc realtime_ns
      now_tsc
    = (fst (ptp_packet_process hz s m rx_tsc realtime_ns now_tsc),
       with_stats a' b c' d e f'
         (snd (ptp_packet_process hz s m rx_tsc realtime_ns now_tsc))).
Proof.
  destruct (ptp_is_ptp_packet m) eqn:Hptp.
  2:{ rewrite !packet_process_not_ptp by exact Hptp.
      exists a, c, f. reflexivity. }
  destruct (packet_process_ptp hz s m rx_tsc realtime_ns now_tsc Hptp)
    as (o & Ho & ->).
  destruct (packet_process_ptp hz (with_stats a b c d e f s) m rx_tsc
              realtime_ns now_tsc Hptp) as (o' & Ho' & ->).
  rewrite Ho in Ho'. injection Ho' as <-.
  change (rx_vlan_id (with_stats a b c d e f s)) with (rx_vlan_id s).
  destruct (negb _); [exists a, c, f; reflexivity |].
  destruct (_ =? PTP_MSG_SYNC).
  { cbn zeta. rewrite handle_sync_stats. cbn [fst snd].
    generalize (ptp_handle_sync s (ptp_header_at (pkt m) o)
                  (ptp_timestamp_at (pkt m) (o + PTP_HEADER_LEN)) rx_tsc
                  realtime_ns).
    intros s1. exists (wrap64 (a + 1)), c, f.
    apply (f_equal (pair 0)).
    exact (set_sync_rx_count_stats (wrap64 (a + 1))
             (wrap64 (sync_rx_count s1 + 1)) a b c d e f s1). }
  destruct (_ =? PTP_MSG_DELAY_RESP).
  { cbn zeta.
    destruct (handle_delay_resp_stats a b c d e f hz s
                (ptp_header_at (pkt m) o)
                (ptp_timestamp_at (pkt m) (o + PTP_HEADER_LEN)) now_tsc)
      as [f' ->].
    cbn [fst snd].
    generalize (ptp_handle_delay_resp hz s (ptp_header_at (pkt m) o)
                  (ptp_timestamp_at (pkt m) (o + PTP_HEADER_LEN)) now_tsc).
    intros s1. exists a, (wrap64 (c + 1)), f'.
    apply (f_equal (pair 0)).
    exact (set_delay_resp_rx_count_stats (wrap64 (c + 1))
             (wrap64 (delay_resp_rx_count s1 + 1)) a b c d e f' s1). }
  destruct (_ =? PTP_MSG_FOLLOW_UP); [exists a, c, f; reflexivity |].
  destruct (_ =? PTP_MSG_ANNOUNCE); exists a, c, f; reflexivity.
Qed.

Lemma send_stats a b c d e f s env :
  ptp_send_delay_req (with_stats a b c d e f s) env
  = let r := ptp_send_delay_req s env in
    (fst (fst r),
     with_stats a (if fst (fst r) =? 0 then wrap64 (b + 1) else b) c d e f
       (snd (fst r)),
     snd r).
Proof.
  unfold ptp_send_delay_req.
  rewrite (delay_req_mbuf_ext (with_stats a b c d e f s) s)
    by reflexivity.
  generalize (delay_req_mbuf s). intros mb.
  destruct (tx_mbuf_pool env), (alloc_ok env), (append_ok env);
    try reflexivity.
  destruct (nb_tx env =? 1); reflexivity.
Qed.

Lemma tick_stats a b c d e f hz s env current_tsc :
  exists b' d' e',
    ptp_state_machine_tick hz (with_stats a b c d e f s) env current_tsc
    = (with_stats a b' c d' e' f
         (fst (ptp_state_machine_tick hz s env current_tsc)),
       snd (ptp_state_machine_tick hz s env current_tsc)).
Proof.
  assert (Est : state (with_stats a b c d e f s) = state s) by reflexivity.
  destruct (state s) eqn:E.
  - rewrite (tick_init hz s) by exact E.
    rewrite (tick_init hz (with_stats a b c d e f s)) by exact Est.
    exists b, d, e. reflexivity.
  - rewrite (tick_listening hz s) by exact E.
    rewrite (tick_listening hz (with_stats a b c d e f s)) by exact Est.
    change (last_sync_tsc (with_stats a b c d e f s)) with (last_sync_tsc s).
    destruct (_ && _).
    + exists b, (wrap64 (d + 1)), e. reflexivity.
    + exists b, d, e. reflexivity.
  - rewrite (tick_sync_received hz s) by exact E.
    rewrite (tick_sync_received hz (with_stats a b c d e f s)) by exact Est.
    change (last_state_change (with_stats a b c d e f s))
      with (last_state_change s).
    destruct (_ <=? _); [| exists b, d, e; reflexivity].
    rewrite send_stats.
    destruct (ptp_send_delay_req s env) as [[ret s1] sent]. cbn [fst snd].
    destruct (ret =? 0).
    + exists (wrap64 (b + 1)), d, e. reflexivity.
    + exists b, d, (wrap64 (e + 1)). reflexivity.
  - rewrite (tick_delay_req_sent hz s) by exact E.
    rewrite (tick_delay_req_sent hz (with_stats a b c d e f s)) by exact Est.
    change (last_state_change (with_stats a b c d e f s))
      with (last_state_change s).
    destruct (_ <? _).
    + exists b, (wrap64 (d + 1)), e. reflexivity.
    + exists b, d, e. reflexivity.
  - rewrite (tick_synced hz s) by exact E.
    rewrite (tick_synced hz (with_stats a b c d e f s)) by exact Est.
    change (last_sync_tsc (with_stats a b c d e f s)) with (last_sync_tsc s).
    destruct (_ <? _).
    + exists b, (wrap64 (d + 1)), e. reflexivity.
    + exists b, d, e. reflexivity.
  - rewrite (tick_error hz s) by exact E.
    rewrite (tick_error hz (with_stats a b c d e f s)) by exact Est.
    change (last_state_change (with_stats a b c d e f s))
      with (last_state_change s).
    destruct (_ <? _); exists b, d, e; reflexivity.
Qed.

Lemma session_step_stats a b c d e f hz s ev :
  exists a' b' c' d' e' f',
    session_step hz (with_stats a b c d e f s) ev
    = (with_stats a' b' c' d' e' f' (fst (session_step hz s ev)),
       snd (session_step hz s ev)).
Proof.
  destruct ev as [m rx_tsc realtime_ns now_tsc | env current_tsc];
    cbn [session_step].
  - destruct (packet_process_stats a b c d e f hz s m rx_tsc realtime_ns
                now_tsc) as (a' & c' & f' & ->).
    exists a', b, c', d, e, f'. reflexivity.
  - destruct (tick_stats a b c d e f hz s env current_tsc)
      as (b' & d' & e' & ->).
    exists a, b', c, d', e', f. reflexivity.
Qed.

Lemma session_run_stats hz evs : forall a b c d e f s,
  exists a' b' c' d' e' f',
    session_run hz (with_stats a b c d e f s) evs
    = (with_stats a' b' c' d' e' f' (fst (session_run hz s evs)),
       snd (session_run hz s evs)).
Proof.
  induction evs as [| ev evs IH]; intros a b c d e f s.
  - exists a, b, c, d, e, f. reflexivity.
  - cbn [session_run].
    destruct (session_step_stats a b c d e f hz s ev)
      as (a1 & b1 & c1 & d1 & e1 & f1 & ->).
    destruct (session_step hz s ev) as [s1 sent]. cbn [fst snd].
    destruct (IH a1 b1 c1 d1 e1 f1 s1)
      as (a2 & b2 & c2 & d2 & e2 & f2 & ->).
    destruct (session_run hz s1 evs) as [s2 rest]. cbn [fst snd].
    exists a2, b2, c2, d2, e2, f2. reflexivity.
Qed.

Lemma session_run_app hz evs1 : forall s evs2,
  session_run hz s (evs1 ++ evs2)
  = let r1 := session_run hz s evs1 in
    let r2 := session_run hz (fst r1) evs2 in
    (fst r2, snd r1 ++ snd r2).
Proof.
  induction evs1 as [| ev evs1 IH]; intros s evs2.
  - cbn. destruct (session_run hz s evs2); reflexivity.
  - cbn [session_run app].
    destruct (session_step hz s ev) as [s1 sent].
    rewrite IH. cbn zeta.
    destruct (session_run hz s1 evs1) as [s2 rest1]. cbn [fst snd].
    destruct (session_run hz s2 evs2) as [s3 rest2]. cbn [fst snd].
    destruct sent; reflexivity.
Qed.

(** X14: ptp_session_reset_stats may be called at any point of a run without
    changing what the session does: the Delay_Req frames sent are the
    same, frame for frame, and the session at the end differs from the
    one of the undisturbed run in the six statistics counters at most. *)
Theorem reset_stats_keeps_protocol (hz : Z) (s : ptp_session_t)
    (before after : list ptp_event) :
  let r1 := session_run hz s before in
  let r2 := session_run hz (ptp_session_reset_stats (fst r1)) after in
  let r := session_run hz s (before ++ after) in
  snd r = snd r1 ++ snd r2 /\ same_protocol (fst r) (fst r2).
Proof.
  cbn zeta. rewrite session_run_app. cbn zeta. cbn [fst snd].
  generalize (fst (session_run hz s before)). intros s1.
  destruct (session_run_stats hz after 0 0 0 0 0 0 s1)
    as (a & b & c & d & e & f & H).
  change (with_stats 0 0 0 0 0 0 s1) with (ptp_session_reset_stats s1) in H.
  rewrite H. cbn [fst snd]. split; [reflexivity |].
  apply with_stats_same_protocol.
Qed.
(** ** What a run leaves alone, and what it counts *)

Lemma handle_sync_config s header timestamp rx_tsc realtime_ns :
  let s' := ptp_handle_sync s header timestamp rx_tsc realtime_ns in
  session_config s' = session_config s /\
  delay_req_tx_count s' = delay_req_tx_count s.
Proof.
  unfold ptp_handle_sync, session_config. session_cbn.
  destruct (state s); split; reflexivity.
Qed.

Lemma handle_delay_resp_config hz s header timestamp now_tsc :
  let s' := ptp_handle_delay_resp hz s header timestamp now_tsc in
  session_config s' = session_config s /\
  delay_req_tx_count s' = delay_req_tx_count s.
Proof.
  unfold ptp_handle_delay_resp, ptp_calculate_offset_delay, session_config.
  destruct (negb _); [split; reflexivity |]. session_cbn.
  destruct (state s); cbn [ptp_state_eqb]; try (split; reflexivity).
  destruct (_ =? 0); split; reflexivity.
Qed.

Lemma packet_process_config hz s m rx_tsc realtime_ns now_tsc :
  let s' := snd (ptp_packet_process hz s m rx_tsc realtime_ns now_tsc) in
  session_config s' = session_config s /\
  delay_req_tx_count s' = delay_req_tx_count s.
Proof.
  destruct (ptp_is_ptp_packet m) eqn:Hptp.
  2:{ rewrite packet_process_not_ptp by exact Hptp. split; reflexivity. }
  destruct (packet_process_ptp hz s m rx_tsc realtime_ns now_tsc Hptp)
    as (o & _ & ->).
  destruct (negb _); [split; reflexivity |].
  destruct (_ =? PTP_MSG_SYNC).
  { destruct (handle_sync_config s (ptp_header_at (pkt m) o)
                (ptp_timestamp_at (pkt m) (o + PTP_HEADER_LEN)) rx_tsc
                realtime_ns) as [H1 H2].
    cbn zeta in *. cbn [snd]. revert H1 H2.
    generalize (ptp_handle_sync s (ptp_header_at (pkt m) o)
                  (ptp_timestamp_at (pkt m) (o + PTP_HEADER_LEN)) rx_tsc
                  realtime_ns).
    intros s1 H1 H2. split; [rewrite <- H1 | rewrite <- H2]; reflexivity. }
  destruct (_ =? PTP_MSG_DELAY_RESP).
  { destruct (handle_delay_resp_config hz s (ptp_header_at (pkt m) o)
                (ptp_timestamp_at (pkt m) (o + PTP_HEADER_LEN)) now_tsc)
      as [H1 H2].
    cbn zeta in *. cbn [snd]. revert H1 H2.
    generalize (ptp_handle_delay_resp hz s (ptp_header_at (pkt m) o)
                  (ptp_timestamp_at (pkt m) (o + PTP_HEADER_LEN)) now_tsc).
    intros s1 H1 H2. split; [rewrite <- H1 | rewrite <- H2]; reflexivity. }
  destruct (_ =? PTP_MSG_FOLLOW_UP); [split; reflexivity |].
  destruct (_ =? PTP_MSG_ANNOUNCE); split; reflexivity.
Qed.

Lemma send_config s env :
  session_config (snd (fst (ptp_send_delay_req s env))) = session_config s.
Proof.
  unfold ptp_send_delay_req.
  destruct (tx_mbuf_pool env), (alloc_ok env), (append_ok env);
    try reflexivity.
  destruct (nb_tx env =? 1); reflexivity.
Qed.

(** A tick keeps the configuration; a buffer it sends is the Delay_Req of
    the session, and the transmit counter moves exactly then. *)
Lemma tick_config hz s env current_tsc :
  let r := ptp_state_machine_tick hz s env current_tsc in
  session_config (fst r) = session_config s /\
  match snd r with
  | Some b =>
      b = delay_req_mbuf s /\
      delay_req_tx_count (fst r) = wrap64 (delay_req_tx_count s + 1)
  | None => delay_req_tx_count (fst r) = delay_req_tx_count s
  end.
Proof.
  destruct (state s) eqn:E.
  - rewrite tick_init by exact E. split; reflexivity.
  - rewrite tick_listening by exact E.
    destruct (_ && _); split; reflexivity.
  - rewrite tick_sync_received by exact E.
    destruct (_ <=? _); [| split; reflexivity].
    pose proof (send_config s env) as Hc.
    destruct (send_shape s env)
      as (ret & s1 & sent & Hs & _ & _ & _ & _ & _ & Hcase).
    rewrite Hs in Hc |- *. cbn [fst snd] in Hc.
    destruct Hcase as [(-> & -> & _ & _ & Hn) | (Hr & -> & ->)].
    + cbn [Z.eqb fst snd]. split; [exact Hc |]. split; [reflexivity |].
      exact Hn.
    + destruct (Z.eqb_spec ret 0); [contradiction |]. split; reflexivity.
  - rewrite tick_delay_req_sent by exact E.
    destruct (_ <? _); split; reflexivity.
  - rewrite tick_synced by exact E.
    destruct (_ <? _); split; reflexivity.
  - rewrite tick_error by exact E.
    destruct (_ <? _); split; reflexivity.
Qed.

Lemma session_step_config hz s ev :
  let r := session_step hz s ev in
  session_config (fst r) = session_config s /\
  match snd r with
  | Some b =>
      b = delay_req_mbuf s /\
      delay_req_tx_count (fst r) = wrap64 (delay_req_tx_count s + 1)
  | None => delay_req_tx_count (fst r) = delay_req_tx_count s
  end.
Proof.
  destruct ev as [m rx_tsc realtime_ns now_tsc | env current_tsc];
    cbn [session_step].
  - exact (packet_process_config hz s m rx_tsc realtime_ns now_tsc).
  - exact (tick_config hz s env current_tsc).
Qed.

Lemma session_config_tx_vlan a b :
  session_config a = session_config b -> tx_vlan_id a = tx_vlan_id b.
Proof. unfold session_config. intros H. injection H as. assumption. Qed.

(** X15: Nothing that happens to a session changes what it was configured
    with: ports, VLANs, VL-IDX, session index and port identity are at the
    end of any run what they were at its start, and every Delay_Req sent on
    the way asks for VLAN insertion with the session's TX VLAN and an L2
    length of 18. *)
Theorem run_keeps_configuration (hz : Z) (evs : list ptp_event) :
  forall s : ptp_session_t,
  let r := session_run hz s evs in
  session_config (fst r) = session_config s /\
  Forall (fun b => vlan_tci b = tx_vlan_id s /\ tx_vlan_offload b = true
                   /\ l2_len b = 18) (snd r).
Proof.
  induction evs as [| ev evs IH]; intros s; cbn zeta.
  - split; [reflexivity | constructor].
  - cbn [session_run].
    destruct (session_step_config hz s ev) as [Hc Hs].
    destruct (session_step hz s ev) as [s1 sent]. cbn [fst snd] in Hc, Hs.
    specialize (IH s1). cbn zeta in IH.
    destruct (session_run hz s1 evs) as [s2 rest]. cbn [fst snd] in *.
    destruct IH as [Hc2 Hall].
    rewrite (session_config_tx_vlan _ _ Hc) in Hall.
    split; [congruence |].
    destruct sent as [b |]; [| exact Hall].
    destruct Hs as [-> _]. constructor; [| exact Hall].
    repeat split.
Qed.

(** X16: delay_req_tx_count counts the frames handed to the NIC and nothing
    else: after any run it is its value at the start plus the number of
    Delay_Req frames sent, modulo 2^64. *)
Theorem tx_count_is_frames_sent (hz : Z) (evs : list ptp_event) :
  forall s : ptp_session_t,
  is_u64 (delay_req_tx_count s) ->
  let r := session_run hz s evs in
  delay_req_tx_count (fst r)
  = wrap64 (delay_req_tx_count s + Z.of_nat (length (snd r))).
Proof.
  induction evs as [| ev evs IH]; intros s Hs; cbn zeta.
  - cbn. rewrite Z.add_0_r. unfold wrap64. symmetry.
    apply Z.mod_small, Hs.
  - cbn [session_run].
    destruct (session_step_config hz s ev) as [_ Hstep].
    destruct (session_step hz s ev) as [s1 sent]. cbn [fst snd] in Hstep.
    assert (H1 : is_u64 (delay_req_tx_count s1)).
    { destruct sent as [b |].
      - destruct Hstep as [_ ->]. apply Z.mod_pos_bound. lia.
      - rewrite Hstep. exact Hs. }
    specialize (IH s1 H1). cbn zeta in IH.
    destruct (session_run hz s1 evs) as [s2 rest]. cbn [fst snd] in *.
    rewrite IH. destruct sent as [b |].
    + destruct Hstep as [_ ->]. cbn [length]. unfold wrap64.
      rewrite Zplus_mod_idemp_l. f_equal. lia.
    + rewrite Hstep. reflexivity.
Qed.

Lemma tx_count_is_frames_sent_witness :
  let r := session_run hz_1GHz session_fresh (two_cycle_events 0) in
  delay_req_tx_count (fst r) = wrap64 (0 + Z.of_nat (length (snd r))).
Proof.
  apply (tx_count_is_frames_sent hz_1GHz (two_cycle_events 0) session_fresh).
  vm_compute. split; [discriminate | reflexivity].
Defined.

(** ** Timeouts while listening *)

Lemma listening_ticks hz ts : forall s,
  state s = PTP_STATE_LISTENING ->
  0 < last_sync_tsc s ->
  Forall (fun t => sync_timeout_cycles hz
                   < wrap64 (snd t - last_sync_tsc s)) ts ->
  session_run hz s (ticks ts)
  = (set_sync_timeout_count
       (wrap64 (sync_timeout_count s + Z.of_nat (length ts))) s, []) \/
  (ts = [] /\ session_run hz s (ticks ts) = (s, [])).
Proof.
  induction ts as [| [env t] ts IH]; intros s Hst Hls Hall.
  - right. split; reflexivity.
  - left. change (ticks ((env, t) :: ts)) with (EvTick env t :: ticks ts).
    cbn [session_run session_step].
    rewrite tick_listening by exact Hst.
    inversion Hall as [| x l Ht Hrest]; subst. cbn [snd] in Ht.
    destruct (Z.ltb_spec 0 (last_sync_tsc s)); [| lia].
    destruct (Z.ltb_spec (sync_timeout_cycles hz)
                (wrap64 (t - last_sync_tsc s))); [| lia].
    cbn [andb].
    set (s1 := set_sync_timeout_count (wrap64 (sync_timeout_count s + 1)) s).
    destruct (IH s1 Hst Hls Hrest) as [E | [-> E]]; rewrite E.
    + f_equal. subst s1. unfold set_sync_timeout_count. session_cbn.
      f_equal. cbn [length]. unfold wrap64.
      rewrite Zplus_mod_idemp_l. f_equal. lia.
    + reflexivity.
Qed.

(** X17: While a session is in LISTENING and has seen a Sync before, every
    tick that finds the last Sync older than the sync timeout adds one to
    sync_timeout_count and changes nothing else: the state stays LISTENING
    and the time of the last Sync stays, so n such ticks count n timeouts
    and send nothing. *)
Theorem listening_counts_every_late_tick (hz : Z) (s : ptp_session_t)
    (ts : list (tx_env * Z)) :
  state s = PTP_STATE_LISTENING ->
  0 < last_sync_tsc s ->
  Forall (fun t => sync_timeout_cycles hz
                   < wrap64 (snd t - last_sync_tsc s)) ts ->
  is_u64 (sync_timeout_count s) ->
  session_run hz s (ticks ts)
  = (set_sync_timeout_count
       (wrap64 (sync_timeout_count s + Z.of_nat (length ts))) s, []).
Proof.
  intros Hst Hls Hall Hc.
  destruct (listening_ticks hz ts s Hst Hls Hall) as [E | [-> E]];
    [exact E |].
  rewrite E. cbn [length Z.of_nat]. rewrite Z.add_0_r.
  unfold wrap64. rewrite Z.mod_small by exact Hc.
  destruct s; reflexivity.
Qed.

Lemma listening_counts_every_late_tick_witness :
  let s := set_last_sync_tsc 5 (set_state PTP_STATE_LISTENING session_zero) in
  let ts := [(tx_ok 0 0, 4000000000); (tx_ok 0 0, 5000000000)] in
  sync_timeout_count (fst (session_run hz_1GHz s (ticks ts))) = 2 /\
  state (fst (session_run hz_1GHz s (ticks ts))) = PTP_STATE_LISTENING.
Proof.
  cbn zeta.
  rewrite (listening_counts_every_late_tick hz_1GHz
             (set_last_sync_tsc 5
                (set_state PTP_STATE_LISTENING session_zero))
             [(tx_ok 0 0, 4000000000); (tx_ok 0 0, 5000000000)]).
  - split; reflexivity.
  - reflexivity.
  - reflexivity.
  - repeat constructor.
  - split; [discriminate | reflexivity].
Defined.
(** ** The worker: routing by VLAN ([ptp_worker.c]) *)

Lemma find_session_from_spec vlan ss : forall i n,
  match Worker.find_session_from ss i n vlan with
  | Some k =>
      exists j s, k = (i + j)%nat /\ (j < n)%nat /\ ss !! j = Some s /\
        rx_vlan_id s = vlan /\
        forall j' s', (j' < j)%nat -> ss !! j' = Some s' ->
                      rx_vlan_id s' <> vlan
  | None =>
      forall j s, (j < n)%nat -> ss !! j = Some s -> rx_vlan_id s <> vlan
  end.
Proof.
  induction ss as [| s0 ss IH]; intros i n.
  - destruct n; cbn; intros j s _ H; discriminate H.
  - destruct n as [| n]; cbn [Worker.find_session_from].
    + intros j s H. lia.
    + destruct (Z.eqb_spec (rx_vlan_id s0) vlan) as [E | NE].
      * exists 0%nat, s0. repeat split; try lia; try assumption.
      * specialize (IH (S i) n).
        destruct (Worker.find_session_from ss (S i) n vlan) as [k |].
        -- destruct IH as (j & s & -> & Hj & Hs & Hv & Hfirst).
           exists (S j), s. repeat split; try lia; try assumption.
           intros [| j'] s' Hlt Hs'.
           ++ cbn in Hs'. injection Hs' as <-. exact NE.
           ++ apply (Hfirst j' s'); [lia | exact Hs'].
        -- intros [| j] s Hlt Hs.
           ++ cbn in Hs. injection Hs as <-. exact NE.
           ++ apply (IH j s); [lia | exact Hs].
Qed.

Lemma find_by_vlan_spec (port : Worker.ptp_port_t) (vlan : Z) :
  match Worker.find_session_by_vlan port vlan with
  | Some k =>
      (k < Z.to_nat (Worker.session_count port))%nat /\
      exists s, Worker.sessions port !! k = Some s /\ rx_vlan_id s = vlan /\
        forall j s', (j < k)%nat -> Worker.sessions port !! j = Some s' ->
                     rx_vlan_id s' <> vlan
  | None =>
      forall j s, (j < Z.to_nat (Worker.session_count port))%nat ->
                  Worker.sessions port !! j = Some s -> rx_vlan_id s <> vlan
  end.
Proof.
  unfold Worker.find_session_by_vlan.
  pose proof (find_session_from_spec vlan (Worker.sessions port) 0
                (Z.to_nat (Worker.session_count port))) as H.
  destruct (Worker.find_session_from _ _ _ _) as [k |]; [| exact H].
  destruct H as (j & s & -> & Hj & Hs & Hv & Hfirst).
  split; [exact Hj |]. exists s. auto.
Qed.

(** X18: find_session_by_vlan returns the first of the sessions in use whose RX
    VLAN is the one asked for: a slot at or beyond session_count is never
    returned, a later session with the same RX VLAN is never reached, and
    the answer is "none" exactly when no session in use has that VLAN. *)
Theorem find_session_first_match (port : Worker.ptp_port_t) (vlan : Z) :
  match Worker.find_session_by_vlan port vlan with
  | Some k =>
      (k < Z.to_nat (Worker.session_count port))%nat /\
      exists s, Worker.sessions port !! k = Some s /\ rx_vlan_id s = vlan /\
        forall j s', (j < k)%nat -> Worker.sessions port !! j = Some s' ->
                     rx_vlan_id s' <> vlan
  | None =>
      forall j s, (j < Z.to_nat (Worker.session_count port))%nat ->
                  Worker.sessions port !! j = Some s -> rx_vlan_id s <> vlan
  end.
Proof. exact (find_by_vlan_spec port vlan). Qed.

Lemma find_session_from_ext vlan ss : forall ss' i n,
  map rx_vlan_id ss = map rx_vlan_id ss' ->
  Worker.find_session_from ss i n vlan
  = Worker.find_session_from ss' i n vlan.
Proof.
  induction ss as [| s ss IH]; intros [| s' ss'] i n H;
    try discriminate H; [reflexivity |].
  cbn [map] in H. injection H as Hv Hrest.
  destruct n as [| n]; [reflexivity |]. cbn [Worker.find_session_from].
  rewrite Hv. destruct (_ =? _); [reflexivity |]. apply IH, Hrest.
Qed.

Lemma map_insert_same {A B} (g : A -> B) (l : list A) i x y :
  l !! i = Some x -> g y = g x -> map g (<[i := y]> l) = map g l.
Proof.
  revert i. induction l as [| a l IH]; intros [| i] H E; try discriminate H.
  - cbn in H. injection H as ->. cbn. rewrite E. reflexivity.
  - cbn. f_equal. apply IH; assumption.
Qed.

(** What the receive loop does with one frame. *)
Lemma worker_rx_cases hz port f :
  let r := Worker.worker_rx hz port f in
  (forall i g, Worker.routed_to (fst r) i g = Worker.routed_to port i g) /\
  Worker.session_count (fst r) = Worker.session_count port /\
  map rx_vlan_id (Worker.sessions (fst r))
  = map rx_vlan_id (Worker.sessions port) /\
  forall i s, Worker.sessions port !! i = Some s ->
    Worker.sessions (fst r) !! i
    = Some (if Worker.routed_to port i f
            then fst (session_step hz s (Worker.rx_event f)) else s).
Proof.
  cbn zeta.
  assert (Hext : forall p', Worker.session_count p' = Worker.session_count port ->
            map rx_vlan_id (Worker.sessions p')
            = map rx_vlan_id (Worker.sessions port) ->
            forall i g, Worker.routed_to p' i g = Worker.routed_to port i g).
  { intros p' Hc Hm i g.
    unfold Worker.routed_to, Worker.find_session_by_vlan.
    rewrite Hc, (find_session_from_ext _ _ _ _ _ Hm). reflexivity. }
  unfold Worker.worker_rx, Worker.routed_to.
  destruct (ptp_is_ptp_packet (Worker.rx_mbuf f)) eqn:Hptp; cbn [negb andb].
  2:{ repeat split; auto. }
  pose proof (find_by_vlan_spec port
                (ptp_get_vlan_id (Worker.rx_mbuf f))) as Hfind.
  destruct (Worker.find_session_by_vlan port _) as [k |].
  2:{ cbn [fst]. repeat split; auto. }
  destruct Hfind as (_ & sk & Hk & _ & _). rewrite Hk. cbn [fst].
  destruct (packet_process_config hz sk (Worker.rx_mbuf f) (Worker.rx_tsc f)
              (Worker.rx_realtime_ns f) (Worker.rx_now_tsc f)) as [Hcfg _].
  cbn zeta in Hcfg.
  assert (Hv : rx_vlan_id
                 (snd (ptp_packet_process hz sk (Worker.rx_mbuf f)
                         (Worker.rx_tsc f) (Worker.rx_realtime_ns f)
                         (Worker.rx_now_tsc f))) = rx_vlan_id sk).
  { unfold session_config in Hcfg. injection Hcfg as. assumption. }
  assert (Hm : map rx_vlan_id
                 (<[k := snd (ptp_packet_process hz sk (Worker.rx_mbuf f)
                                (Worker.rx_tsc f) (Worker.rx_realtime_ns f)
                                (Worker.rx_now_tsc f))]>
                    (Worker.sessions port))
               = map rx_vlan_id (Worker.sessions port)).
  { apply (map_insert_same rx_vlan_id _ k sk); assumption. }
  split; [apply Hext; [reflexivity | exact Hm] |].
  split; [reflexivity |]. split; [exact Hm |].
  intros i s Hi. cbn [Worker.sessions Worker.set_sessions].
  destruct (Nat.eqb_spec k i) as [-> | NE].
  - rewrite list_lookup_insert_eq by (eapply lookup_lt_Some; exact Hi).
    rewrite Hk in Hi. injection Hi as <-. reflexivity.
  - rewrite list_lookup_insert_ne by exact NE. exact Hi.
Qed.

Lemma session_run_cons_fst hz s ev evs :
  fst (session_run hz s (ev :: evs))
  = fst (session_run hz (fst (session_step hz s ev)) evs).
Proof.
  cbn [session_run]. destruct (session_step hz s ev) as [s1 sent].
  cbn [fst]. destruct (session_run hz s1 evs). reflexivity.
Qed.

Lemma worker_burst_rx_sessions (hz : Z) (fs : list Worker.rx_frame) :
  forall (port : Worker.ptp_port_t) (i : nat) (s : ptp_session_t),
  Worker.sessions port !! i = Some s ->
  let port' := fst (Worker.worker_rx_burst hz port fs) in
  Worker.session_count port' = Worker.session_count port /\
  Worker.sessions port' !! i
  = Some (fst (session_run hz s
                 (map Worker.rx_event
                    (List.filter (Worker.routed_to port i) fs)))).
Proof.
  induction fs as [| f fs IH]; intros port i s Hs; cbn zeta.
  - split; [reflexivity | exact Hs].
  - cbn [Worker.worker_rx_burst].
    destruct (worker_rx_cases hz port f) as (Hr & Hc & _ & Hstep).
    destruct (Worker.worker_rx hz port f) as [p1 st]. cbn [fst] in *.
    specialize (Hstep i s Hs).
    destruct (IH p1 i _ Hstep) as [Hc' Hi].
    destruct (Worker.worker_rx_burst hz p1 fs) as [p2 sts]. cbn [fst] in *.
    split; [congruence |]. rewrite Hi.
    rewrite (List.filter_ext _ _ (Hr i)). cbn [List.filter].
    destruct (Worker.routed_to port i f); [| reflexivity].
    cbn [map]. rewrite session_run_cons_fst. reflexivity.
Qed.

(** X19: The receive loop of the worker treats the sessions of a port
    independently: after a burst, each session is what it would be had it
    alone received, in order, the PTP frames whose VLAN id selects it, and
    the number of sessions is unchanged.  Frames that are not PTP, or whose
    VLAN selects no session, change nothing. *)
Theorem worker_burst_is_per_session (hz : Z) (fs : list Worker.rx_frame) :
  forall (port : Worker.ptp_port_t) (i : nat) (s : ptp_session_t),
  Worker.sessions port !! i = Some s ->
  let port' := fst (Worker.worker_rx_burst hz port fs) in
  Worker.session_count port' = Worker.session_count port /\
  Worker.sessions port' !! i
  = Some (fst (session_run hz s
                 (map Worker.rx_event
                    (List.filter (Worker.routed_to port i) fs)))).
Proof. exact (worker_burst_rx_sessions hz fs). Qed.

Lemma worker_burst_is_per_session_witness :
  let s := ptp_session_init hz_1GHz 2 3 0 225 97 4420 in
  let port :=
    Worker.Build_ptp_port_t 2 1 [s; session_zero; session_zero; session_zero]
      true true 0 in
  let fs :=
    [Worker.Build_rx_frame (ptp_rx_frame 225 PTP_MSG_SYNC 7 1000 0) 10 20 30;
     Worker.Build_rx_frame (ptp_rx_frame 226 PTP_MSG_SYNC 8 1000 0) 11 21 31]
  in
  Worker.sessions (fst (Worker.worker_rx_burst hz_1GHz port fs)) !! 0%nat
  = Some (fst (session_run hz_1GHz s
                 [EvRx (ptp_rx_frame 225 PTP_MSG_SYNC 7 1000 0) 10 20 30])).
Proof.
  cbn zeta.
  apply (worker_burst_is_per_session hz_1GHz
           [Worker.Build_rx_frame (ptp_rx_frame 225 PTP_MSG_SYNC 7 1000 0)
              10 20 30;
            Worker.Build_rx_frame (ptp_rx_frame 226 PTP_MSG_SYNC 8 1000 0)
              11 21 31]
           (Worker.Build_ptp_port_t 2 1
              [ptp_session_init hz_1GHz 2 3 0 225 97 4420; session_zero;
               session_zero; session_zero] true true 0)
           0%nat (ptp_session_init hz_1GHz 2 3 0 225 97 4420)).
  reflexivity.
Defined.

(** X20: Inside the worker, ptp_packet_process never reports "not PTP" (-1)
    or "wrong VLAN" (-2): the loop has checked the first and chosen the
    session by the second.  A frame for which it is not called leaves the
    port as it was. *)
Theorem worker_rx_status (hz : Z) (port : Worker.ptp_port_t)
    (f : Worker.rx_frame) :
  let r := Worker.worker_rx hz port f in
  (snd r = Some 0 \/ snd r = Some (-4) \/ snd r = None) /\
  (snd r = None -> fst r = port).
Proof.
  cbn zeta. unfold Worker.worker_rx.
  destruct (ptp_is_ptp_packet (Worker.rx_mbuf f)) eqn:Hptp; cbn [negb].
  2:{ split; auto. }
  pose proof (find_by_vlan_spec port
                (ptp_get_vlan_id (Worker.rx_mbuf f))) as Hfind.
  destruct (Worker.find_session_by_vlan port _) as [k |].
  2:{ split; auto. }
  destruct Hfind as (_ & sk & Hk & Hv & _). rewrite Hk. cbn [fst snd].
  destruct (packet_process_ptp hz sk (Worker.rx_mbuf f) (Worker.rx_tsc f)
              (Worker.rx_realtime_ns f) (Worker.rx_now_tsc f) Hptp)
    as (o & _ & ->).
  rewrite Hv, Z.eqb_refl. cbn [negb].
  split; [| intros H; revert H;
            repeat (destruct (_ =? _)); cbn [fst]; discriminate].
  repeat (destruct (_ =? _)); cbn [fst]; auto.
Qed.
(** ** The worker: one iteration of the loop *)

Lemma worker_rx_burst_pool hz fs : forall port,
  Worker.tx_mbuf_pool (fst (Worker.worker_rx_burst hz port fs))
  = Worker.tx_mbuf_pool port /\
  length (Worker.sessions (fst (Worker.worker_rx_burst hz port fs)))
  = length (Worker.sessions port).
Proof.
  induction fs as [| f fs IH]; intros port; [split; reflexivity |].
  cbn [Worker.worker_rx_burst].
  assert (H1 : Worker.tx_mbuf_pool (fst (Worker.worker_rx hz port f))
               = Worker.tx_mbuf_pool port /\
               length (Worker.sessions (fst (Worker.worker_rx hz port f)))
               = length (Worker.sessions port)).
  { unfold Worker.worker_rx.
    destruct (negb _); [split; reflexivity |].
    destruct (Worker.find_session_by_vlan port _) as [k |];
      [| split; reflexivity].
    destruct (Worker.sessions port !! k); [| split; reflexivity].
    cbn [fst Worker.tx_mbuf_pool Worker.sessions Worker.set_sessions].
    split; [reflexivity | apply length_insert]. }
  destruct (Worker.worker_rx hz port f) as [p1 st]. cbn [fst] in H1.
  specialize (IH p1).
  destruct (Worker.worker_rx_burst hz p1 fs) as [p2 sts]. cbn [fst] in *.
  destruct H1 as [E1 E2], IH as [E3 E4]. split; congruence.
Qed.

Lemma worker_tick_from_spec hz envs t n : forall i port,
  (i + n <= length (Worker.sessions port))%nat ->
  forall j s, Worker.sessions port !! j = Some s ->
    Worker.sessions (fst (Worker.worker_tick_from hz port envs t i n)) !! j
    = Some (if (i <=? j)%nat && (j <? i + n)%nat
            then fst (ptp_state_machine_tick hz s
                        (Worker.port_env port (envs j)) t)
            else s).
Proof.
  induction n as [| n IH]; intros i port Hlen j s Hj.
  - cbn [Worker.worker_tick_from fst]. rewrite Hj.
    destruct (Nat.leb_spec i j), (Nat.ltb_spec j (i + 0)); cbn [andb];
      try reflexivity; lia.
  - cbn [Worker.worker_tick_from].
    destruct (Worker.sessions port !! i) as [si |] eqn:Hi.
    2:{ apply lookup_ge_None in Hi. lia. }
    destruct (ptp_state_machine_tick hz si (Worker.port_env port (envs i)) t)
      as [si' sent] eqn:Htick.
    set (p1 := Worker.set_sessions (<[i := si']> (Worker.sessions port)) port).
    assert (Hlen1 : (S i + n <= length (Worker.sessions p1))%nat).
    { subst p1. cbn [Worker.sessions Worker.set_sessions].
      rewrite length_insert. lia. }
    assert (Hj1 : Worker.sessions p1 !! j
                  = Some (if Nat.eqb i j then si' else s)).
    { subst p1. cbn [Worker.sessions Worker.set_sessions].
      destruct (Nat.eqb_spec i j) as [-> | NE].
      - apply list_lookup_insert_eq. eapply lookup_lt_Some; exact Hj.
      - rewrite list_lookup_insert_ne by exact NE. exact Hj. }
    specialize (IH (S i) p1 Hlen1 j _ Hj1).
    destruct (Worker.worker_tick_from hz p1 envs t (S i) n) as [p2 rest].
    cbn [fst] in *. rewrite IH.
    change (Worker.port_env p1 (envs j)) with (Worker.port_env port (envs j)).
    f_equal.
    destruct (Nat.eqb_spec i j) as [-> | NE].
    + rewrite Hi in Hj. injection Hj as <-. rewrite Htick. cbn [fst].
      destruct (Nat.leb_spec (S j) j); [lia |].
      destruct (Nat.leb_spec j j); [| lia].
      destruct (Nat.ltb_spec j (j + S n)); [| lia]. reflexivity.
    + destruct (Nat.leb_spec (S i) j), (Nat.leb_spec i j),
        (Nat.ltb_spec j (S i + n)), (Nat.ltb_spec j (i + S n));
        cbn [andb]; try reflexivity; lia.
Qed.

(** X21: One iteration of the worker loop is, for each session in use, a run of
    that session alone: the PTP frames of the burst that its RX VLAN
    selects, in order, and then one tick with the clock value read at the
    top of the iteration and the port's transmit pool. *)
Theorem worker_iteration_is_session_run (hz : Z) (port : Worker.ptp_port_t)
    (fs : list Worker.rx_frame) (envs : nat -> tx_env) (current_tsc : Z)
    (i : nat) (s : ptp_session_t) :
  (Z.to_nat (Worker.session_count port) <= length (Worker.sessions port))%nat ->
  (i < Z.to_nat (Worker.session_count port))%nat ->
  Worker.sessions port !! i = Some s ->
  Worker.sessions
    (fst (Worker.worker_iteration hz port fs envs current_tsc)) !! i
  = Some (fst (session_run hz s
                 (map Worker.rx_event
                    (List.filter (Worker.routed_to port i) fs)
                  ++ [EvTick (Worker.port_env port (envs i)) current_tsc]))).
Proof.
  intros Hlen Hi Hs. unfold Worker.worker_iteration.
  destruct (worker_burst_rx_sessions hz fs port i s Hs) as [Hc Hb].
  destruct (worker_rx_burst_pool hz fs port) as [Hp Hl].
  set (p1 := fst (Worker.worker_rx_burst hz port fs)) in *.
  assert (Hlen1 : (0 + Z.to_nat (Worker.session_count p1)
                   <= length (Worker.sessions p1))%nat).
  { rewrite Hc, Hl. exact Hlen. }
  rewrite (worker_tick_from_spec hz envs current_tsc _ 0%nat p1 Hlen1 i _ Hb).
  rewrite Hc.
  destruct (Nat.leb_spec 0 i); [| lia].
  destruct (Nat.ltb_spec i (0 + Z.to_nat (Worker.session_count port)));
    [| cbn in *; lia].
  cbn [andb]. f_equal.
  rewrite session_run_app. cbn zeta. cbn [fst session_run session_step].
  unfold Worker.port_env. rewrite Hp.
  destruct (ptp_state_machine_tick _ _ _ _). reflexivity.
Qed.

Lemma worker_iteration_is_session_run_witness :
  let s := ptp_session_init hz_1GHz 2 3 0 225 97 4420 in
  let port :=
    Worker.Build_ptp_port_t 2 1 [s; session_zero; session_zero; session_zero]
      true true 0 in
  let f := Worker.Build_rx_frame (ptp_rx_frame 225 PTP_MSG_SYNC 7 1000 0)
             10 20 30 in
  Worker.sessions
    (fst (Worker.worker_iteration hz_1GHz port [f] (fun _ => tx_ok 0 0) 50))
    !! 0%nat
  = Some (fst (session_run hz_1GHz s
                 [Worker.rx_event f;
                  EvTick (Worker.port_env port (tx_ok 0 0)) 50])).
Proof.
  cbn zeta.
  apply (worker_iteration_is_session_run hz_1GHz
           (Worker.Build_ptp_port_t 2 1
              [ptp_session_init hz_1GHz 2 3 0 225 97 4420; session_zero;
               session_zero; session_zero] true true 0)
           [Worker.Build_rx_frame (ptp_rx_frame 225 PTP_MSG_SYNC 7 1000 0)
              10 20 30]
           (fun _ => tx_ok 0 0) 50 0%nat
           (ptp_session_init hz_1GHz 2 3 0 225 97 4420)).
  - vm_compute. lia.
  - vm_compute. lia.
  - reflexivity.
Defined.
(** ** Configuration ([ptp_configure_split_sessions]) *)

Lemma port_zero_wf : Worker.port_wf Worker.port_zero.
Proof. repeat split; try reflexivity; try lia; discriminate. Qed.

Lemma ptp_init_wf hz mac : Worker.context_wf (Worker.ptp_init hz mac).
Proof.
  split; [reflexivity |]. cbn [Worker.ports Worker.ptp_init].
  apply List.Forall_forall. intros x Hin. apply repeat_spec in Hin.
  subst x. apply port_zero_wf.
Qed.

Lemma context_wf_lookup ctx id :
  Worker.context_wf ctx -> id < 8 ->
  exists p, Worker.ports ctx !! Z.to_nat id = Some p /\ Worker.port_wf p.
Proof.
  intros [Hlen Hall] Hid.
  destruct (Worker.ports ctx !! Z.to_nat id) as [p |] eqn:E.
  - exists p. split; [reflexivity |].
    eapply Forall_lookup_1; [exact Hall | exact E].
  - apply lookup_ge_None in E. lia.
Qed.

Lemma with_pool_wf id p :
  Worker.port_wf p ->
  Worker.port_wf (Worker.with_pool id p) /\
  Worker.session_count (Worker.with_pool id p) = Worker.session_count p /\
  Worker.sessions (Worker.with_pool id p) = Worker.sessions p /\
  Worker.enabled (Worker.with_pool id p) = true /\
  Worker.tx_mbuf_pool (Worker.with_pool id p) = true.
Proof.
  intros (H1 & H2 & H3). unfold Worker.with_pool.
  destruct (Worker.tx_mbuf_pool p) eqn:E.
  - repeat split; auto; try lia; try tauto.
  - repeat split; cbn; auto; lia.
Qed.

(** The three outcomes of one pass of the configuration loop. *)
Lemma configure_one_cases hz pool_ok ctx cfg :
  Worker.context_wf ctx ->
  let k := Z.to_nat (Worker.rx_port_id cfg) in
  Worker.configure_one hz pool_ok ctx cfg = (-1, ctx) \/
  exists p,
    Worker.ports ctx !! k = Some p /\ Worker.port_wf p /\
    Worker.rx_port_id cfg < 8 /\ Worker.tx_port_id cfg < 8 /\
    let p1 := Worker.with_pool (Worker.rx_port_id cfg) p in
    exists count,
      let ctx1 :=
        Worker.Build_ptp_context_t (<[k := p1]> (Worker.ports ctx)) count
          (Worker.initialized ctx) (Worker.running ctx) (Worker.tsc_hz ctx)
          (Worker.local_mac ctx) in
      (4 <= Worker.session_count p /\
       Worker.configure_one hz pool_ok ctx cfg = (-1, ctx1)) \/
      (Worker.session_count p < 4 /\
       Worker.configure_one hz pool_ok ctx cfg
       = (0, Worker.set_ports
               (<[k := Worker.Build_ptp_port_t (Worker.port_id p1)
                         (Worker.session_count p + 1)
                         (<[Z.to_nat (Worker.session_count p) :=
                              ptp_session_init hz (Worker.rx_port_id cfg)
                                (Worker.tx_port_id cfg)
                                (Worker.session_count p) (Worker.rx_vlan cfg)
                                (Worker.tx_vlan cfg) (Worker.tx_vl_idx cfg)]>
                            (Worker.sessions p))
                         true true (Worker.ptp_lcore_id p1)]>
                  (Worker.ports ctx)) ctx1)).
Proof.
  intros Hwf. cbn zeta. unfold Worker.configure_one.
  unfold Worker.PTP_MAX_PORTS, Worker.PTP_SESSIONS_PER_PORT.
  destruct (Z.leb_spec 8 (Worker.rx_port_id cfg)); [left; reflexivity |].
  destruct (Z.leb_spec 8 (Worker.tx_port_id cfg)); [left; reflexivity |].
  cbn [orb].
  destruct (context_wf_lookup ctx (Worker.rx_port_id cfg) Hwf ltac:(lia))
    as (p & Hp & Hpwf).
  rewrite Hp.
  destruct (with_pool_wf (Worker.rx_port_id cfg) p Hpwf)
    as (_ & Hc1 & Hs1 & He1 & Ht1).
  destruct Hpwf as (Hl & Hcnt & Hen).
  unfold Worker.with_pool in *.
  destruct (Worker.tx_mbuf_pool p) eqn:Epool.
  - right. exists p. rewrite Epool.
    split; [reflexivity |]. split; [repeat split; auto; try lia; congruence |].
    split; [lia |]. split; [lia |].
    exists (Worker.port_count ctx).
    destruct (Z.leb_spec 4 (Worker.session_count p)).
    + left. split; [lia | reflexivity].
    + right. split; [lia |].
      assert (Hw8 : wrap8 (Worker.session_count p) = Worker.session_count p)
        by (apply Z.mod_small; lia).
      assert (Hw16 : wrap16 (Worker.session_count p + 1)
                     = Worker.session_count p + 1)
        by (apply Z.mod_small; lia).
      rewrite Hw8, Hw16.
      unfold Worker.set_ports.
      cbn [Worker.ports Worker.port_count Worker.initialized Worker.running
           Worker.tsc_hz Worker.local_mac].
      rewrite list_insert_insert_eq, He1. reflexivity.
  - destruct (pool_ok (Worker.rx_port_id cfg)); [| left; reflexivity].
    right. exists p. rewrite Epool.
    split; [reflexivity |]. split; [repeat split; auto; try lia; congruence |].
    split; [lia |]. split; [lia |].
    exists (wrap8 (Worker.port_count ctx + 1)).
    cbn [Worker.session_count Worker.sessions Worker.enabled
         Worker.tx_mbuf_pool Worker.port_id Worker.ptp_lcore_id].
    destruct (Z.leb_spec 4 (Worker.session_count p)).
    + left. split; [lia | reflexivity].
    + right. split; [lia |].
      assert (Hw8 : wrap8 (Worker.session_count p) = Worker.session_count p)
        by (apply Z.mod_small; lia).
      assert (Hw16 : wrap16 (Worker.session_count p + 1)
                     = Worker.session_count p + 1)
        by (apply Z.mod_small; lia).
      rewrite Hw8, Hw16.
      unfold Worker.set_ports.
      cbn [Worker.ports Worker.port_count Worker.initialized Worker.running
           Worker.tsc_hz Worker.local_mac].
      rewrite list_insert_insert_eq. reflexivity.
Qed.

Lemma configure_one_wf hz pool_ok ctx cfg :
  Worker.context_wf ctx ->
  Worker.context_wf (snd (Worker.configure_one hz pool_ok ctx cfg)) /\
  Worker.initialized (snd (Worker.configure_one hz pool_ok ctx cfg))
  = Worker.initialized ctx.
Proof.
  intros Hwf.
  destruct (configure_one_cases hz pool_ok ctx cfg Hwf)
    as [-> | (p & Hp & Hpwf & _ & _ & count & [[_ ->] | [Hlt ->]])];
    [split; [exact Hwf | reflexivity] | |];
    (split; [| reflexivity]);
    destruct Hwf as [Hlen Hall];
    destruct (with_pool_wf (Worker.rx_port_id cfg) p Hpwf)
      as (Hw1 & _ & _ & _ & _);
    (split; cbn [snd Worker.ports Worker.set_ports];
     [rewrite length_insert; exact Hlen |]);
    apply Forall_insert; try exact Hall; try exact Hw1.
  destruct Hpwf as (Hl & Hc & _).
  repeat split; cbn [Worker.sessions Worker.session_count Worker.enabled];
    try lia. rewrite length_insert. exact Hl.
Qed.

Lemma configure_loop_wf hz pool_ok cfgs : forall ctx,
  Worker.context_wf ctx ->
  Worker.context_wf (snd (Worker.configure_loop hz pool_ok ctx cfgs)) /\
  Worker.initialized (snd (Worker.configure_loop hz pool_ok ctx cfgs))
  = Worker.initialized ctx.
Proof.
  induction cfgs as [| cfg cfgs IH]; intros ctx Hwf;
    [split; [exact Hwf | reflexivity] |].
  cbn [Worker.configure_loop].
  destruct (configure_one_wf hz pool_ok ctx cfg Hwf) as [H1 H2].
  destruct (Worker.configure_one hz pool_ok ctx cfg) as [ret ctx1].
  cbn [snd] in H1, H2.
  destruct (ret =? 0); [| split; [exact H1 | exact H2]].
  destruct (IH ctx1 H1) as [H3 H4]. split; [exact H3 | congruence].
Qed.

(** X22: Whatever list of sessions is asked for and whether or not the call
    succeeds, configuration never writes outside the tables: a context
    with 8 ports of 4 session slots each, at most 4 of them in use per
    port, is left in that shape. *)
Theorem configure_keeps_tables (hz : Z) (pool_ok : Z -> bool)
    (ctx : Worker.ptp_context_t) (cfgs : list Worker.ptp_session_config) :
  Worker.context_wf ctx ->
  Worker.context_wf
    (snd (Worker.ptp_configure_split_sessions hz pool_ok ctx cfgs)).
Proof.
  intros Hwf. unfold Worker.ptp_configure_split_sessions.
  destruct (negb _); [exact Hwf |].
  apply configure_loop_wf, Hwf.
Qed.

Lemma configure_keeps_tables_witness :
  Worker.context_wf
    (snd (Worker.ptp_configure_split_sessions hz_1GHz (fun _ => true)
            (Worker.ptp_init hz_1GHz [2; 0; 0; 0; 0; 32])
            (repeat (Worker.Build_ptp_session_config 2 225 3 97 4420) 5))).
Proof.
  apply (configure_keeps_tables hz_1GHz (fun _ => true)
           (Worker.ptp_init hz_1GHz [2; 0; 0; 0; 0; 32])
           (repeat (Worker.Build_ptp_session_config 2 225 3 97 4420) 5)).
  apply ptp_init_wf.
Defined.

Lemma configure_loop_app hz pool_ok cfgs1 : forall ctx cfgs2,
  Worker.configure_loop hz pool_ok ctx (cfgs1 ++ cfgs2)
  = let r := Worker.configure_loop hz pool_ok ctx cfgs1 in
    if fst r =? 0 then Worker.configure_loop hz pool_ok (snd r) cfgs2 else r.
Proof.
  induction cfgs1 as [| cfg cfgs1 IH]; intros ctx cfgs2; [reflexivity |].
  cbn [Worker.configure_loop app].
  destruct (Worker.configure_one hz pool_ok ctx cfg) as [ret ctx1].
  destruct (Z.eqb_spec ret 0) as [-> | NE].
  - apply IH.
  - cbn zeta. cbn [fst].
    destruct (Z.eqb_spec ret 0); [contradiction | reflexivity].
Qed.

(** X23: Configuration does not roll back: when entry number k names a port
    id of 8 or more, or an RX port that already has its pool and four
    sessions, the call returns -1, the entries before k stay configured
    exactly as a call with only them would leave them, and the entries
    after k are not looked at. *)
Theorem configure_no_rollback (hz : Z) (pool_ok : Z -> bool)
    (ctx ctx1 : Worker.ptp_context_t)
    (before after : list Worker.ptp_session_config)
    (bad : Worker.ptp_session_config) :
  Worker.ptp_configure_split_sessions hz pool_ok ctx before = (0, ctx1) ->
  (8 <= Worker.rx_port_id bad \/ 8 <= Worker.tx_port_id bad) \/
  (exists p,
     Worker.ports ctx1 !! Z.to_nat (Worker.rx_port_id bad) = Some p /\
     Worker.tx_mbuf_pool p = true /\ 4 <= Worker.session_count p) ->
  Worker.ptp_configure_split_sessions hz pool_ok ctx
    (before ++ bad :: after) = (-1, ctx1).
Proof.
  unfold Worker.ptp_configure_split_sessions.
  destruct (negb (Worker.initialized ctx)); [discriminate |].
  intros H Hbad. rewrite configure_loop_app, H. cbn zeta. cbn [fst snd Z.eqb].
  cbn [Worker.configure_loop]. unfold Worker.configure_one.
  destruct ((Worker.PTP_MAX_PORTS <=? Worker.rx_port_id bad)
            || (Worker.PTP_MAX_PORTS <=? Worker.tx_port_id bad)) eqn:E;
    [reflexivity |].
  apply orb_false_iff in E. destruct E as [E1 E2].
  unfold Worker.PTP_MAX_PORTS in *. apply Z.leb_gt in E1, E2.
  destruct Hbad as [[Hb | Hb] | (p & Hp & Hpool & Hfull)]; try lia.
  rewrite Hp, Hpool.
  destruct (Z.leb_spec Worker.PTP_SESSIONS_PER_PORT (Worker.session_count p))
    as [_ | Hlt]; [| unfold Worker.PTP_SESSIONS_PER_PORT in Hlt; lia].
  cbn [Z.eqb]. rewrite list_insert_id by exact Hp.
  destruct ctx1; reflexivity.
Qed.

Lemma configure_no_rollback_witness :
  let cfg := Worker.Build_ptp_session_config 2 225 3 97 4420 in
  let bad := Worker.Build_ptp_session_config 2 226 8 98 4421 in
  let ctx := Worker.ptp_init hz_1GHz [2; 0; 0; 0; 0; 32] in
  Worker.ptp_configure_split_sessions hz_1GHz (fun _ => true) ctx [cfg; bad]
  = (-1, snd (Worker.ptp_configure_split_sessions hz_1GHz (fun _ => true)
                ctx [cfg])).
Proof.
  cbn zeta.
  apply (configure_no_rollback hz_1GHz (fun _ => true)
           (Worker.ptp_init hz_1GHz [2; 0; 0; 0; 0; 32])
           (snd (Worker.ptp_configure_split_sessions hz_1GHz (fun _ => true)
                   (Worker.ptp_init hz_1GHz [2; 0; 0; 0; 0; 32])
                   [Worker.Build_ptp_session_config 2 225 3 97 4420]))
           [Worker.Build_ptp_session_config 2 225 3 97 4420] []
           (Worker.Build_ptp_session_config 2 226 8 98 4421)).
  - reflexivity.
  - left. right. cbn. lia.
Defined.

(** ** Configured sessions are found *)

Lemma find_by_vlan_unique port v k s :
  (k < Z.to_nat (Worker.session_count port))%nat ->
  Worker.sessions port !! k = Some s -> rx_vlan_id s = v ->
  (forall j s', (j < k)%nat -> Worker.sessions port !! j = Some s' ->
                rx_vlan_id s' <> v) ->
  Worker.find_session_by_vlan port v = Some k.
Proof.
  intros Hk Hs Hv Hfirst.
  pose proof (find_by_vlan_spec port v) as H.
  destruct (Worker.find_session_by_vlan port v) as [k' |].
  - destruct H as (Hk' & s' & Hs' & Hv' & Hfirst').
    f_equal. destruct (Nat.lt_total k' k) as [Hlt | [-> | Hlt]];
      [| reflexivity |].
    + exfalso. exact (Hfirst k' s' Hlt Hs' Hv').
    + exfalso. exact (Hfirst' k s Hlt Hs Hv).
  - exfalso. exact (H k s Hk Hs Hv).
Qed.

(** A port whose sessions in use are those of [p], possibly followed by
    more, answers every lookup that [p] answers in the same way. *)
Lemma find_by_vlan_extends p p' v k :
  0 <= Worker.session_count p <= Worker.session_count p' ->
  (forall j, (j < Z.to_nat (Worker.session_count p))%nat ->
             Worker.sessions p' !! j = Worker.sessions p !! j) ->
  Worker.find_session_by_vlan p v = Some k ->
  Worker.find_session_by_vlan p' v = Some k.
Proof.
  intros Hc Hsame Hfind.
  pose proof (find_by_vlan_spec p v) as H. rewrite Hfind in H.
  destruct H as (Hk & s & Hs & Hv & Hfirst).
  apply (find_by_vlan_unique p' v k s); try lia; try assumption.
  - rewrite Hsame by exact Hk. exact Hs.
  - intros j s' Hj Hs'. apply (Hfirst j s' Hj).
    rewrite <- Hsame by lia. exact Hs'.
Qed.

Lemma configure_one_found hz pool_ok ctx cfg ctx' :
  Worker.context_wf ctx ->
  Worker.configure_one hz pool_ok ctx cfg = (0, ctx') ->
  Worker.entry_found ctx' cfg /\
  forall cfg0, Worker.entry_found ctx cfg0 -> Worker.entry_found ctx' cfg0.
Proof.
  intros Hwf Hone.
  destruct (configure_one_cases hz pool_ok ctx cfg Hwf)
    as [E | (p & Hp & Hpwf & Hrx & _ & count & [[_ E] | [Hlt E]])];
    rewrite E in Hone; try discriminate Hone.
  injection Hone as <-. clear E.
  destruct Hwf as [Hlen _]. destruct Hpwf as (Hl & Hc & _).
  set (k := Z.to_nat (Worker.rx_port_id cfg)) in *.
  set (c := Z.to_nat (Worker.session_count p)).
  set (init := ptp_session_init hz (Worker.rx_port_id cfg)
                 (Worker.tx_port_id cfg) (Worker.session_count p)
                 (Worker.rx_vlan cfg) (Worker.tx_vlan cfg)
                 (Worker.tx_vl_idx cfg)).
  set (p2 := Worker.Build_ptp_port_t _ _ _ _ _ _).
  assert (Hk : (k < length (Worker.ports ctx))%nat).
  { eapply lookup_lt_Some; exact Hp. }
  assert (Hp2 : <[k := p2]> (Worker.ports ctx) !! k = Some p2)
    by (apply list_lookup_insert_eq; exact Hk).
  assert (Hinit : Worker.sessions p2 !! c = Some init).
  { subst p2. cbn [Worker.sessions]. apply list_lookup_insert_eq.
    subst c. lia. }
  assert (Hget : forall id, Z.to_nat id = k -> id < 8 ->
            Worker.ptp_get_port
              (Worker.set_ports (<[k := p2]> (Worker.ports ctx))
                 (Worker.Build_ptp_context_t
                    (<[k := Worker.with_pool (Worker.rx_port_id cfg) p]>
                       (Worker.ports ctx)) count (Worker.initialized ctx)
                    (Worker.running ctx) (Worker.tsc_hz ctx)
                    (Worker.local_mac ctx))) id = Some p2).
  { intros id Hid Hlt8. unfold Worker.ptp_get_port, Worker.PTP_MAX_PORTS.
    destruct (Z.leb_spec 8 id); [lia |].
    cbn [Worker.ports Worker.set_ports]. rewrite Hid, Hp2. reflexivity. }
  split.
  - pose proof (find_by_vlan_spec p2 (Worker.rx_vlan cfg)) as Hf.
    destruct (Worker.find_session_by_vlan p2 (Worker.rx_vlan cfg))
      as [i |] eqn:Hfind.
    + destruct Hf as (_ & s & Hs & Hv & _).
      exists p2, i, s. split; [apply Hget; [reflexivity | exact Hrx] |].
      auto.
    + exfalso. apply (Hf c init); [| exact Hinit | reflexivity].
      subst p2 c. cbn [Worker.session_count]. lia.
  - intros cfg0 (port & i & s & Hport & Hfind & Hs & Hv).
    unfold Worker.ptp_get_port, Worker.PTP_MAX_PORTS in Hport.
    destruct (Z.leb_spec 8 (Worker.rx_port_id cfg0)) as [| Hlt0];
      [discriminate |].
    destruct (Worker.ports ctx !! Z.to_nat (Worker.rx_port_id cfg0))
      as [q |] eqn:Hq; [| discriminate].
    destruct (Worker.enabled q) eqn:Hen; [| discriminate].
    injection Hport as <-.
    destruct (Nat.eq_dec (Z.to_nat (Worker.rx_port_id cfg0)) k) as [Ek | NE].
    + rewrite Ek, Hp in Hq. injection Hq as <-.
      pose proof (find_by_vlan_spec p (Worker.rx_vlan cfg0)) as Hf.
      rewrite Hfind in Hf. destruct Hf as (Hi & _).
      exists p2, i, s. split; [apply Hget; assumption |].
      split; [| split; [| exact Hv]].
      * apply (find_by_vlan_extends p p2); [| | exact Hfind].
        -- subst p2. cbn [Worker.session_count]. lia.
        -- intros j Hj. subst p2. cbn [Worker.sessions].
           apply list_lookup_insert_ne. lia.
      * subst p2. cbn [Worker.sessions].
        rewrite list_lookup_insert_ne by (subst c; lia). exact Hs.
    + exists q, i, s. split; [| auto].
      unfold Worker.ptp_get_port, Worker.PTP_MAX_PORTS.
      destruct (Z.leb_spec 8 (Worker.rx_port_id cfg0)); [lia |].
      cbn [Worker.ports Worker.set_ports].
      rewrite list_lookup_insert_ne by (intros H'; apply NE; symmetry; exact H').
      rewrite Hq, Hen. reflexivity.
Qed.

Lemma configure_loop_found hz pool_ok cfgs : forall ctx ctx',
  Worker.context_wf ctx ->
  Worker.configure_loop hz pool_ok ctx cfgs = (0, ctx') ->
  Forall (Worker.entry_found ctx') cfgs /\
  forall cfg0, Worker.entry_found ctx cfg0 -> Worker.entry_found ctx' cfg0.
Proof.
  induction cfgs as [| cfg cfgs IH]; intros ctx ctx' Hwf H.
  - cbn in H. injection H as <-. split; [constructor | auto].
  - cbn [Worker.configure_loop] in H.
    destruct (configure_one_wf hz pool_ok ctx cfg Hwf) as [Hwf1 _].
    pose proof (configure_one_found hz pool_ok ctx cfg) as Hone.
    destruct (Worker.configure_one hz pool_ok ctx cfg) as [ret ctx1].
    cbn [snd] in Hwf1.
    destruct (Z.eqb_spec ret 0) as [-> | NE].
    2:{ injection H as -> _. contradiction. }
    destruct (Hone ctx1 Hwf eq_refl) as [Hnew Hkeep].
    destruct (IH ctx1 ctx' Hwf1 H) as [Hall Hkeep'].
    split; [constructor; [apply Hkeep', Hnew | exact Hall] |].
    intros cfg0 H0. apply Hkeep', Hkeep, H0.
Qed.

(** X24: After a successful configuration every entry of the list can be
    reached: its RX port is enabled, so [ptp_get_port] returns it, and the
    worker's lookup by the entry's RX VLAN finds a session of that port
    with that RX VLAN. *)
Theorem configured_sessions_are_found (hz : Z) (pool_ok : Z -> bool)
    (ctx ctx' : Worker.ptp_context_t)
    (cfgs : list Worker.ptp_session_config) :
  Worker.context_wf ctx ->
  Worker.ptp_configure_split_sessions hz pool_ok ctx cfgs = (0, ctx') ->
  Forall (Worker.entry_found ctx') cfgs.
Proof.
  intros Hwf. unfold Worker.ptp_configure_split_sessions.
  destruct (negb _); [discriminate |].
  intros H. apply (configure_loop_found hz pool_ok cfgs ctx ctx' Hwf H).
Qed.

Lemma configured_sessions_are_found_witness :
  let cfgs := [Worker.Build_ptp_session_config 2 225 3 97 4420;
               Worker.Build_ptp_session_config 2 226 3 98 4421] in
  let ctx := Worker.ptp_init hz_1GHz [2; 0; 0; 0; 0; 32] in
  Forall
    (Worker.entry_found
       (snd (Worker.ptp_configure_split_sessions hz_1GHz (fun _ => true)
               ctx cfgs))) cfgs.
Proof.
  cbn zeta.
  apply (configured_sessions_are_found hz_1GHz (fun _ => true)
           (Worker.ptp_init hz_1GHz [2; 0; 0; 0; 0; 32])).
  - apply ptp_init_wf.
  - reflexivity.
Defined.
(** ** Flow rules ([ptp_flow.c]) *)

Lemma flow_rule_remove_cases handles id :
  0 <= id < 8 -> length handles = 8%nat ->
  Flow.ptp_flow_rule_remove handles id = <[Z.to_nat id := None]> handles.
Proof.
  intros Hid Hlen. unfold Flow.ptp_flow_rule_remove, Worker.PTP_MAX_PORTS.
  destruct (Z.leb_spec 8 id); [lia |].
  destruct (handles !! Z.to_nat id) as [[h |] |] eqn:E.
  - reflexivity.
  - symmetry. apply list_insert_id. exact E.
  - apply lookup_ge_None in E. lia.
Qed.

Lemma flow_rule_install_result n handles id :
  0 <= id < 8 -> length handles = 8%nat ->
  Flow.ptp_flow_rule_install n handles id
  = (match Flow.first_accepted n id with Some _ => 0 | None => -1 end,
     <[Z.to_nat id := Flow.first_accepted n id]> handles).
Proof.
  intros Hid Hlen. unfold Flow.ptp_flow_rule_install, Worker.PTP_MAX_PORTS.
  destruct (Z.leb_spec 8 id); [lia |].
  rewrite flow_rule_remove_cases by assumption.
  unfold Flow.first_accepted.
  destruct (Flow.try_pattern n id Flow.pattern_vlan_any_eth);
    [rewrite list_insert_insert_eq; reflexivity |].
  destruct (Flow.try_pattern n id Flow.pattern_vlan_explicit);
    [rewrite list_insert_insert_eq; reflexivity |].
  destruct (Flow.try_pattern n id Flow.pattern_untagged);
    [rewrite list_insert_insert_eq; reflexivity | reflexivity].
Qed.

(** X25: Installing the rule of a port tries the three patterns in order and
    keeps the handle of the first one the NIC both validates and creates;
    the result is 0 exactly when a handle is stored.  When all three fail
    the result is -1 and the port has no rule at all, even if it had one
    before the call.  The rules of the other ports are not touched. *)
Theorem flow_install_outcome (n : Flow.nic) (handles : list (option Z))
    (id : Z) :
  0 <= id < 8 -> length handles = 8%nat ->
  let r := Flow.ptp_flow_rule_install n handles id in
  snd r !! Z.to_nat id = Some (Flow.first_accepted n id) /\
  (fst r = 0 <-> exists flow, snd r !! Z.to_nat id = Some (Some flow)) /\
  (fst r = -1 <-> snd r !! Z.to_nat id = Some None) /\
  (forall j, j <> Z.to_nat id -> snd r !! j = handles !! j) /\
  length (snd r) = 8%nat.
Proof.
  intros Hid Hlen. cbn zeta.
  rewrite flow_rule_install_result by assumption. cbn [fst snd].
  assert (Hk : <[Z.to_nat id := Flow.first_accepted n id]> handles
               !! Z.to_nat id = Some (Flow.first_accepted n id)).
  { apply list_lookup_insert_eq. lia. }
  rewrite Hk. split; [reflexivity |].
  split; [| split; [| split]].
  - destruct (Flow.first_accepted n id) as [flow |]; split.
    + intros _. exists flow. reflexivity.
    + reflexivity.
    + discriminate.
    + intros [flow H]. discriminate H.
  - destruct (Flow.first_accepted n id) as [flow |]; split;
      try discriminate; reflexivity.
  - intros j Hj. apply list_lookup_insert_ne. auto.
  - rewrite length_insert. exact Hlen.
Qed.

Lemma flow_install_outcome_witness :
  let n := Flow.Build_nic (fun _ _ => false) (fun _ _ => Some 7) in
  let handles := [None; None; Some 11; None; None; None; None; None] in
  snd (Flow.ptp_flow_rule_install n handles 2) !! 2%nat = Some None.
Proof.
  cbn zeta.
  destruct (flow_install_outcome
              (Flow.Build_nic (fun _ _ => false) (fun _ _ => Some 7))
              [None; None; Some 11; None; None; None; None; None] 2)
    as (H & _).
  - lia.
  - reflexivity.
  - exact H.
Defined.

Lemma flow_install_status n handles id :
  fst (Flow.ptp_flow_rule_install n handles id)
  = if (Worker.PTP_MAX_PORTS <=? id)
       || match Flow.first_accepted n id with
          | Some _ => false
          | None => true
          end
    then -1 else 0.
Proof.
  unfold Flow.ptp_flow_rule_install, Flow.first_accepted.
  destruct (Worker.PTP_MAX_PORTS <=? id); [reflexivity |]. cbn [orb].
  destruct (Flow.try_pattern n id Flow.pattern_vlan_any_eth);
    [reflexivity |].
  destruct (Flow.try_pattern n id Flow.pattern_vlan_explicit);
    [reflexivity |].
  destruct (Flow.try_pattern n id Flow.pattern_untagged); reflexivity.
Qed.

Lemma install_from_counts n ps : forall handles success failed,
  let r := Flow.install_from n ps handles success failed in
  snd (fst r)
  = failed + Z.of_nat (length (List.filter (Flow.port_fails n) ps)) /\
  fst (fst r) + snd (fst r)
  = success + failed
    + Z.of_nat (length (List.filter Worker.enabled ps)).
Proof.
  induction ps as [| port ps IH]; intros handles success failed; cbn zeta.
  - cbn. lia.
  - cbn [Flow.install_from List.filter]. unfold Flow.port_fails at 1.
    destruct (Worker.enabled port); cbn [negb andb].
    2:{ apply IH. }
    pose proof (flow_install_status n handles (Worker.port_id port)) as Hst.
    destruct (Flow.ptp_flow_rule_install n handles (Worker.port_id port))
      as [ret handles1]. cbn [fst] in Hst. subst ret.
    destruct (_ || _); cbn [Z.eqb].
    + specialize (IH handles1 success (failed + 1)). cbn zeta in IH.
      cbn [length]. lia.
    + specialize (IH handles1 (success + 1) failed). cbn zeta in IH.
      cbn [length]. lia.
Qed.

(** X26: Installing the rules of all ports visits every enabled port, also
    after a failure, and skips the disabled ones: the two counters add up
    to the number of enabled ports, the failure counter is the number of
    enabled ports on which no rule could be installed, and the result is
    -1 exactly when there is such a port. *)
Theorem flow_install_all_result (n : Flow.nic) (ctx : Worker.ptp_context_t)
    (handles : list (option Z)) :
  let counts := fst (Flow.install_from n (Worker.ports ctx) handles 0 0) in
  fst counts + snd counts
  = Z.of_nat (length (List.filter Worker.enabled (Worker.ports ctx))) /\
  snd counts
  = Z.of_nat (length (List.filter (Flow.port_fails n) (Worker.ports ctx))) /\
  fst (Flow.ptp_flow_rules_install_all n ctx handles)
  = if existsb (Flow.port_fails n) (Worker.ports ctx) then -1 else 0.
Proof.
  cbn zeta. unfold Flow.ptp_flow_rules_install_all.
  destruct (install_from_counts n (Worker.ports ctx) handles 0 0) as [Hf Hs].
  destruct (Flow.install_from n (Worker.ports ctx) handles 0 0)
    as [[success failed] handles1]. cbn [fst snd] in *.
  split; [lia |]. split; [lia |]. subst failed. clear Hs.
  induction (Worker.ports ctx) as [| port ps IH]; [reflexivity |].
  cbn [List.filter existsb].
  destruct (Flow.port_fails n port); cbn [orb length].
  - destruct (Z.ltb_spec 0 (0 + Z.of_nat (S (length
               (List.filter (Flow.port_fails n) ps))))); [reflexivity | lia].
  - exact IH.
Qed.
(** ** The health cycle ([health_monitor.c]) *)

Lemma parse_ports_keeps n packet : forall ptr f,
  device (parse_ports n packet ptr f) = device f /\
  device_info_valid (parse_ports n packet ptr f) = device_info_valid f /\
  length (ports (parse_ports n packet ptr f)) = length (ports f).
Proof.
  induction n as [| n IH]; intros ptr f; [repeat split |].
  cbn [parse_ports].
  destruct (_ <? HEALTH_MAX_PORTS).
  - destruct (IH (ptr + HEALTH_PORT_DATA_SIZE)
                {| device := device f;
                   ports := <[Z.to_nat (Port.port_number
                                (Port.parse_port_data packet ptr)) :=
                                Port.parse_port_data packet ptr]> (ports f);
                   packets_received := packets_received f;
                   device_info_valid := device_info_valid f;
                   port_count_received :=
                     wrap8 (port_count_received f + 1) |})
      as (H1 & H2 & H3).
    cbn zeta. rewrite H1, H2, H3. cbn [device device_info_valid ports].
    rewrite length_insert. repeat split.
  - apply IH.
Qed.

(** What a parsed FPGA frame does to the cycle: one more response, and
    the table of the target FPGA replaced by one with the same number of
    port slots whose device information, once valid, is the old one. *)
Lemma parse_fpga_packet_effect packet h n off t c :
  exists f,
    parse_fpga_packet packet h n off t c
    = set_total_responses_received (wrap8 (total_responses_received c + 1))
        (set_target t f c) /\
    length (ports f) = length (ports (get_target t c)) /\
    (device_info_valid (get_target t c) = true ->
     device f = device (get_target t c) /\ device_info_valid f = true).
Proof.
  unfold parse_fpga_packet. cbn zeta.
  set (f0 := if h && negb (device_info_valid (get_target t c)) then _
             else get_target t c).
  destruct (parse_ports_keeps n packet
              (HEALTH_UDP_PAYLOAD_OFFSET + off) f0) as (H1 & H2 & H3).
  eexists. split; [| split].
  - destruct t; reflexivity.
  - cbn [ports]. rewrite H3. subst f0.
    destruct (h && negb _); reflexivity.
  - intros Hv. cbn [device device_info_valid]. rewrite H1, H2. subst f0.
    rewrite Hv, andb_false_r. auto.
Qed.

Lemma get_set_target t t' f c v :
  get_target t (set_total_responses_received v (set_target t' f c))
  = match t, t' with
    | TargetAssistant, TargetAssistant | TargetManager, TargetManager => f
    | _, _ => get_target t c
    end.
Proof. destruct t, t'; reflexivity. Qed.

Lemma parse_response_effect packet len c :
  let c' := health_parse_response packet len c in
  (c' = c \/
   total_responses_received c' = wrap8 (total_responses_received c + 1)) /\
  forall t,
    length (ports (get_target t c')) = length (ports (get_target t c)) /\
    (device_info_valid (get_target t c) = true ->
     device (get_target t c') = device (get_target t c) /\
     device_info_valid (get_target t c') = true).
Proof.
  cbn zeta.
  assert (Hsame : (c = c \/
            total_responses_received c
            = wrap8 (total_responses_received c + 1)) /\
          forall t,
            length (ports (get_target t c)) = length (ports (get_target t c))
            /\ (device_info_valid (get_target t c) = true ->
                device (get_target t c) = device (get_target t c) /\
                device_info_valid (get_target t c) = true)) by auto.
  assert (Hfpga : forall h n off t0 v,
            let c0 := parse_fpga_packet packet h n off t0
                        (set_last_fpga_type v c) in
            (c0 = c \/
             total_responses_received c0
             = wrap8 (total_responses_received c + 1)) /\
            forall t,
              length (ports (get_target t c0))
              = length (ports (get_target t c)) /\
              (device_info_valid (get_target t c) = true ->
               device (get_target t c0) = device (get_target t c) /\
               device_info_valid (get_target t c0) = true)).
  { intros h n off t0 v. cbn zeta.
    destruct (parse_fpga_packet_effect packet h n off t0
                (set_last_fpga_type v c)) as (f & -> & Hl & Hd).
    split; [right; reflexivity |].
    intros t. rewrite get_set_target.
    destruct t, t0; cbn [get_target set_last_fpga_type assistant manager] in *;
      auto. }
  assert (Hfpga' : forall h n off t0,
            let c0 := parse_fpga_packet packet h n off t0 c in
            (c0 = c \/
             total_responses_received c0
             = wrap8 (total_responses_received c + 1)) /\
            forall t,
              length (ports (get_target t c0))
              = length (ports (get_target t c)) /\
              (device_info_valid (get_target t c) = true ->
               device (get_target t c0) = device (get_target t c) /\
               device_info_valid (get_target t c0) = true)).
  { intros h n off t0. cbn zeta.
    destruct (parse_fpga_packet_effect packet h n off t0 c)
      as (f & -> & Hl & Hd).
    split; [right; reflexivity |].
    intros t. rewrite get_set_target. destruct t, t0; auto. }
  unfold health_parse_response.
  destruct (len =? HEALTH_PKT_SIZE_WITH_HEADER).
  { destruct (_ =? STATUS_ENABLE_ASSISTANT); [apply Hfpga |].
    destruct (_ =? STATUS_ENABLE_MANAGER); [apply Hfpga | exact Hsame]. }
  destruct (len =? HEALTH_PKT_SIZE_8_PORTS).
  { destruct (_ =? STATUS_ENABLE_ASSISTANT); [apply Hfpga' |].
    destruct (_ =? STATUS_ENABLE_MANAGER); [apply Hfpga' | exact Hsame]. }
  destruct (len =? HEALTH_PKT_SIZE_3_PORTS).
  { destruct (_ =? STATUS_ENABLE_ASSISTANT); [apply Hfpga' |].
    destruct (_ =? STATUS_ENABLE_MANAGER); [apply Hfpga' | exact Hsame]. }
  destruct (_ <=? len); [| exact Hsame].
  split; [right; reflexivity |].
  intros t. destruct t; cbn; auto.
Qed.

Lemma receive_effect rx : forall c,
  0 <= total_responses_received c <= 6 ->
  let c' := receive_health_responses rx c in
  total_responses_received c <= total_responses_received c' <= 6 /\
  total_responses_received c'
  <= total_responses_received c
     + Z.of_nat (length (List.filter Health.accepted rx)) /\
  forall t,
    length (ports (get_target t c')) = length (ports (get_target t c)) /\
    (device_info_valid (get_target t c) = true ->
     device (get_target t c') = device (get_target t c) /\
     device_info_valid (get_target t c') = true).
Proof.
  induction rx as [| [buffer len] rx IH]; intros c Hc; cbn zeta.
  - cbn. repeat split; auto; lia.
  - cbn [receive_health_responses List.filter].
    change (Health.accepted (buffer, len))
      with (is_health_response buffer len).
    unfold HEALTH_MONITOR_EXPECTED_RESPONSES.
    destruct (Z.ltb_spec (total_responses_received c) (2 + 3 + 1)).
    2:{ repeat split; auto; lia. }
    destruct (is_health_response buffer len).
    + destruct (parse_response_effect buffer len c) as [Ht Hd].
      cbn zeta in Ht, Hd.
      set (c1 := health_parse_response buffer len c) in *.
      assert (H1 : total_responses_received c
                   <= total_responses_received c1
                   <= total_responses_received c + 1
                   /\ total_responses_received c1 <= 6).
      { destruct Ht as [-> | ->]; [lia |].
        unfold wrap8. rewrite Z.mod_small by lia. lia. }
      destruct (IH c1 ltac:(lia)) as (Ha & Hb & Hc').
      cbn zeta in Ha, Hb, Hc'. cbn [length].
      split; [lia |]. split; [lia |].
      intros t. destruct (Hd t) as [Hl Hv], (Hc' t) as [Hl' Hv'].
      split; [congruence |].
      intros Hvalid. destruct (Hv Hvalid) as [E1 E2].
      destruct (Hv' E2) as [E3 E4]. split; congruence.
    + apply IH. exact Hc.
Qed.

Lemma receive_full rx : forall c,
  6 <= total_responses_received c -> receive_health_responses rx c = c.
Proof.
  intros c Hc. destruct rx as [| [buffer len] rx]; [reflexivity |].
  cbn [receive_health_responses]. unfold HEALTH_MONITOR_EXPECTED_RESPONSES.
  destruct (Z.ltb_spec (total_responses_received c) (2 + 3 + 1));
    [lia | reflexivity].
Qed.

Lemma receive_app rx1 : forall c rx2,
  receive_health_responses (rx1 ++ rx2) c
  = receive_health_responses rx2 (receive_health_responses rx1 c) \/
  (6 <= total_responses_received (receive_health_responses rx1 c) /\
   receive_health_responses (rx1 ++ rx2) c
   = receive_health_responses rx1 c).
Proof.
  induction rx1 as [| [buffer len] rx1 IH]; intros c rx2.
  - left. reflexivity.
  - cbn [receive_health_responses app].
    unfold HEALTH_MONITOR_EXPECTED_RESPONSES.
    destruct (Z.ltb_spec (total_responses_received c) (2 + 3 + 1)).
    + apply IH.
    + right. split; [lia | reflexivity].
Qed.

(** X27: A cycle never counts more than the six expected responses, nor more
    than the frames it accepted as health responses; once six are counted,
    whatever else arrives in the cycle is not looked at. *)
Theorem cycle_stops_at_six (rx more : list (list Z * Z)) :
  let c := receive_health_responses rx cycle_zero in
  0 <= total_responses_received c <= 6 /\
  total_responses_received c
  <= Z.of_nat (length (List.filter Health.accepted rx)) /\
  (total_responses_received c = 6 ->
   receive_health_responses (rx ++ more) cycle_zero = c).
Proof.
  cbn zeta.
  destruct (receive_effect rx cycle_zero ltac:(cbn; lia)) as (Ha & Hb & _).
  cbn zeta in Ha, Hb. cbn [total_responses_received cycle_zero] in Ha, Hb.
  split; [lia |]. split; [lia |].
  intros H6.
  destruct (receive_app rx cycle_zero more) as [-> | [_ ->]];
    [| reflexivity].
  apply receive_full. lia.
Qed.

Lemma receive_device rx : forall c t,
  device_info_valid (get_target t c) = true ->
  let c' := receive_health_responses rx c in
  device (get_target t c') = device (get_target t c) /\
  device_info_valid (get_target t c') = true /\
  length (ports (get_target t c')) = length (ports (get_target t c)).
Proof.
  induction rx as [| [buffer len] rx IH]; intros c t Hv; cbn zeta;
    [auto |].
  cbn [receive_health_responses].
  destruct (_ <? HEALTH_MONITOR_EXPECTED_RESPONSES); [| auto].
  destruct (is_health_response buffer len); [| apply IH, Hv].
  destruct (parse_response_effect buffer len c) as [_ Hd].
  destruct (Hd t) as [Hl Hk]. destruct (Hk Hv) as [E1 E2].
  destruct (IH _ t E2) as (E3 & E4 & E5). cbn zeta in *.
  repeat split; congruence.
Qed.

(** X28: Within a cycle the device information of an FPGA is that of its first
    header frame: once it is valid, no later frame of the cycle changes
    it, and the port table keeps its number of slots. *)
Theorem device_info_first_header_wins (rx : list (list Z * Z))
    (c : health_cycle_data) (t : fpga_target) :
  device_info_valid (get_target t c) = true ->
  let c' := receive_health_responses rx c in
  device (get_target t c') = device (get_target t c) /\
  device_info_valid (get_target t c') = true /\
  length (ports (get_target t c')) = length (ports (get_target t c)).
Proof. exact (receive_device rx c t). Qed.

Lemma device_info_first_header_wins_witness :
  let c := receive_health_responses
             [health_frame 1187 STATUS_ENABLE_ASSISTANT 111 8 0] cycle_zero in
  let rx := [health_frame 1083 0 7 8 8;
             health_frame 1187 STATUS_ENABLE_ASSISTANT 111 8 0] in
  device_info_valid (get_target TargetAssistant c) = true /\
  device (get_target TargetAssistant (receive_health_responses rx c))
  = device (get_target TargetAssistant c).
Proof.
  cbn zeta.
  assert (Hv : device_info_valid
                 (get_target TargetAssistant
                    (receive_health_responses
                       [health_frame 1187 STATUS_ENABLE_ASSISTANT 111 8 0]
                       cycle_zero)) = true)
    by (vm_compute; reflexivity).
  split; [exact Hv |].
  exact (proj1 (device_info_first_header_wins
                  [health_frame 1083 0 7 8 8;
                   health_frame 1187 STATUS_ENABLE_ASSISTANT 111 8 0]
                  (receive_health_responses
                     [health_frame 1187 STATUS_ENABLE_ASSISTANT 111 8 0]
                     cycle_zero)
                  TargetAssistant Hv)).
Defined.

(** ** The queries of the health monitor *)

Lemma next_sequence_closed seq :
  1 <= seq <= 255 -> Health.next_sequence seq = seq mod 255 + 1.
Proof.
  intros H. unfold Health.next_sequence.
  destruct (Z.leb_spec 255 seq).
  - replace seq with 255 by lia. reflexivity.
  - unfold wrap8. rewrite !Z.mod_small by lia. reflexivity.
Qed.

Lemma next_sequence_range seq :
  1 <= seq <= 255 -> 1 <= Health.next_sequence seq <= 255.
Proof.
  intros H. rewrite next_sequence_closed by exact H.
  pose proof (Z.mod_pos_bound seq 255 ltac:(lia)). lia.
Qed.

Lemma sequence_from_range n : forall seq,
  1 <= seq <= 255 ->
  Forall (fun sq => 1 <= sq <= 255) (Health.sequence_from seq n).
Proof.
  induction n as [| n IH]; intros seq H; [constructor |].
  cbn [Health.sequence_from]. constructor; [exact H |].
  apply IH, next_sequence_range, H.
Qed.

Lemma health_run_queries ios : forall st,
  1 <= Health.sequence st <= 255 ->
  let r := Health.health_run st ios in
  let n := length (List.filter Health.sent_ok ios) in
  snd r = map (fun sq => <[63%nat := sq]> (Health.query_packet st))
            (Health.sequence_from (Health.sequence st) n) /\
  Health.sequence (fst r)
  = (Health.sequence st - 1 + Z.of_nat n) mod 255 + 1.
Proof.
  induction ios as [| io ios IH]; intros st Hseq; cbn zeta.
  - cbn. split; [reflexivity |]. rewrite Z.add_0_r, Z.mod_small; lia.
  - cbn [Health.health_run List.filter]. unfold Health.health_cycle.
    cbn zeta.
    destruct (Health.sent_ok io); cbn [negb].
    + set (st1 := Health.Build_health_monitor_state _ _ _).
      assert (H1 : 1 <= Health.sequence st1 <= 255)
        by (apply next_sequence_range; exact Hseq).
      destruct (IH st1 H1) as [Hq Hs]. cbn zeta in Hq, Hs.
      destruct (Health.health_run st1 ios) as [st2 qs]. cbn [fst snd] in *.
      cbn [length Health.sequence_from map]. split.
      * f_equal. rewrite Hq. apply map_ext. intros sq.
        subst st1. cbn [Health.query_packet Health.send_health_query].
        apply list_insert_insert_eq.
      * rewrite Hs. subst st1. cbn [Health.sequence Health.send_health_query].
        rewrite next_sequence_closed by exact Hseq.
        replace (Health.sequence st mod 255 + 1 - 1
                 + Z.of_nat (length (List.filter Health.sent_ok ios)))
          with (Health.sequence st mod 255
                + Z.of_nat (length (List.filter Health.sent_ok ios))) by lia.
        rewrite Zplus_mod_idemp_l. f_equal. f_equal. lia.
    + destruct (IH (Health.send_health_query st) Hseq) as [Hq Hs].
      cbn zeta in Hq, Hs.
      destruct (Health.health_run (Health.send_health_query st) ios)
        as [st2 qs]. cbn [fst snd] in *.
      split; [| exact Hs].
      rewrite Hq. apply map_ext. intros sq.
      cbn [Health.query_packet Health.send_health_query].
      apply list_insert_insert_eq.
Qed.

(** X29: The queries of the monitor: one per pass whose send succeeds, each
    the 64-byte packet with only byte 63 replaced by the sequence number of
    that pass.  The numbers run seq, seq+1, ..., 255, 1, 2, ...: they stay
    in 1..255, so 0 is never sent, and a pass whose send fails does not
    use one up. *)
Theorem health_queries_sequence (st : Health.health_monitor_state)
    (ios : list Health.cycle_io) :
  length (Health.query_packet st) = 64%nat ->
  1 <= Health.sequence st <= 255 ->
  let r := Health.health_run st ios in
  let n := length (List.filter Health.sent_ok ios) in
  let seqs := Health.sequence_from (Health.sequence st) n in
  snd r = map (fun sq => <[63%nat := sq]> (Health.query_packet st)) seqs /\
  map (fun q => byte_at q 63) (snd r) = seqs /\
  Forall (fun q => length q = 64%nat /\
                   firstn 63 q = firstn 63 (Health.query_packet st))
    (snd r) /\
  Forall (fun sq => 1 <= sq <= 255) seqs /\
  Health.sequence (fst r)
  = (Health.sequence st - 1 + Z.of_nat n) mod 255 + 1.
Proof.
  intros Hlen Hseq. cbn zeta.
  destruct (health_run_queries ios st Hseq) as [Hq Hs]. cbn zeta in Hq, Hs.
  rewrite Hq. split; [reflexivity |].
  split; [| split; [| split; [apply sequence_from_range, Hseq | exact Hs]]].
  - rewrite map_map. rewrite <- (map_id (Health.sequence_from _ _)) at 2.
    apply map_ext. intros sq. unfold byte_at.
    change (Z.to_nat 63) with 63%nat.
    apply nth_lookup_Some, list_lookup_insert_eq. lia.
  - apply Forall_map. apply Forall_forall. intros sq _. cbn beta.
    split; [rewrite length_insert; exact Hlen |].
    apply take_insert_ge. lia.
Qed.

Lemma health_queries_sequence_witness :
  let ios := [Health.Build_cycle_io true health_cycle_frames 12;
              Health.Build_cycle_io false [] 0;
              Health.Build_cycle_io true [] 100] in
  map (fun q => byte_at q 63)
    (snd (Health.health_run Health.init_health_monitor ios)) = [0x2F; 0x30].
Proof.
  cbn zeta.
  destruct (health_queries_sequence Health.init_health_monitor
              [Health.Build_cycle_io true health_cycle_frames 12;
               Health.Build_cycle_io false [] 0;
               Health.Build_cycle_io true [] 100])
    as (_ & H & _).
  - reflexivity.
  - vm_compute. split; discriminate.
  - exact H.
Defined.
(** ** Big-endian counters of the health responses *)

Lemma lor_disjoint_add a lo n k :
  0 <= n -> a = k * 2 ^ n -> 0 <= lo < 2 ^ n -> Z.lor a lo = a + lo.
Proof.
  intros Hn -> Hlo. rewrite <- Z.shiftl_mul_pow2 by exact Hn.
  rewrite lor_shiftl_add by assumption.
  rewrite Z.shiftl_mul_pow2 by exact Hn. reflexivity.
Qed.

(** X30: The readers of the health responses return the big-endian value of
    the bytes at the offset, which fits the field: a 2-byte field is below
    2^16, a 5-byte field below 2^40 and a 6-byte counter below 2^48, so
    nothing is lost in the 64-bit result. *)
Theorem parse_be_values (buf : list Z) (o : Z) :
  Forall is_byte buf ->
  let b k := byte_at buf (o + k) in
  parse_2byte_be buf o = byte_at buf o * 2 ^ 8 + b 1 /\
  parse_5byte_be buf o
  = byte_at buf o * 2 ^ 32 + b 1 * 2 ^ 24 + b 2 * 2 ^ 16 + b 3 * 2 ^ 8 + b 4 /\
  parse_6byte_be buf o
  = byte_at buf o * 2 ^ 40 + b 1 * 2 ^ 32 + b 2 * 2 ^ 24 + b 3 * 2 ^ 16
    + b 4 * 2 ^ 8 + b 5 /\
  0 <= parse_2byte_be buf o < 2 ^ 16 /\
  0 <= parse_5byte_be buf o < 2 ^ 40 /\
  0 <= parse_6byte_be buf o < 2 ^ 48.
Proof.
  intros Hb. cbn zeta.
  pose proof (byte_at_is_byte buf o Hb) as H0.
  pose proof (byte_at_is_byte buf (o + 1) Hb) as H1.
  pose proof (byte_at_is_byte buf (o + 2) Hb) as H2.
  pose proof (byte_at_is_byte buf (o + 3) Hb) as H3.
  pose proof (byte_at_is_byte buf (o + 4) Hb) as H4.
  pose proof (byte_at_is_byte buf (o + 5) Hb) as H5.
  unfold is_byte in *.
  set (b0 := byte_at buf o) in *. set (b1 := byte_at buf (o + 1)) in *.
  set (b2 := byte_at buf (o + 2)) in *. set (b3 := byte_at buf (o + 3)) in *.
  set (b4 := byte_at buf (o + 4)) in *. set (b5 := byte_at buf (o + 5)) in *.
  assert (E2 : parse_2byte_be buf o = b0 * 2 ^ 8 + b1).
  { unfold parse_2byte_be. fold b0 b1.
    rewrite lor_shiftl_add by lia. unfold wrap16. apply Z.mod_small. lia. }
  assert (E5 : parse_5byte_be buf o
               = b0 * 2 ^ 32 + b1 * 2 ^ 24 + b2 * 2 ^ 16 + b3 * 2 ^ 8 + b4).
  { unfold parse_5byte_be. fold b0 b1 b2 b3 b4.
    rewrite !Z.shiftl_mul_pow2 by lia.
    rewrite (lor_disjoint_add (b0 * 2 ^ 32) _ 32 b0) by lia.
    rewrite (lor_disjoint_add _ (b2 * 2 ^ 16) 24 (b0 * 2 ^ 8 + b1)) by lia.
    rewrite (lor_disjoint_add _ (b3 * 2 ^ 8) 16
               (b0 * 2 ^ 16 + b1 * 2 ^ 8 + b2)) by lia.
    rewrite (lor_disjoint_add _ b4 8
               (b0 * 2 ^ 24 + b1 * 2 ^ 16 + b2 * 2 ^ 8 + b3)) by lia.
    unfold wrap64. apply Z.mod_small. lia. }
  assert (E6 : parse_6byte_be buf o
               = b0 * 2 ^ 40 + b1 * 2 ^ 32 + b2 * 2 ^ 24 + b3 * 2 ^ 16
                 + b4 * 2 ^ 8 + b5).
  { unfold parse_6byte_be. fold b0 b1 b2 b3 b4 b5.
    rewrite !Z.shiftl_mul_pow2 by lia.
    rewrite (lor_disjoint_add (b0 * 2 ^ 40) _ 40 b0) by lia.
    rewrite (lor_disjoint_add _ (b2 * 2 ^ 24) 32 (b0 * 2 ^ 8 + b1)) by lia.
    rewrite (lor_disjoint_add _ (b3 * 2 ^ 16) 24
               (b0 * 2 ^ 16 + b1 * 2 ^ 8 + b2)) by lia.
    rewrite (lor_disjoint_add _ (b4 * 2 ^ 8) 16
               (b0 * 2 ^ 24 + b1 * 2 ^ 16 + b2 * 2 ^ 8 + b3)) by lia.
    rewrite (lor_disjoint_add _ b5 8
               (b0 * 2 ^ 32 + b1 * 2 ^ 24 + b2 * 2 ^ 16 + b3 * 2 ^ 8 + b4))
      by lia.
    unfold wrap64. apply Z.mod_small. lia. }
  rewrite E2, E5, E6. repeat split; lia.
Qed.

Lemma parse_be_values_witness :
  parse_6byte_be [0x00; 0x00; 0x00; 0x01; 0x02; 0x03] 0 = 0x010203.
Proof.
  destruct (parse_be_values [0x00; 0x00; 0x00; 0x01; 0x02; 0x03] 0)
    as (_ & _ & H & _).
  - repeat constructor; unfold is_byte; lia.
  - exact H.
Defined.
